(** * Room presence detection: master/slave classifier and fusion

    Shallow embedding of
      examples/room_presence_detection/recv_master_RX1/main/app_main.c
      examples/room_presence_detection/recv_slave/main/app_main.c

    C [float] is IEEE-754 binary32, modelled with the parameterised
    specification of floating-point arithmetic of the Standard Library
    ([spec_float] at precision 24, maximal exponent 128); [uint32_t] is a
    [Z] with the wrap-around written out; C arrays are lists read with
    [!!!] and written with [<[i:=x]>]. *)

From Stdlib Require Import ZArith Bool List Lia Permutation Sorted.
From Stdlib Require Import Strings.Byte.
From Stdlib Require Import Floats.SpecFloat.
From stdpp Require Import base list.
Import ListNotations.

Local Open Scope Z_scope.

(** ** binary32 *)

Module F32.

Definition prec : Z := 24.
Definition emax : Z := 128.

Definition t : Type := spec_float.

Definition zero : t := S754_zero false.
Definition nan : t := S754_nan.

Definition add (x y : t) : t := SFadd prec emax x y.
Definition mul (x y : t) : t := SFmul prec emax x y.
Definition div (x y : t) : t := SFdiv prec emax x y.

(** C comparisons; each is false as soon as one side is a NaN. *)
Definition gt (x y : t) : bool := SFltb y x.
Definition ge (x y : t) : bool := SFleb y x.
Definition le (x y : t) : bool := SFleb x y.

(** Integer to float conversion, round to nearest even. *)
Definition of_Z (n : Z) : t := binary_normalize prec emax n 0 false.

(** The decimal literal [p/q] written with an [f] suffix: the binary32
    nearest to the rational [p/q] (both [p] and [q] are exactly
    representable, and [div] rounds correctly). *)
Definition lit (p q : Z) : t := div (of_Z p) (of_Z q).

(** Float to integer conversion truncates toward zero. *)
Definition trunc (x : t) : option Z :=
  match x with
  | S754_zero _ => Some 0
  | S754_finite s m e =>
      Some (cond_Zopp s
              (match e with
               | Z0 => Zpos m
               | Zpos _ => Zpos m * 2 ^ e
               | Zneg _ => Zpos m / 2 ^ (- e)
               end))
  | S754_infinity _ | S754_nan => None
  end.

(** [(size_t) x] on a 32-bit target: undefined ([None]) when the
    truncated value does not fit. *)
Definition to_size_t (x : t) : option Z :=
  match trunc x with
  | Some z => if (0 <=? z) && (z <? 2 ^ 32) then Some z else None
  | None => None
  end.

(** The value whose object representation is the 32-bit word [w]
    (what [memcpy] into a [float] gives); NaN payloads are not kept. *)
Definition of_bits (w : Z) : t :=
  let s := Z.testbit w 31 in
  let e := Z.land (Z.shiftr w 23) 255 in
  let f := Z.land w (2 ^ 23 - 1) in
  if e =? 255 then (if f =? 0 then S754_infinity s else S754_nan)
  else if e =? 0 then
    match f with
    | Zpos m => S754_finite s m (-149)
    | _ => S754_zero s
    end
  else
    match f + 2 ^ 23 with
    | Zpos m => S754_finite s m (e - 150)
    | _ => S754_zero s
    end.

(** The 32-bit word that represents [x] in memory (what [memcpy] out of
    a [float] gives): sign, biased exponent, fraction.  A NaN is written
    as the quiet NaN 0x7FC00000. *)
Definition to_bits (x : t) : Z :=
  match x with
  | S754_zero s => if s then 2 ^ 31 else 0
  | S754_infinity s => (if s then 2 ^ 31 else 0) + 255 * 2 ^ 23
  | S754_nan => 255 * 2 ^ 23 + 2 ^ 22
  | S754_finite s m e =>
      (if s then 2 ^ 31 else 0)
      + (if Zpos m <? 2 ^ 23 then Zpos m
         else (e + 150) * 2 ^ 23 + (Zpos m - 2 ^ 23))
  end.

Definition is_nan (x : t) : bool :=
  match x with S754_nan => true | _ => false end.

Definition valid (x : t) : bool := valid_binary prec emax x.

End F32.

Abbreviation f32 := F32.t.

#[global] Instance f32_inhabited : Inhabited f32 := populate F32.zero.

(** ** uint32_t *)

Module U32.
Definition modulus : Z := 2 ^ 32.
Definition wrap (x : Z) : Z := x mod modulus.
Definition add (x y : Z) : Z := wrap (x + y).
Definition sub (x y : Z) : Z := wrap (x - y).
End U32.

(** ** Statistic smoother (the same text in both firmwares) *)

Definition RADAR_BUFF_MAX_LEN : nat := 25.

(** [for (j = lo; j < hi; j++) body] as a fold over the index range. *)
Definition for_range {S : Type} (lo hi : nat) (body : S -> nat -> S) (s : S) : S :=
  fold_left body (seq lo (hi - lo)) s.

(** Body of the inner loop: compare [sorted[j]] with [sorted[j + 1]],
    exchange them when the first is greater. *)
Definition bubble_step (sorted : list f32) (j : nat) : list f32 :=
  if F32.gt (sorted !!! j) (sorted !!! (j + 1)%nat) then
    let temp := sorted !!! j in
    <[(j + 1)%nat := temp]> (<[j := sorted !!! (j + 1)%nat]> sorted)
  else sorted.

Definition bubble_sort (sorted : list f32) (len : nat) : list f32 :=
  for_range 0 (len - 1)
    (fun a i => for_range 0 (len - i - 1) bubble_step a) sorted.

(** [(size_t)(len * percent / 2)] *)
Definition trim_count (len : Z) (percent : f32) : option Z :=
  F32.to_size_t (F32.div (F32.mul (F32.of_Z len) percent) (F32.of_Z 2)).

(** [trimmean].  [heap] tells whether [malloc] returned a buffer.  The
    result is [None] where C leaves the behaviour undefined: the
    conversion of the trim count out of range, or a trim count above
    [len], for which [len - trim] wraps and the summing loop leaves the
    array. *)
Definition trimmean (heap : bool) (array : list f32) (len : nat) (percent : f32)
  : option f32 :=
  if (len =? 0)%nat then Some F32.zero
  else if negb heap then Some F32.zero
  else
    let sorted := bubble_sort (take len array) len in
    match trim_count (Z.of_nat len) percent with
    | None => None
    | Some trim =>
        let trim := Z.to_nat trim in
        if (len <? trim)%nat then None
        else
          let '(sum, count) :=
            for_range trim (len - trim)
              (fun '(sum, count) i => (F32.add sum (sorted !!! i), count + 1))
              (F32.zero, 0) in
          Some (if 0 <? count then F32.div sum (F32.of_Z count) else F32.zero)
    end.

Definition median (heap : bool) (array : list f32) (len : nat) : f32 :=
  if (len =? 0)%nat then F32.zero
  else if negb heap then F32.zero
  else
    let sorted := bubble_sort (take len array) len in
    if (len mod 2 =? 0)%nat then
      F32.div (F32.add (sorted !!! (len / 2 - 1)%nat) (sorted !!! (len / 2)%nat))
              (F32.of_Z 2)
    else sorted !!! (len / 2)%nat.

(** ** Wire format helpers *)

#[global] Instance byte_inhabited : Inhabited byte := populate x00.

Definition byte_val (b : byte) : Z := Z.of_N (Byte.to_N b).

(** A 32-bit little-endian word starting at offset [off] of [data]. *)
Definition word_at (data : list byte) (off : nat) : Z :=
  byte_val (data !!! off)
  + Z.shiftl (byte_val (data !!! (off + 1)%nat)) 8
  + Z.shiftl (byte_val (data !!! (off + 2)%nat)) 16
  + Z.shiftl (byte_val (data !!! (off + 3)%nat)) 24.

(** [memcpy (&f, data + off, 4)] for a [float f]. *)
Definition float_at (data : list byte) (off : nat) : f32 :=
  F32.of_bits (word_at data off).

(** The byte of value [z mod 256]: a conversion to [uint8_t]. *)
Definition byte_of_Z (z : Z) : byte :=
  default x00 (Byte.of_N (Z.to_N (z mod 256))).

(** The four bytes of a 32-bit word in memory, least significant
    first. *)
Definition bytes_of_word (w : Z) : list byte :=
  [byte_of_Z w; byte_of_Z (Z.shiftr w 8);
   byte_of_Z (Z.shiftr w 16); byte_of_Z (Z.shiftr w 24)].

(** The four bytes of a [float] in memory. *)
Definition bytes_of_float (x : f32) : list byte :=
  bytes_of_word (F32.to_bits x).

(** [(int) x] for a [uint32_t x], as the compiler of the target defines
    it: the value modulo [2 ^ 32] in the range of [int]. *)
Definition int_of_u32 (x : Z) : Z := if x <? 2 ^ 31 then x else x - 2 ^ 32.

(** The string that starts at [buf]: the bytes before the first NUL. *)
Fixpoint c_string (buf : list byte) : list byte :=
  match buf with
  | [] => []
  | b :: buf' => if Byte.eqb b x00 then [] else b :: c_string buf'
  end.

Fixpoint starts_with (needle s : list byte) : bool :=
  match needle, s with
  | [], _ => true
  | _ :: _, [] => false
  | a :: needle', b :: s' => Byte.eqb a b && starts_with needle' s'
  end.

(** Whether [strstr (haystack, needle)] finds an occurrence. *)
Fixpoint strstr (haystack needle : list byte) : bool :=
  starts_with needle haystack
  || match haystack with
     | [] => false
     | _ :: haystack' => strstr haystack' needle
     end.

(** The colour handed to [led_strip_set_pixel]. *)
Record pixel := { red : Z; green : Z; blue : Z }.

(** What the sensing library hands to [wifi_radar_cb]. *)
Record wifi_radar_info_t := {
  waveform_wander : f32;
  waveform_jitter : f32
}.

(** ** Master receiver (recv_master_RX1) *)

Module Master.

Definition MAX_SLAVE_NODES : Z := 2.
Definition LINK_TIMEOUT_MS : Z := 3000.

Module Link.
Record link_status_t := {
  active : bool;
  room_status : bool;
  human_status : bool;
  wander : f32;
  jitter : f32;
  rssi : Z;
  last_update : Z;
  wander_sensitivity : f32;
  jitter_sensitivity : f32
}.

Definition set_active (b : bool) (l : link_status_t) : link_status_t :=
  {| active := b; room_status := room_status l;
     human_status := human_status l; wander := wander l;
     jitter := jitter l; rssi := rssi l; last_update := last_update l;
     wander_sensitivity := wander_sensitivity l;
     jitter_sensitivity := jitter_sensitivity l |}.

Definition set_room_status (b : bool) (l : link_status_t) : link_status_t :=
  {| active := active l; room_status := b;
     human_status := human_status l; wander := wander l;
     jitter := jitter l; rssi := rssi l; last_update := last_update l;
     wander_sensitivity := wander_sensitivity l;
     jitter_sensitivity := jitter_sensitivity l |}.

Definition set_human_status (b : bool) (l : link_status_t) : link_status_t :=
  {| active := active l; room_status := room_status l;
     human_status := b; wander := wander l;
     jitter := jitter l; rssi := rssi l; last_update := last_update l;
     wander_sensitivity := wander_sensitivity l;
     jitter_sensitivity := jitter_sensitivity l |}.

Definition set_wander_sensitivity (x : f32) (l : link_status_t) : link_status_t :=
  {| active := active l; room_status := room_status l;
     human_status := human_status l; wander := wander l;
     jitter := jitter l; rssi := rssi l; last_update := last_update l;
     wander_sensitivity := x;
     jitter_sensitivity := jitter_sensitivity l |}.

Definition set_jitter_sensitivity (x : f32) (l : link_status_t) : link_status_t :=
  {| active := active l; room_status := room_status l;
     human_status := human_status l; wander := wander l;
     jitter := jitter l; rssi := rssi l; last_update := last_update l;
     wander_sensitivity := wander_sensitivity l;
     jitter_sensitivity := x |}.
End Link.
Abbreviation link_status_t := Link.link_status_t.

#[global] Instance link_inhabited : Inhabited link_status_t :=
  populate {| Link.active := false; Link.room_status := false;
              Link.human_status := false; Link.wander := F32.zero;
              Link.jitter := F32.zero; Link.rssi := 0;
              Link.last_update := 0;
              Link.wander_sensitivity := F32.zero;
              Link.jitter_sensitivity := F32.zero |}.

Record master_state_t := {
  wander_buff : list f32;
  jitter_buff : list f32;
  buff_count : Z;
  wander_threshold : f32;
  jitter_threshold : f32;
  links : list link_status_t;
  room_status : bool;
  human_status : bool;
  calibrating : bool;
  calibration_start_time : Z;
  calibration_duration_ms : Z
}.

Definition set_links (ls : list link_status_t) (st : master_state_t) :=
  {| wander_buff := wander_buff st; jitter_buff := jitter_buff st;
     buff_count := buff_count st; wander_threshold := wander_threshold st;
     jitter_threshold := jitter_threshold st; links := ls;
     room_status := room_status st; human_status := human_status st;
     calibrating := calibrating st;
     calibration_start_time := calibration_start_time st;
     calibration_duration_ms := calibration_duration_ms st |}.

Definition set_fused (room human : bool) (st : master_state_t) :=
  {| wander_buff := wander_buff st; jitter_buff := jitter_buff st;
     buff_count := buff_count st; wander_threshold := wander_threshold st;
     jitter_threshold := jitter_threshold st; links := links st;
     room_status := room; human_status := human;
     calibrating := calibrating st;
     calibration_start_time := calibration_start_time st;
     calibration_duration_ms := calibration_duration_ms st |}.

Definition set_buffers (wb jb : list f32) (count : Z) (st : master_state_t) :=
  {| wander_buff := wb; jitter_buff := jb;
     buff_count := count; wander_threshold := wander_threshold st;
     jitter_threshold := jitter_threshold st; links := links st;
     room_status := room_status st; human_status := human_status st;
     calibrating := calibrating st;
     calibration_start_time := calibration_start_time st;
     calibration_duration_ms := calibration_duration_ms st |}.

Definition set_calibration (b : bool) (start : Z) (st : master_state_t) :=
  {| wander_buff := wander_buff st; jitter_buff := jitter_buff st;
     buff_count := buff_count st; wander_threshold := wander_threshold st;
     jitter_threshold := jitter_threshold st; links := links st;
     room_status := room_status st; human_status := human_status st;
     calibrating := b;
     calibration_start_time := start;
     calibration_duration_ms := calibration_duration_ms st |}.

Definition set_thresholds (w j : f32) (st : master_state_t) :=
  {| wander_buff := wander_buff st; jitter_buff := jitter_buff st;
     buff_count := buff_count st; wander_threshold := w;
     jitter_threshold := j; links := links st;
     room_status := room_status st; human_status := human_status st;
     calibrating := calibrating st;
     calibration_start_time := calibration_start_time st;
     calibration_duration_ms := calibration_duration_ms st |}.

(** The static initialiser of [g_state]; members it does not name are
    zero. *)
Definition default_link : link_status_t :=
  {| Link.active := false; Link.room_status := false;
     Link.human_status := false; Link.wander := F32.zero;
     Link.jitter := F32.zero; Link.rssi := 0; Link.last_update := 0;
     Link.wander_sensitivity := F32.lit 15 100;
     Link.jitter_sensitivity := F32.lit 20 100 |}.

Definition g_state : master_state_t :=
  {| wander_buff := replicate RADAR_BUFF_MAX_LEN F32.zero;
     jitter_buff := replicate RADAR_BUFF_MAX_LEN F32.zero;
     buff_count := 0;
     wander_threshold := F32.zero;
     jitter_threshold := F32.lit 3 10000;
     links := [default_link; default_link; default_link];
     room_status := false;
     human_status := false;
     calibrating := false;
     calibration_start_time := 0;
     calibration_duration_ms := 30000 |}.

(** [recalculate_link_status]: value * sensitivity > threshold, behind
    the gate [threshold > 0]. *)
Definition recalculate_link_status (st : master_state_t) (link_idx : nat)
  : master_state_t :=
  let link := links st !!! link_idx in
  if negb (Link.active link) then st
  else
    let link :=
      if F32.gt (wander_threshold st) (F32.of_Z 0) then
        Link.set_room_status
          (F32.gt (F32.mul (Link.wander link) (Link.wander_sensitivity link))
                  (wander_threshold st)) link
      else Link.set_room_status false link in
    let link :=
      if F32.gt (jitter_threshold st) (F32.of_Z 0) then
        Link.set_human_status
          (F32.gt (F32.mul (Link.jitter link) (Link.jitter_sensitivity link))
                  (jitter_threshold st)) link
      else Link.set_human_status false link in
    set_links (<[link_idx := link]> (links st)) st.

Record fuse_counters := {
  detection_count : Z;
  motion_count : Z;
  active_count : Z
}.

(** Body of the loop over the three links in [fuse_detection_results]. *)
Definition fuse_link (now : Z) (acc : master_state_t * fuse_counters) (i : nat)
  : master_state_t * fuse_counters :=
  let '(st, c) := acc in
  if Link.active (links st !!! i)
     && (U32.sub now (Link.last_update (links st !!! i)) <? LINK_TIMEOUT_MS)
  then
    let active_count := active_count c + 1 in
    let st := if (i =? 0)%nat then recalculate_link_status st i else st in
    let detection_count :=
      if Link.room_status (links st !!! i) || Link.human_status (links st !!! i)
      then detection_count c + 1 else detection_count c in
    let motion_count :=
      if Link.human_status (links st !!! i)
      then motion_count c + 1 else motion_count c in
    (st, {| detection_count := detection_count;
            motion_count := motion_count;
            active_count := active_count |})
  else
    (set_links (<[i := Link.set_active false (links st !!! i)]> (links st)) st, c).

Definition fuse_loop (st : master_state_t) (now : Z)
  : master_state_t * fuse_counters :=
  for_range 0 3 (fuse_link now)
    (st, {| detection_count := 0; motion_count := 0; active_count := 0 |}).

(** [fuse_detection_results], with [now] the value read from
    [esp_log_timestamp ()].  The LED refresh at its end reads the state
    and leaves it as it is. *)
Definition fuse_detection_results (st : master_state_t) (now : Z)
  : master_state_t :=
  let '(st, c) := fuse_loop st now in
  let min_detection := if 2 <=? active_count c then 2 else 1 in
  let room := min_detection <=? detection_count c in
  let human := room && (min_detection <=? motion_count c) in
  set_fused room human st.

(** [wifi_radar_cb] of the master: [heap_w] and [heap_j] are the
    outcomes of the two allocations, [t_update] and [t_fuse] the two
    readings of the clock. *)
Definition wifi_radar_cb (st : master_state_t) (info : wifi_radar_info_t)
    (heap_w heap_j : bool) (t_update t_fuse : Z) : option master_state_t :=
  let buff_min_size := 5 in
  let slot := Z.to_nat (buff_count st mod Z.of_nat RADAR_BUFF_MAX_LEN) in
  let st :=
    set_buffers (<[slot := waveform_wander info]> (wander_buff st))
                (<[slot := waveform_jitter info]> (jitter_buff st))
                (U32.add (buff_count st) 1) st in
  if buff_count st <? buff_min_size then Some st
  else
    match trimmean heap_w (wander_buff st) RADAR_BUFF_MAX_LEN (F32.lit 5 10) with
    | None => None
    | Some wander_avg =>
        let jitter_med := median heap_j (jitter_buff st) RADAR_BUFF_MAX_LEN in
        let l := links st !!! 0%nat in
        let l :=
          {| Link.active := true; Link.room_status := Link.room_status l;
             Link.human_status := Link.human_status l;
             Link.wander := wander_avg; Link.jitter := jitter_med;
             Link.rssi := Link.rssi l; Link.last_update := t_update;
             Link.wander_sensitivity := Link.wander_sensitivity l;
             Link.jitter_sensitivity := Link.jitter_sensitivity l |} in
        Some (fuse_detection_results (set_links (<[0%nat := l]> (links st)) st) t_fuse)
    end.

(** The packed [slave_report_t] occupies 17 bytes. *)
Definition sizeof_slave_report_t : nat := 17.

(** [espnow_recv_cb] of the master: a report from slave 1 or 2. *)
Definition espnow_recv_cb (st : master_state_t) (data : list byte)
    (t_update t_fuse : Z) : master_state_t :=
  if (length data <? sizeof_slave_report_t)%nat then st
  else
    let msg_type := byte_val (data !!! 0%nat) in
    let node_id := byte_val (data !!! 1%nat) in
    if (msg_type =? 1) && (1 <=? node_id) && (node_id <=? MAX_SLAVE_NODES) then
      let link_idx := Z.to_nat node_id in
      let l := links st !!! link_idx in
      let rssi := byte_val (data !!! 12%nat) in
      let l :=
        {| Link.active := true;
           Link.room_status := negb (byte_val (data !!! 2%nat) =? 0);
           Link.human_status := negb (byte_val (data !!! 3%nat) =? 0);
           Link.wander := float_at data 4;
           Link.jitter := float_at data 8;
           Link.rssi := if rssi <? 128 then rssi else rssi - 256;
           Link.last_update := t_update;
           Link.wander_sensitivity := Link.wander_sensitivity l;
           Link.jitter_sensitivity := Link.jitter_sensitivity l |} in
      fuse_detection_results (set_links (<[link_idx := l]> (links st)) st) t_fuse
    else st.

(** The "start" branch of [http_post_calibrate]. *)
Definition calibration_start (st : master_state_t) (now : Z) : master_state_t :=
  set_calibration true now st.

(** [finish_calibration]: [trained] is the pair of thresholds that
    [esp_radar_train_stop] writes. *)
Definition finish_calibration (st : master_state_t) (trained : f32 * f32)
  : master_state_t :=
  if negb (calibrating st) then st
  else
    set_calibration false (calibration_start_time st)
      (set_thresholds (fst trained) (snd trained) st).

(** What [http_post_sensitivity] answers, and the command it
    broadcasts. *)
Inductive sensitivity_reply :=
| ReplyInvalidLink
| ReplyLink (link : Z) (wander_sens jitter_sens : f32).

Record sensitivity_cmd := {
  cmd_target : Z;
  cmd_wander_sensitivity : f32;
  cmd_jitter_sensitivity : f32
}.

(** [http_post_sensitivity] from "Validate and update" on, applied to
    the three values parsed out of the request body ([link_idx] is -1
    and a sensitivity is -1 when its key is absent). *)
Definition http_post_sensitivity (st : master_state_t) (link_idx : Z)
    (wander_sens jitter_sens : f32)
  : master_state_t * option sensitivity_cmd * sensitivity_reply :=
  if (link_idx <? 0) || (2 <? link_idx) then (st, None, ReplyInvalidLink)
  else
    let i := Z.to_nat link_idx in
    let l := links st !!! i in
    let l :=
      if F32.ge wander_sens (F32.lit 1 1000) && F32.le wander_sens (F32.of_Z 5)
      then Link.set_wander_sensitivity wander_sens l else l in
    let l :=
      if F32.ge jitter_sens (F32.lit 1 1000) && F32.le jitter_sens (F32.of_Z 5)
      then Link.set_jitter_sensitivity jitter_sens l else l in
    let st := set_links (<[i := l]> (links st)) st in
    let cmd :=
      if 0 <? link_idx then
        Some {| cmd_target := link_idx;
                cmd_wander_sensitivity := Link.wander_sensitivity l;
                cmd_jitter_sensitivity := Link.jitter_sensitivity l |}
      else None in
    (st, cmd, ReplyLink link_idx (Link.wander_sensitivity l)
                        (Link.jitter_sensitivity l)).

(** The callbacks and handlers as the events of a run of the master. *)
Inductive event :=
| Radar (info : wifi_radar_info_t) (heap_w heap_j : bool) (t_update t_fuse : Z)
| Report (data : list byte) (t_update t_fuse : Z)
| CalibrateStart (now : Z)
| CalibrateStop (trained : f32 * f32)
| PostSensitivity (link_idx : Z) (wander_sens jitter_sens : f32).

Definition step (st : master_state_t) (ev : event) : option master_state_t :=
  match ev with
  | Radar info heap_w heap_j t_update t_fuse =>
      wifi_radar_cb st info heap_w heap_j t_update t_fuse
  | Report data t_update t_fuse => Some (espnow_recv_cb st data t_update t_fuse)
  | CalibrateStart now => Some (calibration_start st now)
  | CalibrateStop trained => Some (finish_calibration st trained)
  | PostSensitivity link_idx wander_sens jitter_sens =>
      Some (fst (fst (http_post_sensitivity st link_idx wander_sens jitter_sens)))
  end.

Fixpoint run (st : master_state_t) (evs : list event) : option master_state_t :=
  match evs with
  | [] => Some st
  | ev :: evs' =>
      match step st ev with
      | Some st' => run st' evs'
      | None => None
      end
  end.

(** [broadcast_calibration_cmd]: the one byte handed to
    [esp_now_send]. *)
Definition broadcast_calibration_cmd (cmd : Z) : list byte := [byte_of_Z cmd].

(** The ten bytes of [cmd_buf] that [http_post_sensitivity]
    broadcasts. *)
Definition cmd_buf (c : sensitivity_cmd) : list byte :=
  [x13; byte_of_Z (cmd_target c)]
  ++ bytes_of_float (cmd_wander_sensitivity c)
  ++ bytes_of_float (cmd_jitter_sensitivity c).

(** The persisted blobs of the "presence" namespace of the master; a
    key may be missing. *)
Record nvs_blobs := {
  nvs_wander_th : option f32;
  nvs_jitter_th : option f32;
  nvs_link0_w_sens : option f32;
  nvs_link0_j_sens : option f32;
  nvs_link1_w_sens : option f32;
  nvs_link1_j_sens : option f32;
  nvs_link2_w_sens : option f32;
  nvs_link2_j_sens : option f32
}.

(** [nvs_save_settings]: nothing is written when the namespace cannot
    be opened ([opened] false); once it is open the eight blobs are
    written. *)
Definition nvs_save_settings (opened : bool) (nvs : option nvs_blobs)
    (st : master_state_t) : option nvs_blobs :=
  if negb opened then nvs
  else
    Some {| nvs_wander_th := Some (wander_threshold st);
            nvs_jitter_th := Some (jitter_threshold st);
            nvs_link0_w_sens := Some (Link.wander_sensitivity (links st !!! 0%nat));
            nvs_link0_j_sens := Some (Link.jitter_sensitivity (links st !!! 0%nat));
            nvs_link1_w_sens := Some (Link.wander_sensitivity (links st !!! 1%nat));
            nvs_link1_j_sens := Some (Link.jitter_sensitivity (links st !!! 1%nat));
            nvs_link2_w_sens := Some (Link.wander_sensitivity (links st !!! 2%nat));
            nvs_link2_j_sens := Some (Link.jitter_sensitivity (links st !!! 2%nat)) |}.

(** One pair of [nvs_get_blob] calls into the sensitivities of a
    link. *)
Definition load_link (w j : option f32) (l : link_status_t) : link_status_t :=
  Link.set_jitter_sensitivity (default (Link.jitter_sensitivity l) j)
    (Link.set_wander_sensitivity (default (Link.wander_sensitivity l) w) l).

(** [nvs_load_settings]: [None] when the namespace cannot be opened; a
    key that cannot be read leaves its variable as it is. *)
Definition nvs_load_settings (nvs : option nvs_blobs) (st : master_state_t)
  : master_state_t :=
  match nvs with
  | None => st
  | Some b =>
      let st :=
        set_thresholds (default (wander_threshold st) (nvs_wander_th b))
                       (default (jitter_threshold st) (nvs_jitter_th b)) st in
      let ls := links st in
      let ls := <[0%nat := load_link (nvs_link0_w_sens b) (nvs_link0_j_sens b)
                                     (ls !!! 0%nat)]> ls in
      let ls := <[1%nat := load_link (nvs_link1_w_sens b) (nvs_link1_j_sens b)
                                     (ls !!! 1%nat)]> ls in
      let ls := <[2%nat := load_link (nvs_link2_w_sens b) (nvs_link2_j_sens b)
                                     (ls !!! 2%nat)]> ls in
      set_links ls st
  end.

(** The state with which [app_main] starts the radar. *)
Definition boot (nvs : option nvs_blobs) : master_state_t :=
  nvs_load_settings nvs g_state.

(** [led_update] on an initialised strip: the colour written, and the
    static [blink] after the call. *)
Definition led_update (st : master_state_t) (blink : bool) : pixel * bool :=
  if calibrating st then
    ({| red := if blink then 255 else 0; green := if blink then 255 else 0;
        blue := 0 |}, negb blink)
  else if room_status st then
    if human_status st then ({| red := 0; green := 255; blue := 0 |}, blink)
    else ({| red := 255; green := 255; blue := 255 |}, blink)
  else ({| red := 0; green := 0; blue := 0 |}, blink).

(** [finish_calibration] with what it does outside [g_state]: the
    command it broadcasts and the settings it saves. *)
Definition finish_calibration_io (st : master_state_t) (trained : f32 * f32)
    (opened : bool) (nvs : option nvs_blobs)
  : master_state_t * option (list byte) * option nvs_blobs :=
  if negb (calibrating st) then (st, None, nvs)
  else
    let st := finish_calibration st trained in
    (st, Some (broadcast_calibration_cmd 17), nvs_save_settings opened nvs st).

Inductive calibrate_reply :=
| ReplyNoBody
| ReplyCalibrating
| ReplyDone (wander_th jitter_th : f32)
| ReplyInvalidAction.

(** [http_post_calibrate]: [buf] holds the bytes that [httpd_req_recv]
    stored, 63 at most, none when it failed. *)
Definition http_post_calibrate (st : master_state_t) (buf : list byte) (now : Z)
    (trained : f32 * f32) (opened : bool) (nvs : option nvs_blobs)
  : master_state_t * option (list byte) * option nvs_blobs * calibrate_reply :=
  if (length buf <=? 0)%nat then (st, None, nvs, ReplyNoBody)
  else if strstr (c_string buf) [x73; x74; x61; x72; x74] then
    (calibration_start st now, Some (broadcast_calibration_cmd 16), nvs,
     ReplyCalibrating)
  else if strstr (c_string buf) [x73; x74; x6f; x70] then
    let '(st, out, nvs) := finish_calibration_io st trained opened nvs in
    (st, out, nvs, ReplyDone (wander_threshold st) (jitter_threshold st))
  else (st, None, nvs, ReplyInvalidAction).

(** The timeout check of [ws_broadcast_task], with [now] the reading of
    the clock. *)
Definition calibration_timeout (st : master_state_t) (now : Z)
    (trained : f32 * f32) : master_state_t :=
  if calibrating st then
    let elapsed := U32.sub now (calibration_start_time st) in
    if calibration_duration_ms st <=? elapsed then finish_calibration st trained
    else st
  else st.

(** The [calib_remaining] that [ws_broadcast_task] publishes. *)
Definition calib_remaining (st : master_state_t) (now : Z) : Z :=
  if calibrating st then
    let elapsed := U32.sub now (calibration_start_time st) in
    let remaining :=
      Z.quot (int_of_u32 (U32.sub (calibration_duration_ms st) elapsed)) 1000 in
    if remaining <? 0 then 0 else remaining
  else 0.

Definition MAX_WS_CLIENTS : nat := 4.

(** The static initialiser of [g_ws_clients]. *)
Definition g_ws_clients : list Z := [-1; -1; -1; -1].

(** A loop over the client slots that stops at the first slot that
    satisfies [hit], which it overwrites with [v]. *)
Definition first_slot (hit : Z -> bool) (v : Z) (clients : list Z) : list Z :=
  fst (for_range 0 MAX_WS_CLIENTS
         (fun '(cl, stop) i =>
            if stop : bool then (cl, stop)
            else if hit (cl !!! i) then (<[i := v]> cl, true)
            else (cl, false))
         (clients, false)).

Definition ws_add_client (clients : list Z) (fd : Z) : list Z :=
  first_slot (fun c => c <? 0) fd clients.

Definition ws_remove_client (clients : list Z) (fd : Z) : list Z :=
  first_slot (fun c => c =? fd) (-1) clients.

(** [ws_broadcast]: the descriptors for which a send is queued, in slot
    order; [queued i] tells whether the allocation and
    [httpd_queue_work] succeeded for slot [i]. *)
Definition ws_broadcast (clients : list Z) (queued : nat -> bool) : list Z :=
  for_range 0 MAX_WS_CLIENTS
    (fun acc i =>
       let fd := clients !!! i in
       if (0 <=? fd) && queued i then acc ++ [fd] else acc)
    [].

End Master.

(** ** Slave receiver (recv_slave) *)

Module Slave.

Record detection_state_t := {
  wander_buff : list f32;
  jitter_buff : list f32;
  buff_count : Z;
  wander_threshold : f32;
  jitter_threshold : f32;
  wander_sensitivity : f32;
  jitter_sensitivity : f32;
  room_status : bool;
  human_status : bool;
  calibrating : bool
}.

Definition set_buffers (wb jb : list f32) (count : Z) (d : detection_state_t) :=
  {| wander_buff := wb; jitter_buff := jb; buff_count := count;
     wander_threshold := wander_threshold d;
     jitter_threshold := jitter_threshold d;
     wander_sensitivity := wander_sensitivity d;
     jitter_sensitivity := jitter_sensitivity d;
     room_status := room_status d; human_status := human_status d;
     calibrating := calibrating d |}.

Definition set_status (room human : bool) (d : detection_state_t) :=
  {| wander_buff := wander_buff d; jitter_buff := jitter_buff d;
     buff_count := buff_count d;
     wander_threshold := wander_threshold d;
     jitter_threshold := jitter_threshold d;
     wander_sensitivity := wander_sensitivity d;
     jitter_sensitivity := jitter_sensitivity d;
     room_status := room; human_status := human;
     calibrating := calibrating d |}.

Definition set_calibrating (b : bool) (d : detection_state_t) :=
  {| wander_buff := wander_buff d; jitter_buff := jitter_buff d;
     buff_count := buff_count d;
     wander_threshold := wander_threshold d;
     jitter_threshold := jitter_threshold d;
     wander_sensitivity := wander_sensitivity d;
     jitter_sensitivity := jitter_sensitivity d;
     room_status := room_status d; human_status := human_status d;
     calibrating := b |}.

Definition set_thresholds (w j : f32) (d : detection_state_t) :=
  {| wander_buff := wander_buff d; jitter_buff := jitter_buff d;
     buff_count := buff_count d;
     wander_threshold := w;
     jitter_threshold := j;
     wander_sensitivity := wander_sensitivity d;
     jitter_sensitivity := jitter_sensitivity d;
     room_status := room_status d; human_status := human_status d;
     calibrating := calibrating d |}.

Definition set_sensitivity (w j : f32) (d : detection_state_t) :=
  {| wander_buff := wander_buff d; jitter_buff := jitter_buff d;
     buff_count := buff_count d;
     wander_threshold := wander_threshold d;
     jitter_threshold := jitter_threshold d;
     wander_sensitivity := w;
     jitter_sensitivity := j;
     room_status := room_status d; human_status := human_status d;
     calibrating := calibrating d |}.

(** The static initialiser of [g_detect]. *)
Definition g_detect : detection_state_t :=
  {| wander_buff := replicate RADAR_BUFF_MAX_LEN F32.zero;
     jitter_buff := replicate RADAR_BUFF_MAX_LEN F32.zero;
     buff_count := 0;
     wander_threshold := F32.lit 1 100;
     jitter_threshold := F32.lit 1 1000;
     wander_sensitivity := F32.lit 15 100;
     jitter_sensitivity := F32.lit 20 100;
     room_status := false;
     human_status := false;
     calibrating := false |}.

Definition CONFIG_SLAVE_NODE_ID : Z := 2.

(** The persisted blobs of the "presence" namespace; a key may be
    missing. *)
Record nvs_blobs := {
  nvs_wander_th : option f32;
  nvs_jitter_th : option f32;
  nvs_wander_sens : option f32;
  nvs_jitter_sens : option f32
}.

(** [nvs_load_settings]: [None] when the namespace cannot be opened; a
    key that cannot be read leaves its variable as it is. *)
Definition nvs_load_settings (nvs : option nvs_blobs) (d : detection_state_t)
  : detection_state_t :=
  match nvs with
  | None => d
  | Some b =>
      set_sensitivity
        (default (wander_sensitivity d) (nvs_wander_sens b))
        (default (jitter_sensitivity d) (nvs_jitter_sens b))
        (set_thresholds
           (default (wander_threshold d) (nvs_wander_th b))
           (default (jitter_threshold d) (nvs_jitter_th b)) d)
  end.

Module Report.
Record slave_report_t := {
  msg_type : Z;
  node_id : Z;
  room_status : Z;
  human_status : Z;
  wander : f32;
  jitter : f32;
  rssi : Z;
  timestamp : Z
}.
End Report.
Abbreviation slave_report_t := Report.slave_report_t.

(** The node: [g_detect], [g_node_id] and the static
    [s_last_send_time] of [wifi_radar_cb]. *)
Record slave_t := {
  detect : detection_state_t;
  g_node_id : Z;
  s_last_send_time : Z
}.

(** The start of [app_main]: the settings are loaded, then the node id
    is read from the "config" namespace when it holds one. *)
Definition boot (nvs : option nvs_blobs) (config_node_id : option Z) : slave_t :=
  {| detect := nvs_load_settings nvs g_detect;
     g_node_id := default CONFIG_SLAVE_NODE_ID config_node_id;
     s_last_send_time := 0 |}.

(** What one run of [wifi_radar_cb] does to the outside: the arguments
    of [led_update_status], when it is called, and the report handed to
    [esp_now_send], when one is sent. *)
Record cb_effects := {
  led : option (bool * bool * bool);
  sent : option slave_report_t
}.

Definition send_result_to_master (s : slave_t) (wander jitter : f32) (rssi : Z)
    (timestamp : Z) : slave_report_t :=
  {| Report.msg_type := 1;
     Report.node_id := g_node_id s;
     Report.room_status := if room_status (detect s) then 1 else 0;
     Report.human_status := if human_status (detect s) then 1 else 0;
     Report.wander := wander;
     Report.jitter := jitter;
     Report.rssi := rssi;
     Report.timestamp := timestamp |}.

(** Body of the voting loop of [wifi_radar_cb]; the accumulator is
    [(someone_count, move_count)]. *)
Definition vote_step (d : detection_state_t) (wander_average jitter_median : f32)
    (has_valid_threshold : bool) (acc : Z * Z) (i : nat) : Z * Z :=
  let '(someone_count, move_count) := acc in
  let someone_count :=
    if has_valid_threshold
       && F32.gt (F32.mul wander_average (wander_sensitivity d))
                 (wander_threshold d)
    then someone_count + 1 else someone_count in
  let index :=
    Z.to_nat (U32.sub (U32.sub (buff_count d) 1) (Z.of_nat i)
              mod Z.of_nat RADAR_BUFF_MAX_LEN) in
  let move_count :=
    if F32.gt (jitter_threshold d) (F32.lit 1 10000)
       && (F32.gt (F32.mul (jitter_buff d !!! index) (jitter_sensitivity d))
                  (jitter_threshold d)
           || (F32.gt (F32.mul (jitter_buff d !!! index) (jitter_sensitivity d))
                      jitter_median
               && F32.gt (jitter_buff d !!! index) (F32.lit 2 10000)))
    then move_count + 1 else move_count in
  (someone_count, move_count).

(** [wifi_radar_cb] of the slave: [heap_w] and [heap_j] are the
    outcomes of the two allocations, [now] and [t_report] the readings
    of the clock for the rate limit and for the report. *)
Definition wifi_radar_cb (s : slave_t) (info : wifi_radar_info_t)
    (heap_w heap_j : bool) (now t_report : Z) : option (slave_t * cb_effects) :=
  let buff_max_size := 5%nat in
  let buff_outliers_num := 2 in
  let d := detect s in
  let slot := Z.to_nat (buff_count d mod Z.of_nat RADAR_BUFF_MAX_LEN) in
  let d :=
    set_buffers (<[slot := waveform_wander info]> (wander_buff d))
                (<[slot := waveform_jitter info]> (jitter_buff d))
                (U32.add (buff_count d) 1) d in
  if buff_count d <? Z.of_nat buff_max_size then
    Some ({| detect := d; g_node_id := g_node_id s;
             s_last_send_time := s_last_send_time s |},
          {| led := None; sent := None |})
  else
    match trimmean heap_w (wander_buff d) RADAR_BUFF_MAX_LEN (F32.lit 5 10) with
    | None => None
    | Some wander_average =>
        let jitter_median := median heap_j (jitter_buff d) RADAR_BUFF_MAX_LEN in
        let has_valid_threshold := F32.gt (wander_threshold d) (F32.lit 1 10000) in
        let '(someone_count, move_count) :=
          for_range 0 buff_max_size
            (vote_step d wander_average jitter_median has_valid_threshold)
            (0, 0) in
        let d :=
          set_status
            (has_valid_threshold && (1 <=? someone_count))
            (F32.gt (jitter_threshold d) (F32.lit 1 10000)
             && (buff_outliers_num <=? move_count)) d in
        let s := {| detect := d; g_node_id := g_node_id s;
                    s_last_send_time := s_last_send_time s |} in
        if calibrating d then
          Some (s, {| led := Some (false, false, true); sent := None |})
        else
          let led := Some (room_status d, human_status d, false) in
          if 100 <=? U32.sub now (s_last_send_time s) then
            Some ({| detect := d; g_node_id := g_node_id s;
                     s_last_send_time := now |},
                  {| led := led;
                     sent := Some (send_result_to_master s wander_average
                                     jitter_median 0 t_report) |})
          else Some (s, {| led := led; sent := None |})
    end.

(** [espnow_recv_cb] of the slave.  [trained] is the pair of thresholds
    that [esp_radar_train_stop] writes when the command is 0x11. *)
Definition espnow_recv_cb (s : slave_t) (data : list byte) (trained : f32 * f32)
  : slave_t :=
  let with_detect d :=
    {| detect := d; g_node_id := g_node_id s;
       s_last_send_time := s_last_send_time s |} in
  let len := length data in
  if (len <? 1)%nat then s
  else
    let cmd := byte_val (data !!! 0%nat) in
    if (cmd <? 16) || (31 <? cmd) then s
    else if cmd =? 16 then with_detect (set_calibrating true (detect s))
    else if cmd =? 17 then
      with_detect
        (set_calibrating false (set_thresholds (fst trained) (snd trained) (detect s)))
    else if cmd =? 18 then
      if (9 <=? len)%nat then
        with_detect (set_thresholds (float_at data 1) (float_at data 5) (detect s))
      else s
    else if cmd =? 19 then
      if (10 <=? len)%nat then
        let target_node := byte_val (data !!! 1%nat) in
        if target_node =? g_node_id s then
          with_detect (set_sensitivity (float_at data 2) (float_at data 6) (detect s))
        else s
      else s
    else s.

(** The two callbacks as the events of a run of the node. *)
Inductive event :=
| Radar (info : wifi_radar_info_t) (heap_w heap_j : bool) (now t_report : Z)
| EspNow (data : list byte) (trained : f32 * f32).

Definition step (s : slave_t) (ev : event) : option (slave_t * cb_effects) :=
  match ev with
  | Radar info heap_w heap_j now t_report =>
      wifi_radar_cb s info heap_w heap_j now t_report
  | EspNow data trained =>
      Some (espnow_recv_cb s data trained, {| led := None; sent := None |})
  end.

Fixpoint run (s : slave_t) (evs : list event) : option slave_t :=
  match evs with
  | [] => Some s
  | ev :: evs' =>
      match step s ev with
      | Some (s', _) => run s' evs'
      | None => None
      end
  end.

(** The raw jitter samples of a run, oldest first. *)
Fixpoint jitter_samples (evs : list event) : list f32 :=
  match evs with
  | [] => []
  | Radar info _ _ _ _ :: evs' => waveform_jitter info :: jitter_samples evs'
  | EspNow _ _ :: evs' => jitter_samples evs'
  end.

(** The five raw jitter samples that the voting loop of [wifi_radar_cb]
    reads, in the order in which it reads them. *)
Definition raw_window (d : detection_state_t) : list f32 :=
  map (fun i : nat =>
         jitter_buff d
           !!! Z.to_nat (U32.sub (U32.sub (buff_count d) 1) (Z.of_nat i)
                         mod Z.of_nat RADAR_BUFF_MAX_LEN))
      (seq 0 5).

(** The buffer holds the raw jitter samples [hist] (oldest first) of
    the run so far: the counter is their number modulo [2 ^ 32], and the
    [k]-th newest sample sits in slot [(buff_count - 1 - k) mod 25], for
    the samples stored since the counter last passed zero, 25 at
    most. *)
Definition ring_ok (d : detection_state_t) (hist : list f32) : Prop :=
  length (jitter_buff d) = RADAR_BUFF_MAX_LEN
  /\ buff_count d = U32.wrap (Z.of_nat (length hist))
  /\ forall k : nat,
       (k < RADAR_BUFF_MAX_LEN)%nat -> Z.of_nat k < buff_count d ->
       jitter_buff d
         !!! Z.to_nat ((buff_count d - 1 - Z.of_nat k)
                       mod Z.of_nat RADAR_BUFF_MAX_LEN)
       = rev hist !!! k.

(** The motion vote of one raw sample [j]. *)
Definition motion_vote (d : detection_state_t) (jitter_smoothed j : f32) : bool :=
  F32.gt (F32.mul j (jitter_sensitivity d)) (jitter_threshold d)
  || (F32.gt (F32.mul j (jitter_sensitivity d)) jitter_smoothed
      && F32.gt j (F32.lit 2 10000)).

(** [nvs_save_settings]: nothing is written when the namespace cannot
    be opened ([opened] false); once it is open the four blobs are
    written. *)
Definition nvs_save_settings (opened : bool) (nvs : option nvs_blobs)
    (d : detection_state_t) : option nvs_blobs :=
  if negb opened then nvs
  else
    Some {| nvs_wander_th := Some (wander_threshold d);
            nvs_jitter_th := Some (jitter_threshold d);
            nvs_wander_sens := Some (wander_sensitivity d);
            nvs_jitter_sens := Some (jitter_sensitivity d) |}.

(** [espnow_recv_cb] together with the store: the commands 0x11 and
    0x13 (when it is applied) end in [nvs_save_settings]. *)
Definition espnow_recv_nvs (s : slave_t) (data : list byte) (trained : f32 * f32)
    (opened : bool) (nvs : option nvs_blobs) : slave_t * option nvs_blobs :=
  let s' := espnow_recv_cb s data trained in
  let cmd := byte_val (data !!! 0%nat) in
  let saves :=
    (1 <=? length data)%nat
    && ((cmd =? 17)
        || ((cmd =? 19) && (10 <=? length data)%nat
            && (byte_val (data !!! 1%nat) =? g_node_id s))) in
  (s', if saves then nvs_save_settings opened nvs (detect s') else nvs).

(** [led_update_status] on an initialised strip: the colour written,
    and the static [blink] after the call. *)
Definition led_update_status (room_status human_status calibrating : bool)
    (blink : bool) : pixel * bool :=
  if calibrating then
    ((if blink then {| red := 255; green := 255; blue := 0 |}
      else {| red := 0; green := 0; blue := 0 |}), negb blink)
  else if room_status then
    if human_status then ({| red := 0; green := 255; blue := 0 |}, blink)
    else ({| red := 255; green := 255; blue := 255 |}, blink)
  else ({| red := 0; green := 0; blue := 0 |}, blink).

(** The 17 bytes of the packed [slave_report_t] handed to
    [esp_now_send]. *)
Definition report_bytes (r : slave_report_t) : list byte :=
  [byte_of_Z (Report.msg_type r); byte_of_Z (Report.node_id r);
   byte_of_Z (Report.room_status r); byte_of_Z (Report.human_status r)]
  ++ bytes_of_float (Report.wander r)
  ++ bytes_of_float (Report.jitter r)
  ++ [byte_of_Z (Report.rssi r)]
  ++ bytes_of_word (Report.timestamp r).

(** The reports that a run hands to [esp_now_send], oldest first;
    [None] when the run meets undefined behaviour. *)
Fixpoint reports (s : slave_t) (evs : list event) : option (list slave_report_t) :=
  match evs with
  | [] => Some []
  | ev :: evs' =>
      match step s ev with
      | Some (s', out) =>
          match reports s' evs' with
          | Some rs =>
              Some (match sent out with Some r => r :: rs | None => rs end)
          | None => None
          end
      | None => None
      end
  end.

End Slave.

(** ** Closed forms of the smoothing statistics *)

Module Spec.

(** Ascending order by stable insertion. *)
Fixpoint insert_asc (x : f32) (l : list f32) : list f32 :=
  match l with
  | [] => [x]
  | y :: l' => if F32.gt x y then y :: insert_asc x l' else x :: l
  end.

Definition sort_asc (l : list f32) : list f32 := foldr insert_asc [] l.

(** The average of a list, summed from its first element on. *)
Definition mean (l : list f32) : f32 :=
  F32.div (fold_left F32.add l F32.zero) (F32.of_Z (Z.of_nat (length l))).

(** For [percent = p / q]: sort ascending, drop
    [floor (len * percent / 2)] samples from each end, average the
    rest. *)
Definition trimmed_mean (window : list f32) (p q : Z) : f32 :=
  let len := length window in
  let k := Z.to_nat (Z.of_nat len * p / (2 * q)) in
  mean (drop k (take (len - k) (sort_asc window))).

(** Sort ascending, take the middle element, or the average of the two
    middle elements of a window of even length. *)
Definition median (window : list f32) : f32 :=
  let s := sort_asc window in
  let len := length window in
  if Nat.even len then
    F32.div (F32.add (s !!! (len / 2 - 1)%nat) (s !!! (len / 2)%nat)) (F32.of_Z 2)
  else s !!! (len / 2)%nat.

End Spec.

(** One pass of the inner loop seen on the list: [n] comparisons from
    the head on, the greater element carried along. *)
Fixpoint bubble_pass (n : nat) (l : list f32) : list f32 :=
  match n, l with
  | S n', x :: y :: t =>
      if F32.gt x y then y :: bubble_pass n' (x :: t)
      else x :: bubble_pass n' (y :: t)
  | _, _ => l
  end.

(** [x] does not exceed [y]. *)
Definition fle (x y : f32) : Prop := F32.gt x y = false.

(** [x] and [y] compare equal in both directions. *)
Definition equivb (x y : f32) : bool := negb (F32.gt x y) && negb (F32.gt y x).

Definition no_nan (l : list f32) : Prop := Forall (fun x => F32.is_nan x = false) l.

Definition b2z (b : bool) : Z := if b then 1 else 0.

(** How many elements of a list satisfy [P]. *)
Definition count_if {A : Type} (P : A -> bool) (l : list A) : Z :=
  Z.of_nat (length (List.filter P l)).

(** The link record that [recalculate_link_status] writes back. *)
Definition recalculated (st : Master.master_state_t) (l : Master.link_status_t)
  : Master.link_status_t :=
  Master.Link.set_human_status
    (F32.gt (Master.jitter_threshold st) (F32.of_Z 0)
     && F32.gt (F32.mul (Master.Link.jitter l) (Master.Link.jitter_sensitivity l))
               (Master.jitter_threshold st))
    (Master.Link.set_room_status
       (F32.gt (Master.wander_threshold st) (F32.of_Z 0)
        && F32.gt (F32.mul (Master.Link.wander l) (Master.Link.wander_sensitivity l))
                  (Master.wander_threshold st)) l).

(** A link is counted when it is flagged active and was updated less
    than [LINK_TIMEOUT_MS] before [now], in 32-bit arithmetic. *)
Definition counted (now : Z) (l : Master.link_status_t) : bool :=
  Master.Link.active l
  && (U32.sub now (Master.Link.last_update l) <? Master.LINK_TIMEOUT_MS).

(** Link [i] as one fusion pass at time [now] leaves it. *)
Definition link_after (now : Z) (st : Master.master_state_t) (i : nat)
    (l : Master.link_status_t) : Master.link_status_t :=
  if counted now l then
    if (i =? 0)%nat then recalculated st l else l
  else Master.Link.set_active false l.

(** The quorum of a fusion pass with [active_count] counted links. *)
Definition quorum (active_count : Z) : Z := if 2 <=? active_count then 2 else 1.

(** The slave's state once [wifi_radar_cb] has stored a sample and
    advanced the counter. *)
Definition slave_stored (d : Slave.detection_state_t) (info : wifi_radar_info_t)
  : Slave.detection_state_t :=
  let slot := Z.to_nat (Slave.buff_count d mod Z.of_nat RADAR_BUFF_MAX_LEN) in
  Slave.set_buffers (<[slot := waveform_wander info]> (Slave.wander_buff d))
                    (<[slot := waveform_jitter info]> (Slave.jitter_buff d))
                    (U32.add (Slave.buff_count d) 1) d.

(** The slave's classification as single comparisons: presence from the
    smoothed wander, motion from at least two votes among the raw
    window. *)
Definition slave_room (d : Slave.detection_state_t) (wander_smoothed : f32) : bool :=
  F32.gt (Slave.wander_threshold d) (F32.lit 1 10000)
  && F32.gt (F32.mul wander_smoothed (Slave.wander_sensitivity d))
            (Slave.wander_threshold d).

Definition slave_motion (d : Slave.detection_state_t) (jitter_smoothed : f32) : bool :=
  F32.gt (Slave.jitter_threshold d) (F32.lit 1 10000)
  && (2 <=? count_if (Slave.motion_vote d jitter_smoothed) (Slave.raw_window d)).




(** The command that ends a calibration on the slave: a packet whose
    first byte is 0x11. *)
Definition is_stop_command (ev : Slave.event) : bool :=
  match ev with
  | Slave.EspNow data _ =>
      (1 <=? length data)%nat && (byte_val (data !!! 0%nat) =? 17)
  | Slave.Radar _ _ _ _ _ => false
  end.


(** The slot loops of the client table seen on the list: the first
    element that satisfies [hit] is replaced by [v]. *)
Fixpoint first_hit (hit : Z -> bool) (v : Z) (l : list Z) : list Z :=
  match l with
  | [] => []
  | c :: l' => if hit c then v :: l' else c :: first_hit hit v l'
  end.

(** ** Concrete inputs *)

(** The fixture window of the smoother. *)
Definition fixture_window : list f32 := map F32.of_Z [1; 2; 3; 4; 5].

(** A window with a NaN among its samples. *)
Definition nan_window : list f32 :=
  [F32.of_Z 3; F32.nan; F32.of_Z 0; F32.of_Z 1; F32.of_Z 2].

(** A link of the master with the default sensitivities. *)
Definition a_link (active room human : bool) (wander jitter : f32) (last : Z)
  : Master.link_status_t :=
  {| Master.Link.active := active; Master.Link.room_status := room;
     Master.Link.human_status := human; Master.Link.wander := wander;
     Master.Link.jitter := jitter; Master.Link.rssi := 0;
     Master.Link.last_update := last;
     Master.Link.wander_sensitivity := F32.lit 15 100;
     Master.Link.jitter_sensitivity := F32.lit 20 100 |}.

(** A master with the given thresholds, calibration flag and links. *)
Definition a_master (wander_th jitter_th : f32) (calibrating : bool)
    (ls : list Master.link_status_t) : Master.master_state_t :=
  Master.set_links ls
    (Master.set_calibration calibrating 0
       (Master.set_thresholds wander_th jitter_th Master.g_state)).

(** Links 0 and 1 see presence without motion, link 2 is silent. *)
Definition scenario_a : Master.master_state_t :=
  a_master (F32.lit 1 100) (F32.lit 1 1000) false
    [a_link true false false (F32.of_Z 1) F32.zero 900;
     a_link true true false F32.zero F32.zero 950;
     a_link false false false F32.zero F32.zero 0].

(** Links 0 and 1 see motion; link 2 holds stale flags from a report
    received long ago. *)
Definition scenario_stale : Master.master_state_t :=
  a_master (F32.lit 1 100) (F32.lit 1 1000) false
    [a_link true false false (F32.of_Z 1) (F32.of_Z 1) 9900;
     a_link true true true F32.zero F32.zero 9950;
     a_link true true true F32.zero F32.zero 5000].

(** Radar samples of the master with integral statistics, 10 ms apart
    from [t0] on, all allocations succeeding. *)
Definition master_samples (wander jitter : Z) (t0 : Z) (n : nat)
  : list Master.event :=
  map (fun i : nat =>
         Master.Radar {| waveform_wander := F32.of_Z wander;
                         waveform_jitter := F32.of_Z jitter |}
                      true true (t0 + 10 * Z.of_nat i) (t0 + 10 * Z.of_nat i))
      (seq 0 n).

(** A master calibrated to the thresholds 0.00005 and 0.00005, then fed
    25 samples of wander 1 and jitter 1. *)
Definition low_threshold_run : list Master.event :=
  Master.CalibrateStart 0
  :: Master.CalibrateStop (F32.lit 5 100000, F32.lit 5 100000)
  :: master_samples 1 1 31000 25.

(** A master calibrated to the thresholds 0.01 and 0.001 on which a
    second calibration is started, then fed 25 samples of wander 1 and
    jitter 1 while it runs. *)
Definition calibrating_run : list Master.event :=
  Master.CalibrateStart 0
  :: Master.CalibrateStop (F32.lit 1 100, F32.lit 1 1000)
  :: Master.CalibrateStart 40000
  :: master_samples 1 1 40010 25.

(** SetThresholds carrying 0.00005 (0x3851B717) and 0.001 (0x3A83126F),
    least significant byte first. *)
Definition set_thresholds_low : list byte :=
  [x12; x17; xb7; x51; x38; x6f; x12; x83; x3a].

(** A slave that receives these thresholds after boot and then 25
    samples of wander 1 and jitter 0, 100 ms apart. *)
Definition slave_low_threshold_run : list Slave.event :=
  Slave.EspNow set_thresholds_low (F32.zero, F32.zero)
  :: map (fun i : nat =>
            Slave.Radar {| waveform_wander := F32.of_Z 1;
                           waveform_jitter := F32.zero |}
                        true true (1000 + 100 * Z.of_nat i) (1000 + 100 * Z.of_nat i))
         (seq 0 25).

(** A radar sample with integral statistics, both allocations
    succeeding. *)
Definition a_sample (wander jitter now : Z) : Slave.event :=
  Slave.Radar {| waveform_wander := F32.of_Z wander;
                 waveform_jitter := F32.of_Z jitter |} true true now now.

(** Seven strong samples, 100 ms apart, and nothing else. *)
Definition strong_samples : list Slave.event :=
  map (fun i : nat => a_sample 10 1 (1000 + 100 * Z.of_nat i)) (seq 0 7).

(** A slave whose window is full of wander 1, with the wander threshold
    0.00005. *)
Definition slave_low_threshold : Slave.slave_t :=
  {| Slave.detect :=
       Slave.set_thresholds (F32.lit 5 100000) (F32.lit 1 1000)
         (Slave.set_buffers (replicate RADAR_BUFF_MAX_LEN (F32.of_Z 1))
                            (replicate RADAR_BUFF_MAX_LEN F32.zero) 25
                            Slave.g_detect);
     Slave.g_node_id := 2;
     Slave.s_last_send_time := 0 |}.

(** SetSensitivity for node 2 carrying 100.0 twice (0x42C80000, least
    significant byte first). *)
Definition set_sensitivity_100 : list byte :=
  [x13; x02; x00; x00; xc8; x42; x00; x00; xc8; x42].

(** A radar sample of wander 1 and jitter 1. *)
Definition a_radar_info : wifi_radar_info_t :=
  {| waveform_wander := F32.of_Z 1; waveform_jitter := F32.of_Z 1 |}.

(** The report of node 2 with the smoothed values 1 and 0. *)
Definition a_report : list byte :=
  Slave.report_bytes
    (Slave.send_result_to_master slave_low_threshold (F32.of_Z 1) F32.zero 0 1000).

(** A slave that has received the start command. *)
Definition calibrating_slave : Slave.slave_t :=
  Slave.espnow_recv_cb slave_low_threshold [x10] (F32.zero, F32.zero).

(** The request body [{"action":"stop","why":"restart"}] around its
    five bytes [start]. *)
Definition stop_restart_pre : list byte :=
  [x7b; x22; x61; x63; x74; x69; x6f; x6e; x22; x3a; x22; x73; x74; x6f; x70;
   x22; x2c; x22; x77; x68; x79; x22; x3a; x22; x72; x65].

Definition stop_restart_post : list byte := [x22; x7d].

(** The local link was updated 296 ms before the clock wraps. *)
Definition scenario_wrap : Master.master_state_t :=
  a_master (F32.lit 1 100) (F32.lit 1 1000) false
    [a_link true false false (F32.of_Z 1) F32.zero 4294967000;
     a_link false false false F32.zero F32.zero 0;
     a_link false false false F32.zero F32.zero 0].

(** A client table with two descriptors and two free slots. *)
Definition a_client_table : list Z := [5; -1; 7; -1].

(** * Properties *)

(** ** The order of binary32 *)

Ltac cmp_cases :=
  repeat match goal with
    | H : context [Z.compare ?a ?b] |- _ => destruct (Z.compare_spec a b)
    | H : context [Pos.compare ?a ?b] |- _ => destruct (Pos.compare_spec a b)
    | |- context [Z.compare ?a ?b] => destruct (Z.compare_spec a b)
    | |- context [Pos.compare ?a ?b] => destruct (Pos.compare_spec a b)
    end.

Lemma gt_irrefl (x : f32) : F32.gt x x = false.
Proof.
  unfold F32.gt, SFltb.
  destruct x as [[]|[]| |[] m e]; simpl; try reflexivity;
    change (Pos.compare_cont Eq m m) with (Pos.compare m m);
    rewrite Z.compare_refl, Pos.compare_refl; reflexivity.
Qed.

Lemma gt_asym (x y : f32) : F32.gt x y = true -> F32.gt y x = false.
Proof.
  unfold F32.gt, SFltb.
  destruct x as [[]|[]| |[] m e], y as [[]|[]| |[] m' e']; simpl;
    try reflexivity; try discriminate;
    change (Pos.compare_cont Eq m m') with (Pos.compare m m');
    change (Pos.compare_cont Eq m' m) with (Pos.compare m' m);
    rewrite (Z.compare_antisym e e'), (Pos.compare_antisym m m');
    destruct (e ?= e'), (m ?= m')%positive; simpl; congruence.
Qed.

(** Through a middle value that is not a NaN, "not greater" is
    transitive. *)
Lemma gt_negtrans (x y z : f32) :
  F32.is_nan y = false ->
  F32.gt x y = false -> F32.gt y z = false -> F32.gt x z = false.
Proof.
  unfold F32.gt, SFltb.
  destruct x as [[]|[]| |[] m1 e1], y as [[]|[]| |[] m2 e2],
           z as [[]|[]| |[] m3 e3]; simpl;
    try reflexivity; try discriminate;
    repeat match goal with
      | |- context [Pos.compare_cont Eq ?a ?b] =>
          change (Pos.compare_cont Eq a b) with (Pos.compare a b)
      end;
    intros _; cmp_cases; simpl; try reflexivity; try discriminate;
    subst; try lia.
Qed.

Lemma gt_nan_l (x : f32) : F32.gt F32.nan x = false.
Proof. destruct x as [[]|[]| |[] m e]; reflexivity. Qed.

Lemma gt_nan_r (x : f32) : F32.gt x F32.nan = false.
Proof. destruct x as [[]|[]| |[] m e]; reflexivity. Qed.

(** ** The sort of the smoother *)

Lemma bubble_step_middle (pre : list f32) (x y : f32) (t : list f32) :
  bubble_step (pre ++ x :: y :: t) (length pre) =
  pre ++ (if F32.gt x y then y :: x :: t else x :: y :: t).
Proof.
  assert (H1 : (pre ++ x :: y :: t) !!! length pre = x)
    by (apply list_lookup_total_middle; reflexivity).
  assert (H2 : (pre ++ x :: y :: t) !!! (length pre + 1)%nat = y).
  { change (pre ++ x :: y :: t) with (pre ++ [x] ++ y :: t).
    rewrite app_assoc. apply list_lookup_total_middle.
    rewrite length_app. reflexivity. }
  unfold bubble_step. rewrite H1, H2.
  destruct (F32.gt x y); [|reflexivity].
  rewrite (insert_app_r_alt pre _ (length pre)) by lia.
  rewrite (insert_app_r_alt pre _ (length pre + 1)) by lia.
  replace (length pre - length pre)%nat with 0%nat by lia.
  replace (length pre + 1 - length pre)%nat with 1%nat by lia.
  reflexivity.
Qed.

Lemma fold_bubble_step (n : nat) : forall (pre l : list f32),
  (n < length l)%nat ->
  fold_left bubble_step (seq (length pre) n) (pre ++ l) = pre ++ bubble_pass n l.
Proof.
  induction n as [|n IH]; intros pre l Hn.
  - destruct l; reflexivity.
  - destruct l as [|x [|y t]]; simpl in Hn; try lia.
    cbn [seq fold_left bubble_pass].
    rewrite bubble_step_middle.
    destruct (F32.gt x y).
    + replace (pre ++ y :: x :: t) with ((pre ++ [y]) ++ x :: t)
        by (rewrite <- app_assoc; reflexivity).
      replace (S (length pre)) with (length (pre ++ [y])) by (rewrite length_app; simpl; lia).
      rewrite IH by (simpl; lia). rewrite <- app_assoc. reflexivity.
    + replace (pre ++ x :: y :: t) with ((pre ++ [x]) ++ y :: t)
        by (rewrite <- app_assoc; reflexivity).
      replace (S (length pre)) with (length (pre ++ [x])) by (rewrite length_app; simpl; lia).
      rewrite IH by (simpl; lia). rewrite <- app_assoc. reflexivity.
Qed.

Lemma for_range_bubble_pass (n : nat) (l : list f32) :
  (n < length l)%nat -> for_range 0 n bubble_step l = bubble_pass n l.
Proof.
  intros Hn. unfold for_range. rewrite Nat.sub_0_r.
  apply (fold_bubble_step n [] l Hn).
Qed.

Lemma bubble_pass_length (n : nat) : forall l, length (bubble_pass n l) = length l.
Proof.
  induction n as [|n IH]; intros [|x [|y t]]; simpl; try reflexivity.
  destruct (F32.gt x y); simpl; rewrite IH; reflexivity.
Qed.

Lemma bubble_pass_perm (n : nat) : forall l, Permutation (bubble_pass n l) l.
Proof.
  induction n as [|n IH]; intros [|x [|y t]]; simpl; try reflexivity.
  destruct (F32.gt x y).
  - rewrite IH. apply perm_swap.
  - rewrite IH. reflexivity.
Qed.

Lemma bubble_pass_app (n : nat) : forall p s,
  (n < length p)%nat -> bubble_pass n (p ++ s) = bubble_pass n p ++ s.
Proof.
  induction n as [|n IH]; intros p s Hn.
  - destruct p as [|x [|y t]]; destruct s; reflexivity.
  - destruct p as [|x [|y t]]; simpl in Hn; try lia.
    simpl. destruct (F32.gt x y); simpl; f_equal.
    + apply (IH (x :: t) s). simpl; lia.
    + apply (IH (y :: t) s). simpl; lia.
Qed.

Lemma no_nan_perm (l l' : list f32) : Permutation l l' -> no_nan l -> no_nan l'.
Proof. intros HP H. unfold no_nan in *. rewrite <- HP. exact H. Qed.

Lemma bubble_pass_max (l : list f32) : forall x,
  no_nan (x :: l) ->
  exists p m, bubble_pass (length l) (x :: l) = p ++ [m]
              /\ fle x m /\ Forall (fun z => fle z m) p.
Proof.
  induction l as [|y t IH]; intros x Hnn.
  - exists [], x. simpl. repeat split; [apply gt_irrefl | constructor].
  - inversion Hnn as [|? ? Hx Hyt]; subst.
    inversion Hyt as [|? ? Hy Ht]; subst.
    cbn [length bubble_pass]. destruct (F32.gt x y) eqn:Hxy.
    + destruct (IH x) as (p & m & Hp & Hxm & Hall); [constructor; assumption|].
      exists (y :: p), m. rewrite Hp. repeat split; try assumption.
      constructor; [|assumption].
      apply (gt_negtrans y x m Hx); [apply gt_asym|]; assumption.
    + destruct (IH y) as (p & m & Hp & Hym & Hall); [assumption|].
      exists (x :: p), m. rewrite Hp.
      assert (Hxm : fle x m) by (apply (gt_negtrans x y m Hy); assumption).
      repeat split; try assumption. constructor; assumption.
Qed.

Lemma equivb_not_both (c x y : f32) :
  F32.is_nan c = false -> F32.gt x y = true ->
  equivb c x = true -> equivb c y = true -> False.
Proof.
  unfold equivb. intros Hc Hxy Hx Hy.
  apply andb_prop in Hx as [Hcx Hxc]. apply andb_prop in Hy as [Hcy Hyc].
  apply negb_true_iff in Hcx, Hxc, Hcy, Hyc.
  rewrite (gt_negtrans x c y Hc Hxc Hcy) in Hxy. discriminate.
Qed.

Lemma filter_class_swap (c x y : f32) (l : list f32) :
  F32.is_nan c = false -> F32.gt x y = true ->
  List.filter (equivb c) (y :: x :: l) = List.filter (equivb c) (x :: y :: l).
Proof.
  intros Hc Hxy. simpl.
  destruct (equivb c x) eqn:Hx, (equivb c y) eqn:Hy; try reflexivity.
  destruct (equivb_not_both c x y Hc Hxy Hx Hy).
Qed.

Lemma bubble_pass_class (c : f32) (n : nat) : forall l,
  F32.is_nan c = false ->
  List.filter (equivb c) (bubble_pass n l) = List.filter (equivb c) l.
Proof.
  induction n as [|n IH]; intros [|x [|y t]] Hc; try reflexivity.
  cbn [bubble_pass]. destruct (F32.gt x y) eqn:Hxy.
  - rewrite <- (filter_class_swap c x y t Hc Hxy).
    cbn [List.filter]. rewrite (IH (x :: t) Hc). reflexivity.
  - cbn [List.filter]. rewrite (IH (y :: t) Hc). reflexivity.
Qed.

Lemma insert_asc_perm (x : f32) (l : list f32) :
  Permutation (Spec.insert_asc x l) (x :: l).
Proof.
  induction l as [|y t IH]; simpl; [reflexivity|].
  destruct (F32.gt x y); [|reflexivity].
  rewrite IH. apply perm_swap.
Qed.

Lemma sort_asc_perm (l : list f32) : Permutation (Spec.sort_asc l) l.
Proof.
  induction l as [|x t IH]; simpl; [reflexivity|].
  rewrite insert_asc_perm, IH. reflexivity.
Qed.

Lemma insert_asc_sorted (x : f32) (l : list f32) :
  no_nan l -> StronglySorted fle l -> StronglySorted fle (Spec.insert_asc x l).
Proof.
  induction l as [|y t IH]; intros Hnn Hs; simpl.
  - repeat constructor.
  - inversion Hnn as [|? ? Hy Ht]; subst.
    inversion Hs as [|? ? Hst Hall]; subst.
    destruct (F32.gt x y) eqn:Hxy.
    + constructor; [apply IH; assumption|].
      rewrite (insert_asc_perm x t). constructor; [|assumption].
      apply gt_asym; assumption.
    + constructor; [assumption|]. constructor; [assumption|].
      eapply Forall_impl; [exact Hall|].
      intros z Hyz. apply (gt_negtrans x y z Hy); assumption.
Qed.

Lemma sort_asc_sorted (l : list f32) :
  no_nan l -> StronglySorted fle (Spec.sort_asc l).
Proof.
  induction l as [|x t IH]; intros Hnn; simpl; [constructor|].
  inversion Hnn; subst.
  apply insert_asc_sorted; [|apply IH; assumption].
  apply (no_nan_perm t); [symmetry; apply sort_asc_perm | assumption].
Qed.

Lemma insert_asc_class (c x : f32) (l : list f32) :
  F32.is_nan c = false ->
  List.filter (equivb c) (Spec.insert_asc x l) = List.filter (equivb c) (x :: l).
Proof.
  intros Hc. induction l as [|y t IH]; [reflexivity|].
  cbn [Spec.insert_asc]. destruct (F32.gt x y) eqn:Hxy; [|reflexivity].
  rewrite <- (filter_class_swap c x y t Hc Hxy).
  cbn [List.filter] in *. rewrite IH. reflexivity.
Qed.

Lemma sort_asc_class (c : f32) (l : list f32) :
  F32.is_nan c = false ->
  List.filter (equivb c) (Spec.sort_asc l) = List.filter (equivb c) l.
Proof.
  intros Hc. induction l as [|x t IH]; [reflexivity|].
  cbn [Spec.sort_asc foldr]. rewrite (insert_asc_class c x _ Hc).
  cbn [List.filter]. fold (Spec.sort_asc t). rewrite IH. reflexivity.
Qed.

Lemma equivb_refl (x : f32) : equivb x x = true.
Proof. unfold equivb. rewrite gt_irrefl. reflexivity. Qed.

(** Two ascending lists with the same elements in each class of equal
    values, in the same order, are the same list. *)
Lemma stable_sorted_unique (l1 : list f32) : forall l2,
  no_nan l1 -> no_nan l2 ->
  StronglySorted fle l1 -> StronglySorted fle l2 ->
  (forall c, F32.is_nan c = false ->
             List.filter (equivb c) l1 = List.filter (equivb c) l2) ->
  l1 = l2.
Proof.
  induction l1 as [|a t1 IH]; intros l2 Hn1 Hn2 Hs1 Hs2 Hcl.
  - destruct l2 as [|b t2]; [reflexivity|].
    inversion Hn2; subst.
    specialize (Hcl b ltac:(assumption)). simpl in Hcl.
    rewrite equivb_refl in Hcl. discriminate.
  - destruct l2 as [|b t2].
    + inversion Hn1; subst.
      specialize (Hcl a ltac:(assumption)). simpl in Hcl.
      rewrite equivb_refl in Hcl. discriminate.
    + inversion Hn1 as [|? ? Ha Ht1]; subst.
      inversion Hn2 as [|? ? Hb Ht2]; subst.
      inversion Hs1 as [|? ? Hst1 Hall1]; subst.
      inversion Hs2 as [|? ? Hst2 Hall2]; subst.
      assert (Hba : fle b a).
      { assert (Hin : In a (List.filter (equivb a) (b :: t2))).
        { rewrite <- (Hcl a Ha). simpl. rewrite equivb_refl. left. reflexivity. }
        apply filter_In in Hin as [[->|Hin] _]; [apply gt_irrefl|].
        rewrite Forall_forall in Hall2. apply Hall2.
        apply list_elem_of_In. exact Hin. }
      assert (Hab : fle a b).
      { assert (Hin : In b (List.filter (equivb b) (a :: t1))).
        { rewrite (Hcl b Hb). simpl. rewrite equivb_refl. left. reflexivity. }
        apply filter_In in Hin as [[->|Hin] _]; [apply gt_irrefl|].
        rewrite Forall_forall in Hall1. apply Hall1.
        apply list_elem_of_In. exact Hin. }
      assert (Heq : a = b).
      { specialize (Hcl a Ha). simpl in Hcl. rewrite equivb_refl in Hcl.
        unfold equivb in Hcl at 2. unfold fle in Hab, Hba.
        rewrite Hab, Hba in Hcl. simpl in Hcl. congruence. }
      subst b. f_equal. apply IH; try assumption.
      intros c Hc. specialize (Hcl c Hc). simpl in Hcl.
      destruct (equivb c a); congruence.
Qed.

Lemma bubble_sort_inv (l : list f32) (i : nat) :
  no_nan l -> (i <= length l - 1)%nat ->
  exists p s,
    fold_left (fun a i => for_range 0 (length l - i - 1) bubble_step a) (seq 0 i) l
      = p ++ s
    /\ Permutation (p ++ s) l
    /\ (forall c, F32.is_nan c = false ->
                  List.filter (equivb c) (p ++ s) = List.filter (equivb c) l)
    /\ length s = i
    /\ StronglySorted fle s
    /\ Forall (fun x => Forall (fle x) s) p.
Proof.
  intros Hnn. induction i as [|i IH]; intros Hi.
  - exists l, []. rewrite app_nil_r. simpl.
    repeat split; try reflexivity; [constructor|].
    apply Forall_forall. intros; constructor.
  - destruct IH as (p & s & Hr & Hperm & Hcl & Hlen & Hsorted & Hcross); [lia|].
    rewrite seq_S, fold_left_app, Hr. cbn [fold_left Nat.add].
    assert (Hlr : length (p ++ s) = length l) by (rewrite Hperm; reflexivity).
    rewrite length_app in Hlr.
    rewrite for_range_bubble_pass by (rewrite length_app; lia).
    rewrite bubble_pass_app by lia.
    destruct p as [|x p0]; [simpl in Hlr; lia|].
    assert (Hnp : no_nan (x :: p0)).
    { assert (Hnps : no_nan ((x :: p0) ++ s))
        by (apply (no_nan_perm l); [symmetry; exact Hperm | exact Hnn]).
      unfold no_nan in *. rewrite Forall_app in Hnps. tauto. }
    replace (length l - i - 1)%nat with (length p0) by (simpl in Hlr; lia).
    destruct (bubble_pass_max p0 x Hnp) as (p' & m & Hp' & Hxm & Hall).
    assert (HP : Permutation (p' ++ [m]) (x :: p0))
      by (rewrite <- Hp'; apply bubble_pass_perm).
    exists p', (m :: s). rewrite Hp', <- app_assoc. cbn [app].
    assert (Hm : Forall (fle m) s).
    { rewrite Forall_forall in Hcross. apply Hcross.
      rewrite <- HP. apply elem_of_app. right. left. }
    repeat split.
    + transitivity ((x :: p0) ++ s); [|exact Hperm].
      apply Permutation_trans with ((p' ++ [m]) ++ s);
        [rewrite <- app_assoc; reflexivity | apply Permutation_app_tail; exact HP].
    + intros c Hc. rewrite <- (Hcl c Hc).
      replace (p' ++ m :: s) with ((p' ++ [m]) ++ s)
        by (rewrite <- app_assoc; reflexivity).
      rewrite (List.filter_app _ (p' ++ [m]) s), (List.filter_app _ (x :: p0) s).
      rewrite <- Hp', (bubble_pass_class c _ _ Hc). reflexivity.
    + simpl. lia.
    + constructor; assumption.
    + rewrite Forall_forall. intros z Hz.
      constructor.
      * rewrite Forall_forall in Hall. apply Hall, Hz.
      * rewrite Forall_forall in Hcross. apply Hcross.
        rewrite <- HP. apply elem_of_app. left. exact Hz.
Qed.

Lemma bubble_sort_sort_asc (l : list f32) :
  no_nan l -> bubble_sort l (length l) = Spec.sort_asc l.
Proof.
  intros Hnn.
  destruct (bubble_sort_inv l (length l - 1) Hnn (Nat.le_refl _))
    as (p & s & Hr & Hperm & Hcl & Hlen & Hsorted & Hcross).
  unfold bubble_sort, for_range at 1. rewrite Nat.sub_0_r, Hr.
  apply stable_sorted_unique.
  - apply (no_nan_perm l); [symmetry|]; assumption.
  - apply (no_nan_perm l); [symmetry; apply sort_asc_perm | assumption].
  - assert (Hlp : (length p <= 1)%nat).
    { assert (H := Permutation_length Hperm). rewrite length_app in H. lia. }
    destruct p as [|x [|y p]]; simpl in Hlp; try lia; [exact Hsorted|].
    simpl. constructor; [exact Hsorted|].
    inversion Hcross; assumption.
  - apply sort_asc_sorted; assumption.
  - intros c Hc. rewrite (Hcl c Hc), (sort_asc_class c l Hc). reflexivity.
Qed.

(** ** Exact steps of binary32 arithmetic *)

Lemma iter_pos_iter {A : Type} (f : A -> A) (k : positive) (x : A) :
  SpecFloat.iter_pos f k x = Pos.iter f x k.
Proof.
  revert x. induction k as [k IH|k IH|]; intros x; simpl.
  - rewrite !IH, <- !Pos.iter_swap. reflexivity.
  - rewrite !IH. reflexivity.
  - reflexivity.
Qed.

Lemma digits_iter_xO (p k : positive) :
  digits2_pos (Pos.iter xO p k) = (digits2_pos p + k)%positive.
Proof.
  induction k as [|k IH] using Pos.peano_ind.
  - simpl. lia.
  - rewrite Pos.iter_succ. simpl. rewrite IH. lia.
Qed.

Lemma Zpos_iter_xO (p k : positive) :
  Zpos (Pos.iter xO p k) = Zpos p * 2 ^ Zpos k.
Proof.
  induction k as [|k IH] using Pos.peano_ind.
  - simpl. lia.
  - rewrite Pos.iter_succ, Pos2Z.inj_xO, IH, Pos2Z.inj_succ, Z.pow_succ_r by lia.
    lia.
Qed.

Lemma shr_iter_xO (m k : positive) :
  SpecFloat.iter_pos shr_1 k {| shr_m := Zpos (Pos.iter xO m k); shr_r := false; shr_s := false |}
  = {| shr_m := Zpos m; shr_r := false; shr_s := false |}.
Proof.
  rewrite iter_pos_iter.
  induction k as [|k IH] using Pos.peano_ind.
  - reflexivity.
  - rewrite !Pos.iter_succ, <- Pos.iter_swap. simpl. exact IH.
Qed.

(** A mantissa of 24 digits with an exponent in range is left as it is. *)
Lemma round_canonical (s : bool) (m : positive) (e : Z) :
  digits2_pos m = 24%positive -> -149 <= e <= 104 ->
  binary_round_aux F32.prec F32.emax s (Zpos m) e loc_Exact = S754_finite s m e.
Proof.
  intros Hd He.
  assert (Hf : fexp F32.prec F32.emax (24 + e) - e = 0)
    by (unfold fexp, emin, F32.prec, F32.emax; lia).
  unfold binary_round_aux, shr_fexp. cbn [Zdigits2 shr_record_of_loc].
  rewrite Hd, Hf. cbn [shr shr_m loc_of_shr_record round_nearest_even Zdigits2].
  rewrite Hd, Hf. cbn [shr shr_m].
  replace (e <=? F32.emax - F32.prec) with true; [reflexivity|].
  symmetry. apply Z.leb_le. unfold F32.emax, F32.prec. lia.
Qed.

(** [k] trailing zero bits of a 24-digit mantissa are shifted out
    exactly. *)
Lemma round_shift (s : bool) (m k : positive) (e : Z) :
  digits2_pos m = 24%positive -> -149 <= e + Zpos k <= 104 ->
  binary_round_aux F32.prec F32.emax s (Zpos (Pos.iter xO m k)) e loc_Exact
  = S754_finite s m (e + Zpos k).
Proof.
  intros Hd He.
  unfold binary_round_aux at 1, shr_fexp at 1. cbn [Zdigits2 shr_record_of_loc].
  rewrite digits_iter_xO, Hd.
  replace (fexp F32.prec F32.emax (Zpos (24 + k) + e) - e) with (Zpos k)
    by (unfold fexp, emin, F32.prec, F32.emax; lia).
  cbn [shr]. rewrite shr_iter_xO.
  cbn [shr_m loc_of_shr_record round_nearest_even].
  unfold shr_fexp. cbn [Zdigits2 shr_record_of_loc]. rewrite Hd.
  replace (fexp F32.prec F32.emax (24 + (e + Zpos k)) - (e + Zpos k)) with 0
    by (unfold fexp, emin, F32.prec, F32.emax; lia).
  cbn [shr shr_m].
  replace (e + Zpos k <=? F32.emax - F32.prec) with true; [reflexivity|].
  symmetry. apply Z.leb_le. unfold F32.emax, F32.prec. lia.
Qed.

Lemma digits2_pos_bound (p : positive) :
  2 ^ (Zpos (digits2_pos p) - 1) <= Zpos p < 2 ^ Zpos (digits2_pos p).
Proof.
  induction p as [p IH|p IH|]; cbn [digits2_pos].
  - rewrite Pos2Z.inj_succ.
    replace (Z.succ (Zpos (digits2_pos p)) - 1) with (Z.succ (Zpos (digits2_pos p) - 1)) by lia.
    rewrite !Z.pow_succ_r by lia. lia.
  - rewrite Pos2Z.inj_succ.
    replace (Z.succ (Zpos (digits2_pos p)) - 1) with (Z.succ (Zpos (digits2_pos p) - 1)) by lia.
    rewrite !Z.pow_succ_r by lia. lia.
  - simpl. lia.
Qed.

(** An integer below [2 ^ 24] converts exactly. *)
Lemma of_Z_exact (p : positive) :
  Zpos p < 2 ^ 24 ->
  exists m, F32.of_Z (Zpos p) = S754_finite false m (Zpos (digits2_pos p) - 24)
            /\ digits2_pos m = 24%positive
            /\ Zpos m = Zpos p * 2 ^ (24 - Zpos (digits2_pos p)).
Proof.
  intros Hp.
  assert (Hd : Zpos (digits2_pos p) <= 24).
  { destruct (Z.le_gt_cases (Zpos (digits2_pos p)) 24) as [H|H]; [exact H|].
    assert (Hb := digits2_pos_bound p).
    assert (2 ^ 24 <= 2 ^ (Zpos (digits2_pos p) - 1)) by (apply Z.pow_le_mono_r; lia).
    lia. }
  unfold F32.of_Z, binary_normalize, binary_round, shl_align.
  replace (fexp F32.prec F32.emax (Zpos (digits2_pos p) + 0) - 0)
    with (Zpos (digits2_pos p) - 24)
    by (unfold fexp, emin, F32.prec, F32.emax; lia).
  replace (fexp F32.prec F32.emax (Zpos (digits2_pos p) + 0))
    with (Zpos (digits2_pos p) - 24)
    by (unfold fexp, emin, F32.prec, F32.emax; lia).
  destruct (Zpos (digits2_pos p) - 24) as [|q|q] eqn:Hq; try lia.
  - exists p. assert (Hd24 : digits2_pos p = 24%positive) by lia.
    rewrite round_canonical by (assumption || lia).
    rewrite Hd24. split; [reflexivity|]. split; [reflexivity|]. simpl. lia.
  - exists (Pos.iter xO p q).
    assert (Hdq : digits2_pos (Pos.iter xO p q) = 24%positive)
      by (rewrite digits_iter_xO; lia).
    rewrite round_canonical by (assumption || lia).
    split; [reflexivity|]. split; [exact Hdq|].
    rewrite Zpos_iter_xO. f_equal. f_equal. lia.
Qed.

Lemma half_bits : F32.lit 5 10 = S754_finite false 8388608 (-24).
Proof. reflexivity. Qed.

Lemma two_bits : F32.of_Z 2 = S754_finite false 8388608 (-22).
Proof. reflexivity. Qed.

(** For fewer than [2 ^ 24] samples and [percent = 0.5f] the trim count
    is computed without rounding: a quarter of the length, rounded
    down. *)
Lemma trim_count_half (len : Z) :
  0 < len < 2 ^ 24 -> trim_count len (F32.lit 5 10) = Some (len / 4).
Proof.
  intros [Hpos Hlt]. unfold trim_count.
  destruct len as [|p|p]; try lia.
  destruct (of_Z_exact p Hlt) as (m & Hof & Hd & Hm).
  assert (Hb := digits2_pos_bound p).
  set (d := Zpos (digits2_pos p)) in *.
  assert (Hd1 : 1 <= d <= 24).
  { split; [unfold d; lia|].
    destruct (Z.le_gt_cases d 24) as [H|H]; [exact H|].
    assert (2 ^ 24 <= 2 ^ (d - 1)) by (apply Z.pow_le_mono_r; lia). lia. }
  rewrite Hof, half_bits, two_bits.
  (* len * 0.5 *)
  unfold F32.mul, SFmul. cbn [xorb].
  rewrite Pos.mul_comm.
  change (8388608 * m)%positive with (Pos.iter xO m 23).
  rewrite round_shift by (assumption || lia).
  (* ... / 2 *)
  unfold F32.div, SFdiv, SFdiv_core_binary. cbn [xorb Zdigits2].
  rewrite Hd.
  replace (Z.min (fexp F32.prec F32.emax
             (24 + (d - 24 + -24 + 23) - (Z.pos (digits2_pos 8388608) + -22)))
             (d - 24 + -24 + 23 - -22)) with (d - 27)
    by (cbn [digits2_pos Pos.succ]; unfold fexp, emin, F32.prec, F32.emax; lia).
  replace (d - 24 + -24 + 23 - -22 - (d - 27)) with 24 by lia.
  cbv iota.
  rewrite Z.shiftl_mul_pow2 by lia.
  assert (Hdiv : Z.div_eucl (Zpos m * 2 ^ 24) 8388608 = (Zpos (Pos.iter xO m 1), 0)).
  { assert (H : forall a b, Z.div_eucl a b = (a / b, a mod b))
      by (intros a b; unfold Z.div, Z.modulo; destruct (Z.div_eucl a b); reflexivity).
    rewrite H. replace (Zpos m * 2 ^ 24) with (2 * Zpos m * 8388608) by lia.
    rewrite Z.div_mul, Z.mod_mul by lia. reflexivity. }
  change IntDef.Z.div_eucl with Z.div_eucl. rewrite Hdiv.
  change (new_location 8388608 0) with loc_Exact.
  rewrite round_shift by (assumption || lia).
  unfold F32.to_size_t, F32.trunc. cbn [cond_Zopp].
  destruct (d - 27 + 1) as [|q|q] eqn:Hq; try lia.
  replace (- Zneg q) with (2 + (24 - d)) by lia.
  rewrite Z.pow_add_r, Hm by lia.
  rewrite Z.div_mul_cancel_r
    by (try apply Z.pow_nonzero; lia).
  change (2 ^ 2) with 4.
  assert (0 <= Zpos p / 4 < 2 ^ 32).
  { split; [apply Z.div_pos; lia|].
    apply Z.div_lt_upper_bound; lia. }
  replace ((0 <=? Zpos p / 4) && (Zpos p / 4 <? 2 ^ 32)) with true; [reflexivity|].
  symmetry. apply andb_true_intro. split; [apply Z.leb_le | apply Z.ltb_lt]; lia.
Qed.

(** ** The smoother against its closed forms *)

Lemma sum_loop (a : list f32) (n : nat) : forall (lo : nat) (s0 : f32) (c0 : Z),
  (lo + n <= length a)%nat ->
  fold_left (fun '(sum, count) i => (F32.add sum (a !!! i), count + 1))
            (seq lo n) (s0, c0)
  = (fold_left F32.add (take n (drop lo a)) s0, c0 + Z.of_nat n).
Proof.
  induction n as [|n IH]; intros lo s0 c0 Hn.
  - simpl. f_equal. lia.
  - destruct (lookup_lt_is_Some_2 a lo ltac:(lia)) as [x Hx].
    cbn [seq fold_left].
    rewrite (list_lookup_total_correct _ _ _ Hx), (drop_S _ _ _ Hx).
    rewrite IH by lia. cbn [take fold_left]. f_equal. lia.
Qed.

Lemma take_middle (s : list f32) (k n : nat) :
  take (n - k - k) (drop k s) = drop k (take (n - k) s).
Proof.
  rewrite skipn_firstn_comm. reflexivity.
Qed.

Lemma trimmean_closed (w : list f32) :
  no_nan w -> (5 <= length w)%nat -> Z.of_nat (length w) < 2 ^ 24 ->
  trimmean true w (length w) (F32.lit 5 10) = Some (Spec.trimmed_mean w 5 10).
Proof.
  intros Hnn H5 Hlt. unfold trimmean.
  destruct (Nat.eqb_spec (length w) 0) as [H0|_]; [lia|]. cbn [negb].
  rewrite trim_count_half by lia.
  rewrite firstn_all, (bubble_sort_sort_asc w Hnn).
  assert (Hk : (4 * Z.to_nat (Z.of_nat (length w) / 4) <= length w)%nat).
  { apply Nat2Z.inj_le. rewrite Nat2Z.inj_mul, Z2Nat.id by (apply Z.div_pos; lia).
    apply Z.mul_div_le. lia. }
  set (k := Z.to_nat (Z.of_nat (length w) / 4)) in *.
  destruct (Nat.ltb_spec (length w) k) as [Hbad|_]; [lia|].
  unfold for_range. rewrite sum_loop
    by (rewrite (Permutation_length (sort_asc_perm w)); lia).
  rewrite take_middle.
  unfold Spec.trimmed_mean, Spec.mean.
  replace (Z.to_nat (Z.of_nat (length w) * 5 / (2 * 10))) with k.
  2:{ unfold k. f_equal.
      replace (Z.of_nat (length w) * 5) with (Z.of_nat (length w) * 5) by lia.
      change (2 * 10) with (4 * 5).
      rewrite Z.div_mul_cancel_r by lia. reflexivity. }
  rewrite length_drop, length_take, (Permutation_length (sort_asc_perm w)).
  replace (0 + Z.of_nat (length w - k - k)) with (Z.of_nat (length w - k - k)) by lia.
  replace ((length w - k) `min` length w - k)%nat with (length w - k - k)%nat by lia.
  destruct (Z.ltb_spec 0 (Z.of_nat (length w - k - k))) as [_|Hbad]; [reflexivity|].
  lia.
Qed.

Lemma median_closed (w : list f32) :
  no_nan w -> (5 <= length w)%nat ->
  median true w (length w) = Spec.median w.
Proof.
  intros Hnn H5. unfold median, Spec.median.
  destruct (Nat.eqb_spec (length w) 0) as [H0|_]; [lia|]. cbn [negb].
  rewrite firstn_all, (bubble_sort_sort_asc w Hnn).
  destruct (Nat.even (length w)) eqn:He.
  - apply Nat.even_spec in He. destruct He as [h Hh].
    replace (length w mod 2)%nat with 0%nat
      by (rewrite Hh, Nat.mul_comm, Nat.Div0.mod_mul; reflexivity).
    reflexivity.
  - assert (Ho : Nat.odd (length w) = true)
      by (rewrite <- Nat.negb_even, He; reflexivity).
    apply Nat.odd_spec in Ho. destruct Ho as [h Hh].
    replace (length w mod 2)%nat with 1%nat; [reflexivity|].
    rewrite Hh, Nat.add_comm, Nat.mul_comm, Nat.Div0.mod_add. reflexivity.
Qed.

(** ** The fusion pass *)

Section Fusion.
Import Master.

Lemma set_links_same (st : master_state_t) : set_links (links st) st = st.
Proof. destruct st; reflexivity. Qed.

Lemma recalculate_active (st : master_state_t) (i : nat) (l : link_status_t) :
  links st !! i = Some l -> Link.active l = true ->
  recalculate_link_status st i = set_links (<[i := recalculated st l]> (links st)) st.
Proof.
  intros Hl Ha. unfold recalculate_link_status, recalculated.
  rewrite (list_lookup_total_correct _ _ _ Hl), Ha. cbn [negb].
  destruct (F32.gt (wander_threshold st) (F32.of_Z 0)),
           (F32.gt (jitter_threshold st) (F32.of_Z 0)); reflexivity.
Qed.

Lemma link_after_active (now : Z) (st : master_state_t) (i : nat) (l : link_status_t) :
  Link.active (link_after now st i l) = counted now l.
Proof.
  unfold link_after. destruct (counted now l) eqn:Hc; [|reflexivity].
  unfold counted in Hc. apply andb_prop in Hc as [Ha _].
  destruct (i =? 0)%nat; [|exact Ha]. exact Ha.
Qed.

(** One turn of the loop of [fuse_detection_results]. *)
Lemma fuse_link_step (now : Z) (st : master_state_t) (c : fuse_counters)
    (i : nat) (l : link_status_t) :
  links st !! i = Some l ->
  fuse_link now (st, c) i =
    (set_links (<[i := link_after now st i l]> (links st)) st,
     {| detection_count :=
          detection_count c
          + b2z (counted now l
                 && (Link.room_status (link_after now st i l)
                     || Link.human_status (link_after now st i l)));
        motion_count :=
          motion_count c
          + b2z (counted now l && Link.human_status (link_after now st i l));
        active_count := active_count c + b2z (counted now l) |}).
Proof.
  intros Hl. assert (Hi := lookup_lt_Some _ _ _ Hl).
  unfold fuse_link, link_after.
  rewrite (list_lookup_total_correct _ _ _ Hl).
  fold (counted now l). destruct (counted now l) eqn:Hc.
  - assert (Ha : Link.active l = true)
      by (unfold counted in Hc; apply andb_prop in Hc; tauto).
    destruct (Nat.eqb_spec i 0) as [->|Hne].
    + rewrite (recalculate_active st 0 l Hl Ha). cbn [links set_links].
      rewrite list_lookup_total_insert_eq by exact Hi.
      f_equal. cbn [andb].
      destruct (Link.room_status (recalculated st l) || Link.human_status (recalculated st l)),
               (Link.human_status (recalculated st l)); unfold b2z; f_equal; lia.
    + rewrite (list_lookup_total_correct _ _ _ Hl).
      rewrite (list_insert_id _ _ _ Hl), set_links_same.
      f_equal. cbn [andb].
      destruct (Link.room_status l || Link.human_status l), (Link.human_status l);
        unfold b2z; f_equal; lia.
  - f_equal. destruct c; unfold b2z; cbn; f_equal; lia.
Qed.

Lemma fuse_loop_three (now : Z) (st : master_state_t) (l0 l1 l2 : link_status_t) :
  links st = [l0; l1; l2] ->
  let l0' := link_after now st 0 l0 in
  let l1' := link_after now st 1 l1 in
  let l2' := link_after now st 2 l2 in
  fuse_loop st now =
    (set_links [l0'; l1'; l2'] st,
     {| detection_count :=
          b2z (counted now l0 && (Link.room_status l0' || Link.human_status l0'))
          + b2z (counted now l1 && (Link.room_status l1' || Link.human_status l1'))
          + b2z (counted now l2 && (Link.room_status l2' || Link.human_status l2'));
        motion_count :=
          b2z (counted now l0 && Link.human_status l0')
          + b2z (counted now l1 && Link.human_status l1')
          + b2z (counted now l2 && Link.human_status l2');
        active_count :=
          b2z (counted now l0) + b2z (counted now l1) + b2z (counted now l2) |}).
Proof.
  intros Hls. cbv zeta. unfold fuse_loop, for_range. cbn [Nat.sub seq fold_left].
  rewrite (fuse_link_step now st _ 0 l0) by (rewrite Hls; reflexivity).
  rewrite Hls. cbn [list_insert insert].
  rewrite (fuse_link_step now _ _ 1 l1) by reflexivity.
  cbn [links set_links list_insert insert].
  rewrite (fuse_link_step now _ _ 2 l2) by reflexivity.
  cbn [links set_links list_insert insert detection_count motion_count active_count].
  reflexivity.
Qed.

Lemma count_if_three {A : Type} (P : A -> bool) (a b c : A) :
  count_if P [a; b; c] = b2z (P a) + b2z (P b) + b2z (P c).
Proof.
  unfold count_if. cbn [List.filter].
  destruct (P a), (P b), (P c); reflexivity.
Qed.

Lemma length_three {A : Type} (l : list A) :
  length l = 3%nat -> exists a b c, l = [a; b; c].
Proof.
  destruct l as [|a [|b [|c [|d t]]]]; simpl; intros H; try discriminate.
  eauto.
Qed.

Lemma stale_not_counted (now : Z) (l : link_status_t) :
  LINK_TIMEOUT_MS <= U32.sub now (Link.last_update l) -> counted now l = false.
Proof.
  intros H. unfold counted. apply andb_false_intro2. apply Z.ltb_ge. exact H.
Qed.

Lemma fuse_links (st : master_state_t) (now : Z) (l0 l1 l2 : link_status_t) :
  links st = [l0; l1; l2] ->
  links (fuse_detection_results st now)
  = [link_after now st 0 l0; link_after now st 1 l1; link_after now st 2 l2].
Proof.
  intros Hls. unfold fuse_detection_results.
  rewrite (fuse_loop_three now st l0 l1 l2 Hls). reflexivity.
Qed.

Lemma recalculated_link (st : master_state_t) (l : link_status_t) :
  links st !! 0%nat = Some l -> Link.active l = true ->
  links (recalculate_link_status st 0) !!! 0%nat = recalculated st l.
Proof.
  intros Hl Ha. rewrite (recalculate_active st 0 l Hl Ha). cbn [links set_links].
  apply list_lookup_total_insert_eq. exact (lookup_lt_Some _ _ _ Hl).
Qed.

End Fusion.

(** ** The slave's callback *)

Section SlaveNode.
Import Slave.

Lemma trim_count_25 : trim_count 25 (F32.lit 5 10) = Some 6.
Proof. vm_compute. reflexivity. Qed.

(** With the arguments of the two callbacks [trimmean] is defined. *)
Lemma trimmean_25_defined (heap : bool) (buf : list f32) :
  exists v, trimmean heap buf RADAR_BUFF_MAX_LEN (F32.lit 5 10) = Some v.
Proof.
  unfold trimmean. change (RADAR_BUFF_MAX_LEN =? 0)%nat with false.
  change (Z.of_nat RADAR_BUFF_MAX_LEN) with 25. rewrite trim_count_25.
  change (RADAR_BUFF_MAX_LEN <? Z.to_nat 6)%nat with false.
  cbv iota. destruct heap; cbn [negb]; [|eauto].
  destruct (for_range _ _ _ _) as [sum count]. eauto.
Qed.

(** The voting loop in closed form. *)
Lemma vote_loop (d : detection_state_t) (wander_average jitter_median : f32)
    (has_valid_threshold : bool) :
  for_range 0 5 (vote_step d wander_average jitter_median has_valid_threshold) (0, 0)
  = (if has_valid_threshold
        && F32.gt (F32.mul wander_average (wander_sensitivity d)) (wander_threshold d)
     then 5 else 0,
     if F32.gt (jitter_threshold d) (F32.lit 1 10000)
     then count_if (motion_vote d jitter_median) (raw_window d) else 0).
Proof.
  unfold for_range, raw_window, count_if. cbn [Nat.sub seq fold_left map].
  unfold vote_step.
  repeat match goal with
    | |- context [F32.gt (F32.mul (jitter_buff d !!! ?i) (jitter_sensitivity d))
                         (jitter_threshold d)
                  || (F32.gt (F32.mul (jitter_buff d !!! ?i) (jitter_sensitivity d))
                             jitter_median
                      && F32.gt (jitter_buff d !!! ?i) (F32.lit 2 10000))] =>
        fold (motion_vote d jitter_median (jitter_buff d !!! i))
    end.
  cbn [List.filter].
  destruct (has_valid_threshold
            && F32.gt (F32.mul wander_average (wander_sensitivity d)) (wander_threshold d)),
    (F32.gt (jitter_threshold d) (F32.lit 1 10000)); cbn [andb];
    repeat match goal with
      | |- context [motion_vote d jitter_median ?x] =>
          destruct (motion_vote d jitter_median x)
      end; reflexivity.
Qed.

Lemma slave_cb_cold (s : slave_t) (info : wifi_radar_info_t)
    (heap_w heap_j : bool) (now t_report : Z) :
  buff_count (slave_stored (detect s) info) < 5 ->
  wifi_radar_cb s info heap_w heap_j now t_report
  = Some ({| detect := slave_stored (detect s) info; g_node_id := g_node_id s;
             s_last_send_time := s_last_send_time s |},
          {| led := None; sent := None |}).
Proof.
  intros Hc. unfold wifi_radar_cb. cbv zeta. fold (slave_stored (detect s) info).
  change (Z.of_nat 5) with 5.
  destruct (Z.ltb_spec (buff_count (slave_stored (detect s) info)) 5); [reflexivity|lia].
Qed.

Lemma slave_cb_warm (s : slave_t) (info : wifi_radar_info_t)
    (heap_w heap_j : bool) (now t_report : Z) :
  let d1 := slave_stored (detect s) info in
  5 <= buff_count d1 ->
  exists wander_average,
    trimmean heap_w (wander_buff d1) RADAR_BUFF_MAX_LEN (F32.lit 5 10)
      = Some wander_average
    /\ let jitter_median := median heap_j (jitter_buff d1) RADAR_BUFF_MAX_LEN in
       let room := slave_room d1 wander_average in
       let human := slave_motion d1 jitter_median in
       let d2 := set_status room human d1 in
       let s2 := {| detect := d2; g_node_id := g_node_id s;
                    s_last_send_time := s_last_send_time s |} in
       wifi_radar_cb s info heap_w heap_j now t_report
       = Some
           (if calibrating (detect s) then
              (s2, {| led := Some (false, false, true); sent := None |})
            else if 100 <=? U32.sub now (s_last_send_time s) then
              ({| detect := d2; g_node_id := g_node_id s; s_last_send_time := now |},
               {| led := Some (room, human, false);
                  sent := Some (send_result_to_master s2 wander_average
                                  jitter_median 0 t_report) |})
            else (s2, {| led := Some (room, human, false); sent := None |})).
Proof.
  cbv zeta. intros Hw.
  destruct (trimmean_25_defined heap_w (wander_buff (slave_stored (detect s) info)))
    as [wa Hwa].
  exists wa. split; [exact Hwa|].
  unfold wifi_radar_cb. cbv zeta. fold (slave_stored (detect s) info).
  change (Z.of_nat 5) with 5.
  destruct (Z.ltb_spec (buff_count (slave_stored (detect s) info)) 5); [lia|].
  rewrite Hwa, vote_loop.
  unfold slave_room, slave_motion.
  set (d1 := slave_stored (detect s) info).
  replace (F32.gt (wander_threshold d1) (F32.lit 1 10000)
           && (1 <=? (if F32.gt (wander_threshold d1) (F32.lit 1 10000)
                         && F32.gt (F32.mul wa (wander_sensitivity d1))
                                   (wander_threshold d1)
                      then 5 else 0)))
    with (F32.gt (wander_threshold d1) (F32.lit 1 10000)
          && F32.gt (F32.mul wa (wander_sensitivity d1)) (wander_threshold d1))
    by (destruct (F32.gt (wander_threshold d1) (F32.lit 1 10000)),
                 (F32.gt (F32.mul wa (wander_sensitivity d1)) (wander_threshold d1));
        reflexivity).
  replace (F32.gt (jitter_threshold d1) (F32.lit 1 10000)
           && (2 <=? (if F32.gt (jitter_threshold d1) (F32.lit 1 10000)
                      then count_if (motion_vote d1 (median heap_j (jitter_buff d1) RADAR_BUFF_MAX_LEN))
                                    (raw_window d1)
                      else 0)))
    with (F32.gt (jitter_threshold d1) (F32.lit 1 10000)
          && (2 <=? count_if (motion_vote d1 (median heap_j (jitter_buff d1) RADAR_BUFF_MAX_LEN))
                             (raw_window d1)))
    by (destruct (F32.gt (jitter_threshold d1) (F32.lit 1 10000)); reflexivity).
  cbn [calibrating set_status room_status human_status s_last_send_time g_node_id detect].
  change (calibrating d1) with (calibrating (detect s)).
  destruct (calibrating (detect s)); [reflexivity|].
  destruct (100 <=? U32.sub now (s_last_send_time s)); reflexivity.
Qed.

(** Whatever path the callback takes, the node ends with the stored
    buffers, and thresholds, sensitivities and the calibration flag are
    those it started with. *)
Lemma slave_cb_frame (s s' : slave_t) (info : wifi_radar_info_t)
    (heap_w heap_j : bool) (now t_report : Z) (out : cb_effects) :
  wifi_radar_cb s info heap_w heap_j now t_report = Some (s', out) ->
  jitter_buff (detect s') = jitter_buff (slave_stored (detect s) info)
  /\ wander_buff (detect s') = wander_buff (slave_stored (detect s) info)
  /\ buff_count (detect s') = buff_count (slave_stored (detect s) info)
  /\ wander_threshold (detect s') = wander_threshold (detect s)
  /\ jitter_threshold (detect s') = jitter_threshold (detect s)
  /\ wander_sensitivity (detect s') = wander_sensitivity (detect s)
  /\ jitter_sensitivity (detect s') = jitter_sensitivity (detect s)
  /\ calibrating (detect s') = calibrating (detect s)
  /\ g_node_id s' = g_node_id s.
Proof.
  intros H.
  destruct (Z.lt_ge_cases (buff_count (slave_stored (detect s) info)) 5) as [Hc|Hw].
  - rewrite (slave_cb_cold s info heap_w heap_j now t_report Hc) in H.
    injection H as <- <-. cbn. repeat split; reflexivity.
  - destruct (slave_cb_warm s info heap_w heap_j now t_report Hw) as (wa & _ & Hcb).
    cbv zeta in Hcb. rewrite Hcb in H.
    destruct (calibrating (detect s)) eqn:Hcal;
      [|destruct (100 <=? U32.sub now (s_last_send_time s))];
      injection H as <- <-; cbn; rewrite ?Hcal; repeat split; reflexivity.
Qed.

Lemma slave_cb_defined (s : slave_t) (info : wifi_radar_info_t)
    (heap_w heap_j : bool) (now t_report : Z) :
  exists s' out, wifi_radar_cb s info heap_w heap_j now t_report = Some (s', out).
Proof.
  destruct (Z.lt_ge_cases (buff_count (slave_stored (detect s) info)) 5) as [Hc|Hw].
  - rewrite (slave_cb_cold s info heap_w heap_j now t_report Hc). eauto.
  - destruct (slave_cb_warm s info heap_w heap_j now t_report Hw) as (wa & _ & Hcb).
    cbv zeta in Hcb. rewrite Hcb.
    destruct (calibrating (detect s));
      [|destruct (100 <=? U32.sub now (s_last_send_time s))]; eauto.
Qed.

Lemma espnow_frame (s : slave_t) (data : list byte) (trained : f32 * f32) :
  jitter_buff (detect (espnow_recv_cb s data trained)) = jitter_buff (detect s)
  /\ wander_buff (detect (espnow_recv_cb s data trained)) = wander_buff (detect s)
  /\ buff_count (detect (espnow_recv_cb s data trained)) = buff_count (detect s).
Proof.
  unfold espnow_recv_cb.
  repeat match goal with
    | |- context [if ?b then _ else _] => destruct b
    end; cbn; repeat split; reflexivity.
Qed.

Lemma ring_boot (nvs : option nvs_blobs) (cfg : option Z) :
  ring_ok (detect (boot nvs cfg)) [].
Proof.
  unfold ring_ok, boot, nvs_load_settings.
  destruct nvs as [b|]; cbn; (split; [reflexivity|]); (split; [reflexivity|]);
    intros k _ Hk; lia.
Qed.

Lemma ring_store (d : detection_state_t) (hist : list f32) (info : wifi_radar_info_t) :
  ring_ok d hist -> ring_ok (slave_stored d info) (hist ++ [waveform_jitter info]).
Proof.
  intros (Hlen & Hcount & Hslots).
  unfold ring_ok, slave_stored. cbn [jitter_buff buff_count set_buffers].
  rewrite length_insert, length_app, rev_app_distr. cbn [length rev app].
  change (Z.of_nat RADAR_BUFF_MAX_LEN) with 25 in *.
  unfold RADAR_BUFF_MAX_LEN in *.
  assert (Hbc : 0 <= buff_count d < 2 ^ 32)
    by (rewrite Hcount; apply Z.mod_pos_bound; reflexivity).
  split; [exact Hlen|]. split.
  - unfold U32.add, U32.wrap, U32.modulus in *.
    rewrite Hcount, Nat2Z.inj_add, Z.add_mod_idemp_l by lia. reflexivity.
  - intros k Hk25 Hk.
    destruct (Z.eq_dec (buff_count d + 1) (2 ^ 32)) as [Hwrap|Hnowrap].
    { unfold U32.add, U32.wrap, U32.modulus in Hk.
      rewrite Hwrap, Z.mod_same in Hk by lia. lia. }
    assert (Hnext : U32.add (buff_count d) 1 = buff_count d + 1)
      by (unfold U32.add, U32.wrap, U32.modulus; apply Z.mod_small; lia).
    rewrite Hnext in Hk |- *.
    destruct k as [|k].
    + replace (buff_count d + 1 - 1 - Z.of_nat 0) with (buff_count d) by lia.
      cbn [lookup_total list_lookup_total].
      apply list_lookup_total_insert_eq.
      rewrite Hlen.
      assert (Hb := Z.mod_pos_bound (buff_count d) 25 ltac:(lia)). lia.
    + replace (buff_count d + 1 - 1 - Z.of_nat (S k))
        with (buff_count d - 1 - Z.of_nat k) by lia.
      cbn [lookup_total list_lookup_total].
      rewrite list_lookup_total_insert_ne.
      * apply Hslots; lia.
      * intros Heq.
        assert (0 <= Z.of_nat k < 24) by lia.
        revert Heq. generalize (buff_count d). intros n Heq.
        Z.div_mod_to_equations. lia.
Qed.

Lemma ring_ok_ext (d d' : detection_state_t) (hist : list f32) :
  jitter_buff d' = jitter_buff d -> buff_count d' = buff_count d ->
  ring_ok d hist -> ring_ok d' hist.
Proof. unfold ring_ok. intros -> ->. tauto. Qed.

Lemma ring_step (s : slave_t) (ev : event) (hist : list f32) :
  ring_ok (detect s) hist ->
  exists s' out, step s ev = Some (s', out)
                 /\ ring_ok (detect s') (hist ++ jitter_samples [ev]).
Proof.
  intros Hr. destruct ev as [info hw hj now t|data trained]; cbn [step jitter_samples] in *.
  - destruct (slave_cb_defined s info hw hj now t) as (s' & out & Hcb).
    exists s', out. split; [exact Hcb|].
    destruct (slave_cb_frame _ _ _ _ _ _ _ _ Hcb) as (Hj & _ & Hc & _).
    apply (ring_ok_ext (slave_stored (detect s) info)); [exact Hj | exact Hc |].
    apply ring_store. exact Hr.
  - eexists _, _. split; [reflexivity|].
    destruct (espnow_frame s data trained) as (Hj & _ & Hc).
    rewrite app_nil_r. apply (ring_ok_ext (detect s)); assumption.
Qed.

Lemma jitter_samples_cons (ev : event) (evs : list event) :
  jitter_samples (ev :: evs) = jitter_samples [ev] ++ jitter_samples evs.
Proof. destruct ev; reflexivity. Qed.

(** Every run is defined and keeps the buffer in step with the samples
    it was fed. *)
Lemma run_ring (evs : list event) : forall (s : slave_t) (hist : list f32),
  ring_ok (detect s) hist ->
  exists s', run s evs = Some s' /\ ring_ok (detect s') (hist ++ jitter_samples evs).
Proof.
  induction evs as [|ev evs IH]; intros s hist Hr.
  - exists s. rewrite app_nil_r. split; [reflexivity | exact Hr].
  - rewrite jitter_samples_cons.
    destruct (ring_step s ev hist Hr) as (s1 & out & Hstep & Hr1).
    destruct (IH s1 _ Hr1) as (s' & Hrun & Hr').
    exists s'. cbn [run]. rewrite Hstep, app_assoc. split; assumption.
Qed.

(** When the counter is at five or more, the voting loop reads the last
    five raw samples, newest first. *)
Lemma raw_window_ring (d : detection_state_t) (hist : list f32) :
  ring_ok d hist -> 5 <= buff_count d -> raw_window d = take 5 (rev hist).
Proof.
  intros (Hlen & Hcount & Hslots) H5.
  assert (Hbc : 0 <= buff_count d < 2 ^ 32)
    by (rewrite Hcount; apply Z.mod_pos_bound; reflexivity).
  assert (Hn : buff_count d <= Z.of_nat (length hist))
    by (rewrite Hcount; unfold U32.wrap, U32.modulus; apply Z.mod_le; lia).
  assert (Hidx : forall i : nat, (i < 5)%nat ->
            U32.sub (U32.sub (buff_count d) 1) (Z.of_nat i)
            = buff_count d - 1 - Z.of_nat i).
  { intros i Hi. unfold U32.sub, U32.wrap, U32.modulus.
    rewrite (Z.mod_small (buff_count d - 1)) by lia.
    apply Z.mod_small. lia. }
  unfold raw_window. cbn [seq map].
  rewrite !Hidx by lia.
  unfold RADAR_BUFF_MAX_LEN in Hslots.
  rewrite !Hslots by lia.
  assert (Hrl : length (rev hist) = length hist) by apply length_rev.
  destruct (rev hist) as [|a [|b [|c [|e [|f t]]]]]; cbn in Hrl; try lia.
  reflexivity.
Qed.

End SlaveNode.

(** * The fusion engine *)

Section FusionClaims.
Import Master.

(** C1.  After a fusion pass at time [now], let [active_count] be the
    number of links left active, [detection_count] the number of those
    with the room or the motion flag set and [motion_count] the number of
    those with the motion flag set.  The fused room status is
    [detection_count >= quorum], the fused motion status is the fused
    room status and [motion_count >= quorum], where [quorum] is 2 when
    [active_count >= 2] and 1 otherwise.  The links left active are those
    that were flagged active and updated less than 3000 ms before [now]. *)
Theorem fusion_quorum (st : master_state_t) (now : Z) :
  length (links st) = 3%nat ->
  let st' := fuse_detection_results st now in
  let active_count := count_if Link.active (links st') in
  let detection_count :=
    count_if (fun l => Link.active l && (Link.room_status l || Link.human_status l))
             (links st') in
  let motion_count :=
    count_if (fun l => Link.active l && Link.human_status l) (links st') in
  room_status st' = (quorum active_count <=? detection_count)
  /\ human_status st' = (room_status st' && (quorum active_count <=? motion_count))
  /\ forall i l, links st !! i = Some l ->
       Link.active (links st' !!! i) = counted now l.
Proof.
  intros Hlen. destruct (length_three _ Hlen) as (l0 & l1 & l2 & Hls).
  cbv zeta. unfold fuse_detection_results.
  rewrite (fuse_loop_three now st l0 l1 l2 Hls).
  cbn [links set_links set_fused room_status human_status
       detection_count motion_count active_count].
  rewrite !count_if_three, !link_after_active. unfold quorum.
  split; [reflexivity|]. split; [reflexivity|].
  intros i l Hl. rewrite Hls in Hl.
  destruct i as [|[|[|i]]]; cbn in Hl; try discriminate;
    injection Hl as <-; cbn; apply link_after_active.
Qed.

Lemma fusion_quorum_witness :
  length (links scenario_a) = 3%nat
  /\ room_status (fuse_detection_results scenario_a 1000) = true
  /\ human_status (fuse_detection_results scenario_a 1000) = false.
Proof.
  split; [reflexivity|].
  destruct (fusion_quorum scenario_a 1000 eq_refl) as (Hroom & Hhuman & _).
  rewrite Hhuman, Hroom. vm_compute. split; reflexivity.
Defined.

(** C2.  After every fusion pass, whatever the links, thresholds and
    sensitivities, fused motion implies fused presence. *)
Theorem fused_motion_implies_room (st : master_state_t) (now : Z) :
  human_status (fuse_detection_results st now) = true ->
  room_status (fuse_detection_results st now) = true.
Proof.
  unfold fuse_detection_results. destruct (fuse_loop st now) as [st1 c].
  cbn [set_fused human_status room_status].
  intros H. apply andb_prop in H. tauto.
Qed.

Lemma fused_motion_implies_room_witness :
  human_status (fuse_detection_results scenario_stale 10000) = true
  /\ room_status (fuse_detection_results scenario_stale 10000) = true.
Proof.
  assert (H : human_status (fuse_detection_results scenario_stale 10000) = true)
    by (vm_compute; reflexivity).
  split; [exact H|].
  apply (fused_motion_implies_room scenario_stale 10000). exact H.
Defined.

(** C3.  A link whose [last_update] lies 3000 ms or more before the
    evaluation time (the difference taken in 32-bit arithmetic, as the
    code takes it) is marked inactive by the pass; the turn of the loop
    at this link leaves [active_count], [detection_count] and
    [motion_count] as they were; and the fused result is the same
    whatever room and motion flags the link has stored. *)
Theorem stale_link_excluded (st : master_state_t) (now : Z) (i : nat)
    (l : link_status_t) :
  length (links st) = 3%nat ->
  links st !! i = Some l ->
  LINK_TIMEOUT_MS <= U32.sub now (Link.last_update l) ->
  Link.active (links (fuse_detection_results st now) !!! i) = false
  /\ (forall st0 c, links st0 !! i = Some l -> snd (fuse_link now (st0, c) i) = c)
  /\ (forall room human,
        let l_alt := Link.set_room_status room (Link.set_human_status human l) in
        let st_alt := set_links (<[i := l_alt]> (links st)) st in
        room_status (fuse_detection_results st_alt now)
          = room_status (fuse_detection_results st now)
        /\ human_status (fuse_detection_results st_alt now)
          = human_status (fuse_detection_results st now)).
Proof.
  intros Hlen Hl Hstale.
  assert (Hc := stale_not_counted now l Hstale).
  destruct (length_three _ Hlen) as (l0 & l1 & l2 & Hls).
  split; [|split].
  - rewrite (fuse_links st now l0 l1 l2 Hls). rewrite Hls in Hl.
    destruct i as [|[|[|i]]]; cbn in Hl; try discriminate;
      injection Hl as <-; cbn; rewrite link_after_active; exact Hc.
  - intros st0 c Hl0. rewrite (fuse_link_step now st0 c i l Hl0), Hc.
    cbn [snd andb b2z]. destruct c; cbn; f_equal; lia.
  - intros room human. cbv zeta.
    assert (Hc' : counted now (Link.set_room_status room (Link.set_human_status human l)) = false)
      by (apply stale_not_counted; exact Hstale).
    unfold fuse_detection_results.
    rewrite (fuse_loop_three now st l0 l1 l2 Hls).
    rewrite Hls in Hl |- *.
    destruct i as [|[|[|i]]]; cbn in Hl; try discriminate; injection Hl as <-;
      cbn [list_insert insert];
      erewrite fuse_loop_three by reflexivity;
      cbn [set_fused set_links room_status human_status detection_count
           motion_count active_count];
      rewrite Hc, Hc'; cbn [andb]; split; reflexivity.
Qed.

Lemma stale_link_excluded_witness :
  LINK_TIMEOUT_MS <= U32.sub 10000 5000
  /\ Link.room_status (links scenario_stale !!! 2%nat) = true
  /\ Link.human_status (links scenario_stale !!! 2%nat) = true
  /\ Link.active (links (fuse_detection_results scenario_stale 10000) !!! 2%nat) = false.
Proof.
  split; [vm_compute; discriminate|].
  split; [reflexivity|]. split; [reflexivity|].
  apply (stale_link_excluded scenario_stale 10000 2
           (a_link true true true F32.zero F32.zero 5000) eq_refl eq_refl).
  vm_compute. discriminate.
Defined.

End FusionClaims.

(** * The slave's classifier *)

Section SlaveClaims.
Import Slave.

(** C6.  On a slave sample after warm-up (the node booted, any run of
    samples and commands, then the sample at hand, leaving the 32-bit
    sample counter at five or more), the voting loop reads the last five
    raw jitter samples, newest first, and the motion status is true
    exactly when the jitter threshold exceeds 0.0001 and at least two of
    these samples [j] vote, a vote being [j * jitter_sensitivity >
    jitter_threshold], or [j * jitter_sensitivity > jitter_smoothed] and
    [j > 0.0002], with [jitter_smoothed] the median of the buffer. *)
Theorem slave_motion_votes (nvs : option nvs_blobs) (cfg : option Z)
    (evs : list event) (info : wifi_radar_info_t) (heap_w heap_j : bool)
    (now t_report : Z) :
  let hist := jitter_samples evs ++ [waveform_jitter info] in
  5 <= U32.wrap (Z.of_nat (length hist)) ->
  exists s s' out,
    run (boot nvs cfg) evs = Some s
    /\ wifi_radar_cb s info heap_w heap_j now t_report = Some (s', out)
    /\ let d := detect s' in
       let jitter_smoothed := median heap_j (jitter_buff d) RADAR_BUFF_MAX_LEN in
       buff_count d = U32.wrap (Z.of_nat (length hist))
       /\ raw_window d = take 5 (rev hist)
       /\ human_status d
          = (F32.gt (jitter_threshold d) (F32.lit 1 10000)
             && (2 <=? count_if (motion_vote d jitter_smoothed) (take 5 (rev hist)))).
Proof.
  cbv zeta. intros H5.
  destruct (run_ring evs (boot nvs cfg) [] (ring_boot nvs cfg)) as (s & Hrun & Hr).
  cbn [app] in Hr.
  assert (Hr1 := ring_store _ _ info Hr).
  assert (Hc1 : buff_count (slave_stored (detect s) info)
                = U32.wrap (Z.of_nat (length (jitter_samples evs ++ [waveform_jitter info]))))
    by (destruct Hr1 as (_ & Hc & _); exact Hc).
  assert (Hw : 5 <= buff_count (slave_stored (detect s) info))
    by (rewrite Hc1; exact H5).
  destruct (slave_cb_warm s info heap_w heap_j now t_report Hw) as (wa & _ & Hcb).
  cbv zeta in Hcb.
  assert (Hwin := raw_window_ring _ _ Hr1 Hw).
  set (d1 := slave_stored (detect s) info) in *.
  set (jm := median heap_j (jitter_buff d1) RADAR_BUFF_MAX_LEN) in *.
  set (d2 := set_status (slave_room d1 wa) (slave_motion d1 jm) d1) in *.
  assert (Hd2 : buff_count d2
                = U32.wrap (Z.of_nat (length (jitter_samples evs ++ [waveform_jitter info])))
                /\ raw_window d2 = take 5 (rev (jitter_samples evs ++ [waveform_jitter info]))
                /\ human_status d2
                   = (F32.gt (jitter_threshold d2) (F32.lit 1 10000)
                      && (2 <=? count_if (motion_vote d2 (median heap_j (jitter_buff d2) RADAR_BUFF_MAX_LEN))
                                         (take 5 (rev (jitter_samples evs ++ [waveform_jitter info])))))).
  { split; [exact Hc1|]. split; [exact Hwin|]. rewrite <- Hwin. reflexivity. }
  destruct (calibrating (detect s));
    [|destruct (100 <=? U32.sub now (s_last_send_time s))];
    eexists s, _, _; (split; [exact Hrun|]); (split; [exact Hcb|]); exact Hd2.
Qed.

Lemma slave_motion_votes_witness :
  exists s s' out,
    run (boot None None) (firstn 6 strong_samples) = Some s
    /\ wifi_radar_cb s {| waveform_wander := F32.of_Z 10;
                          waveform_jitter := F32.of_Z 1 |} true true 1600 1600
       = Some (s', out)
    /\ human_status (detect s') = true.
Proof.
  destruct (slave_motion_votes None None (firstn 6 strong_samples)
              {| waveform_wander := F32.of_Z 10; waveform_jitter := F32.of_Z 1 |}
              true true 1600 1600)
    as (s & s' & out & Hrun & Hcb & _ & _ & Hhuman).
  - vm_compute. discriminate.
  - exists s, s', out. split; [exact Hrun|]. split; [exact Hcb|].
    vm_compute in Hrun. injection Hrun as <-.
    vm_compute in Hcb. injection Hcb as <- _. reflexivity.
Defined.

End SlaveClaims.

(** * Threshold and calibration gates *)

Lemma recalculate_calibration (st : Master.master_state_t) (i : nat)
    (b : bool) (t0 : Z) :
  Master.recalculate_link_status (Master.set_calibration b t0 st) i
  = Master.set_calibration b t0 (Master.recalculate_link_status st i).
Proof.
  unfold Master.recalculate_link_status.
  change (Master.links (Master.set_calibration b t0 st)) with (Master.links st).
  change (Master.wander_threshold (Master.set_calibration b t0 st))
    with (Master.wander_threshold st).
  change (Master.jitter_threshold (Master.set_calibration b t0 st))
    with (Master.jitter_threshold st).
  destruct (negb (Master.Link.active (Master.links st !!! i))); [reflexivity|].
  destruct (F32.gt (Master.wander_threshold st) (F32.of_Z 0)),
           (F32.gt (Master.jitter_threshold st) (F32.of_Z 0)); reflexivity.
Qed.

Lemma fuse_link_calibration (now : Z) (st : Master.master_state_t)
    (c : Master.fuse_counters) (i : nat) (b : bool) (t0 : Z) :
  Master.fuse_link now (Master.set_calibration b t0 st, c) i
  = (Master.set_calibration b t0 (fst (Master.fuse_link now (st, c) i)),
     snd (Master.fuse_link now (st, c) i)).
Proof.
  unfold Master.fuse_link.
  change (Master.links (Master.set_calibration b t0 st)) with (Master.links st).
  destruct (Master.Link.active (Master.links st !!! i)
            && (U32.sub now (Master.Link.last_update (Master.links st !!! i))
                <? Master.LINK_TIMEOUT_MS)); [|reflexivity].
  destruct (i =? 0)%nat; [|reflexivity].
  rewrite recalculate_calibration. reflexivity.
Qed.

Lemma fuse_calibration (st : Master.master_state_t) (now : Z) (b : bool) (t0 : Z) :
  Master.fuse_detection_results (Master.set_calibration b t0 st) now
  = Master.set_calibration b t0 (Master.fuse_detection_results st now).
Proof.
  unfold Master.fuse_detection_results, Master.fuse_loop, for_range.
  cbn [Nat.sub seq fold_left].
  rewrite fuse_link_calibration.
  destruct (Master.fuse_link now (st, _) 0) as [st1 c1]. cbn [fst snd].
  rewrite fuse_link_calibration.
  destruct (Master.fuse_link now (st1, c1) 1) as [st2 c2]. cbn [fst snd].
  rewrite fuse_link_calibration.
  destruct (Master.fuse_link now (st2, c2) 2) as [st3 c3]. cbn [fst snd].
  destruct st3. reflexivity.
Qed.

(** C4, as the code has it.  On the slave, once warmed up, a wander threshold that
    is not above 0.0001 gives [room = false], in the state and in any
    report sent, whatever the sensitivity and the smoothed wander; a
    jitter threshold that is not above 0.0001 gives [motion = false].  On
    the master's local link the gate is [threshold > 0]: a wander
    (jitter) threshold that is not above 0 gives [room = false]
    ([motion = false]). *)
Theorem threshold_gates :
  (forall (s s' : Slave.slave_t) (info : wifi_radar_info_t) (heap_w heap_j : bool)
          (now t_report : Z) (out : Slave.cb_effects),
     Slave.wifi_radar_cb s info heap_w heap_j now t_report = Some (s', out) ->
     5 <= Slave.buff_count (Slave.detect s') ->
     (F32.gt (Slave.wander_threshold (Slave.detect s)) (F32.lit 1 10000) = false ->
      Slave.room_status (Slave.detect s') = false
      /\ forall r, Slave.sent out = Some r -> Slave.Report.room_status r = 0)
     /\ (F32.gt (Slave.jitter_threshold (Slave.detect s)) (F32.lit 1 10000) = false ->
         Slave.human_status (Slave.detect s') = false
         /\ forall r, Slave.sent out = Some r -> Slave.Report.human_status r = 0))
  /\ (forall (st : Master.master_state_t) (l : Master.link_status_t),
        Master.links st !! 0%nat = Some l -> Master.Link.active l = true ->
        let l' := Master.links (Master.recalculate_link_status st 0) !!! 0%nat in
        (F32.gt (Master.wander_threshold st) (F32.of_Z 0) = false ->
         Master.Link.room_status l' = false)
        /\ (F32.gt (Master.jitter_threshold st) (F32.of_Z 0) = false ->
            Master.Link.human_status l' = false)).
Proof.
  split.
  - intros s s' info heap_w heap_j now t_report out Hcb Hwarm.
    destruct (slave_cb_frame _ _ _ _ _ _ _ _ Hcb) as (_ & _ & Hcount & _).
    rewrite Hcount in Hwarm.
    destruct (slave_cb_warm s info heap_w heap_j now t_report Hwarm)
      as (wa & _ & Hform).
    cbv zeta in Hform. rewrite Hform in Hcb. clear Hform.
    unfold slave_room, slave_motion in Hcb.
    change (Slave.wander_threshold (slave_stored (Slave.detect s) info))
      with (Slave.wander_threshold (Slave.detect s)) in Hcb.
    change (Slave.jitter_threshold (slave_stored (Slave.detect s) info))
      with (Slave.jitter_threshold (Slave.detect s)) in Hcb.
    split; intros Hth; rewrite Hth in Hcb; cbn [andb] in Hcb;
      (destruct (Slave.calibrating (Slave.detect s));
       [|destruct (100 <=? U32.sub now (Slave.s_last_send_time s))]);
      injection Hcb as <- <-;
      cbn [Slave.detect Slave.set_status Slave.room_status Slave.human_status
           Slave.sent];
      (split; [reflexivity|]); intros r Hr; try discriminate;
      injection Hr as <-; reflexivity.
  - intros st l Hl Ha. cbv zeta.
    rewrite (recalculated_link st l Hl Ha). unfold recalculated.
    split; intros Hth; rewrite Hth; reflexivity.
Qed.

Lemma threshold_gates_witness :
  (exists s' out,
     Slave.wifi_radar_cb slave_low_threshold
       {| waveform_wander := F32.of_Z 1; waveform_jitter := F32.zero |}
       true true 1000 1000 = Some (s', out)
     /\ Slave.room_status (Slave.detect s') = false)
  /\ Master.Link.room_status
       (Master.links
          (Master.recalculate_link_status
             (a_master F32.zero F32.zero false
                [a_link true true true (F32.of_Z 1) (F32.of_Z 1) 0]) 0) !!! 0%nat)
     = false.
Proof.
  split.
  - destruct (Slave.wifi_radar_cb slave_low_threshold
                {| waveform_wander := F32.of_Z 1; waveform_jitter := F32.zero |}
                true true 1000 1000) as [[s' out]|] eqn:Hcb;
      [|vm_compute in Hcb; discriminate].
    exists s', out. split; [reflexivity|].
    destruct (slave_cb_frame _ _ _ _ _ _ _ _ Hcb) as (_ & _ & Hcount & _).
    apply (proj1 threshold_gates slave_low_threshold s' _ _ _ _ _ out Hcb).
    + rewrite Hcount. vm_compute. discriminate.
    + vm_compute. reflexivity.
  - apply (proj2 threshold_gates
             (a_master F32.zero F32.zero false
                [a_link true true true (F32.of_Z 1) (F32.of_Z 1) 0])
             (a_link true true true (F32.of_Z 1) (F32.of_Z 1) 0) eq_refl eq_refl).
    reflexivity.
Defined.

(** C4 as stated fails on the master: calibrated to the thresholds
    0.00005 and 0.00005, below the epsilon, and fed 25 samples of wander
    1 and jitter 1, it classifies the local link present and moving, and
    the fused output reports presence. *)
Lemma master_gate_below_epsilon :
  exists st,
    Master.run Master.g_state low_threshold_run = Some st
    /\ Master.wander_threshold st = F32.lit 5 100000
    /\ Master.jitter_threshold st = F32.lit 5 100000
    /\ F32.valid (F32.lit 5 100000) = true
    /\ F32.gt (F32.lit 5 100000) (F32.lit 1 10000) = false
    /\ Master.Link.room_status (Master.links st !!! 0%nat) = true
    /\ Master.Link.human_status (Master.links st !!! 0%nat) = true
    /\ Master.room_status st = true.
Proof.
  eexists. split; [vm_compute; reflexivity|].
  vm_compute. repeat split; reflexivity.
Qed.

(** C5, as the code has it.  While [calibrating] is set the slave sends no report
    and, once warmed up, drives its LED with [room = false],
    [motion = false] (its stored flags are still recomputed).  The master
    has no such gate: neither [recalculate_link_status] nor
    [fuse_detection_results] reads the calibration flag, so the local
    link and the fused output are what they are when it is clear. *)
Theorem calibration_suppression :
  (forall (s : Slave.slave_t) (info : wifi_radar_info_t) (heap_w heap_j : bool)
          (now t_report : Z),
     Slave.calibrating (Slave.detect s) = true ->
     exists s' out,
       Slave.wifi_radar_cb s info heap_w heap_j now t_report = Some (s', out)
       /\ Slave.sent out = None
       /\ Slave.led out
          = (if Slave.buff_count (Slave.detect s') <? 5 then None
             else Some (false, false, true)))
  /\ (forall (st : Master.master_state_t) (now : Z) (b : bool) (t0 : Z),
        Master.fuse_detection_results (Master.set_calibration b t0 st) now
        = Master.set_calibration b t0 (Master.fuse_detection_results st now))
  /\ (forall (st : Master.master_state_t) (i : nat) (b : bool) (t0 : Z),
        Master.recalculate_link_status (Master.set_calibration b t0 st) i
        = Master.set_calibration b t0 (Master.recalculate_link_status st i)).
Proof.
  split; [|split].
  - intros s info heap_w heap_j now t_report Hcal.
    destruct (Z.lt_ge_cases (Slave.buff_count (slave_stored (Slave.detect s) info)) 5)
      as [Hc|Hw].
    + rewrite (slave_cb_cold s info heap_w heap_j now t_report Hc).
      eexists _, _. split; [reflexivity|]. split; [reflexivity|].
      cbn [Slave.detect Slave.led].
      destruct (Z.ltb_spec (Slave.buff_count (slave_stored (Slave.detect s) info)) 5);
        [reflexivity | lia].
    + destruct (slave_cb_warm s info heap_w heap_j now t_report Hw) as (wa & _ & Hcb).
      cbv zeta in Hcb. rewrite Hcal in Hcb. rewrite Hcb.
      eexists _, _. split; [reflexivity|]. split; [reflexivity|].
      cbn [Slave.detect Slave.led Slave.set_status Slave.buff_count].
      destruct (Z.ltb_spec (Slave.buff_count (slave_stored (Slave.detect s) info)) 5);
        [lia | reflexivity].
  - exact fuse_calibration.
  - exact recalculate_calibration.
Qed.

Lemma calibration_suppression_witness :
  exists s' out,
    Slave.wifi_radar_cb
      (Slave.espnow_recv_cb slave_low_threshold [x10] (F32.zero, F32.zero))
      {| waveform_wander := F32.of_Z 1; waveform_jitter := F32.zero |}
      true true 1000 1000 = Some (s', out)
    /\ Slave.sent out = None.
Proof.
  destruct (proj1 calibration_suppression
              (Slave.espnow_recv_cb slave_low_threshold [x10] (F32.zero, F32.zero))
              {| waveform_wander := F32.of_Z 1; waveform_jitter := F32.zero |}
              true true 1000 1000 eq_refl) as (s' & out & Hcb & Hsent & _).
  exists s', out. split; assumption.
Defined.

(** C5 as stated fails on the master: calibrated to the thresholds
    0.01 and 0.001, with a second calibration running, and fed 25 samples
    of wander 1 and jitter 1, it classifies the local link present and
    moving and the fused output reports presence and motion. *)
Lemma master_detects_while_calibrating :
  exists st,
    Master.run Master.g_state calibrating_run = Some st
    /\ Master.calibrating st = true
    /\ Master.Link.room_status (Master.links st !!! 0%nat) = true
    /\ Master.Link.human_status (Master.links st !!! 0%nat) = true
    /\ Master.room_status st = true
    /\ Master.human_status st = true.
Proof.
  eexists. split; [vm_compute; reflexivity|].
  vm_compute. repeat split; reflexivity.
Qed.

(** * Presence voting on the slave *)

(** C7, as the code has it.  After warm-up the slave's presence loop counts
    either 0 or 5 votes; the room status it stores is
    [has_threshold && votes >= 1], which is the single comparison
    [has_threshold && wander_smoothed * wander_sensitivity >
    wander_threshold] with [has_threshold] the gate
    [wander_threshold > 0.0001].  The master's local link, given the same
    smoothed wander, sensitivity and threshold, gets the same room
    status whenever its own gate [wander_threshold > 0] agrees with the
    slave's. *)
Theorem slave_presence_single_comparison (s : Slave.slave_t)
    (info : wifi_radar_info_t) (heap_w heap_j : bool) (now t_report : Z) :
  let d1 := slave_stored (Slave.detect s) info in
  5 <= Slave.buff_count d1 ->
  exists wander_smoothed s' out,
    trimmean heap_w (Slave.wander_buff d1) RADAR_BUFF_MAX_LEN (F32.lit 5 10)
      = Some wander_smoothed
    /\ Slave.wifi_radar_cb s info heap_w heap_j now t_report = Some (s', out)
    /\ (let has_threshold := F32.gt (Slave.wander_threshold d1) (F32.lit 1 10000) in
        let votes :=
          fst (for_range 0 5
                 (Slave.vote_step d1 wander_smoothed
                    (median heap_j (Slave.jitter_buff d1) RADAR_BUFF_MAX_LEN)
                    has_threshold) (0, 0)) in
        (votes = 0 \/ votes = 5)
        /\ Slave.room_status (Slave.detect s') = (has_threshold && (1 <=? votes))
        /\ Slave.room_status (Slave.detect s')
           = (has_threshold
              && F32.gt (F32.mul wander_smoothed (Slave.wander_sensitivity d1))
                        (Slave.wander_threshold d1)))
    /\ (forall (st : Master.master_state_t) (l : Master.link_status_t),
          Master.links st !! 0%nat = Some l ->
          Master.Link.active l = true ->
          Master.Link.wander l = wander_smoothed ->
          Master.Link.wander_sensitivity l = Slave.wander_sensitivity d1 ->
          Master.wander_threshold st = Slave.wander_threshold d1 ->
          F32.gt (Slave.wander_threshold d1) (F32.of_Z 0)
            = F32.gt (Slave.wander_threshold d1) (F32.lit 1 10000) ->
          Master.Link.room_status
            (Master.links (Master.recalculate_link_status st 0) !!! 0%nat)
          = Slave.room_status (Slave.detect s')).
Proof.
  cbv zeta. intros Hw.
  destruct (slave_cb_warm s info heap_w heap_j now t_report Hw) as (wa & Hwa & Hcb).
  cbv zeta in Hcb.
  set (d1 := slave_stored (Slave.detect s) info) in *.
  set (jm := median heap_j (Slave.jitter_buff d1) RADAR_BUFF_MAX_LEN) in *.
  assert (Hroom : forall s' out,
            Slave.wifi_radar_cb s info heap_w heap_j now t_report = Some (s', out) ->
            Slave.room_status (Slave.detect s') = slave_room d1 wa).
  { intros s' out H. rewrite Hcb in H.
    destruct (Slave.calibrating (Slave.detect s));
      [|destruct (100 <=? U32.sub now (Slave.s_last_send_time s))];
      injection H as <- _; reflexivity. }
  destruct (slave_cb_defined s info heap_w heap_j now t_report) as (s' & out & Hdef).
  exists wa, s', out. split; [exact Hwa|]. split; [exact Hdef|].
  rewrite (Hroom s' out Hdef). rewrite vote_loop. cbn [fst]. unfold slave_room.
  split; [|clear Hroom Hcb Hdef].
  - destruct (F32.gt (Slave.wander_threshold d1) (F32.lit 1 10000)),
      (F32.gt (F32.mul wa (Slave.wander_sensitivity d1)) (Slave.wander_threshold d1));
      cbn [andb]; repeat split; auto.
  - intros st l Hl Ha Hwander Hsens Hth Hgate.
    rewrite (recalculated_link st l Hl Ha). unfold recalculated.
    cbn [Master.Link.room_status Master.Link.set_human_status
         Master.Link.set_room_status].
    rewrite Hwander, Hsens, Hth, Hgate. reflexivity.
Qed.

Lemma slave_presence_single_comparison_witness :
  exists wander_smoothed s' out,
    trimmean true
      (Slave.wander_buff
         (slave_stored (Slave.detect slave_low_threshold)
            {| waveform_wander := F32.of_Z 1; waveform_jitter := F32.zero |}))
      RADAR_BUFF_MAX_LEN (F32.lit 5 10) = Some wander_smoothed
    /\ Slave.wifi_radar_cb slave_low_threshold
         {| waveform_wander := F32.of_Z 1; waveform_jitter := F32.zero |}
         true true 1000 1000 = Some (s', out)
    /\ Slave.room_status (Slave.detect s')
       = (F32.gt (F32.lit 5 100000) (F32.lit 1 10000)
          && F32.gt (F32.mul wander_smoothed (F32.lit 15 100)) (F32.lit 5 100000)).
Proof.
  destruct (slave_presence_single_comparison slave_low_threshold
              {| waveform_wander := F32.of_Z 1; waveform_jitter := F32.zero |}
              true true 1000 1000)
    as (wa & s' & out & Hwa & Hcb & (_ & _ & Hroom) & _).
  - vm_compute. discriminate.
  - exists wa, s', out. split; [exact Hwa|]. split; [exact Hcb|]. exact Hroom.
Defined.

(** C7 as stated fails where it equates the slave's rule with the
    master's: with the wander threshold at 0.00005, the window full of
    wander 1 (so that the smoothed wander is 1 on both) and the
    sensitivity 0.15, the slave stores [room = false] and the master's
    local link gets [room = true]. *)
Lemma slave_master_presence_differ :
  exists s st,
    Slave.run (Slave.boot None None) slave_low_threshold_run = Some s
    /\ Master.run Master.g_state low_threshold_run = Some st
    /\ trimmean true (Slave.wander_buff (Slave.detect s)) RADAR_BUFF_MAX_LEN
         (F32.lit 5 10) = Some (F32.of_Z 1)
    /\ Master.Link.wander (Master.links st !!! 0%nat) = F32.of_Z 1
    /\ Slave.wander_threshold (Slave.detect s) = F32.lit 5 100000
    /\ Master.wander_threshold st = F32.lit 5 100000
    /\ Slave.wander_sensitivity (Slave.detect s) = F32.lit 15 100
    /\ Master.Link.wander_sensitivity (Master.links st !!! 0%nat) = F32.lit 15 100
    /\ Slave.room_status (Slave.detect s) = false
    /\ Master.Link.room_status (Master.links st !!! 0%nat) = true.
Proof.
  eexists _, _. split; [vm_compute; reflexivity|].
  split; [vm_compute; reflexivity|].
  vm_compute. repeat split; reflexivity.
Qed.

(** * Sensitivity updates *)

(** C9, as the code has it.  The master's per-link update stores a sensitivity
    only when it lies in [0.001, 5.0]: a value outside the range, or a
    NaN, leaves the stored sensitivity as it was, nothing is clamped, and
    the handler answers with the link's stored pair, not with an error.
    A slave applying a SetSensitivity command addressed to it checks no
    range: it stores the two floats of the payload as they are. *)
Theorem sensitivity_update :
  (forall (st : Master.master_state_t) (link_idx : Z) (wander_sens jitter_sens : f32),
     0 <= link_idx <= 2 ->
     (Z.to_nat link_idx < length (Master.links st))%nat ->
     let i := Z.to_nat link_idx in
     let in_range x := F32.ge x (F32.lit 1 1000) && F32.le x (F32.of_Z 5) in
     let st' := fst (fst (Master.http_post_sensitivity st link_idx wander_sens jitter_sens)) in
     Master.Link.wander_sensitivity (Master.links st' !!! i)
       = (if in_range wander_sens then wander_sens
          else Master.Link.wander_sensitivity (Master.links st !!! i))
     /\ Master.Link.jitter_sensitivity (Master.links st' !!! i)
       = (if in_range jitter_sens then jitter_sens
          else Master.Link.jitter_sensitivity (Master.links st !!! i))
     /\ snd (Master.http_post_sensitivity st link_idx wander_sens jitter_sens)
       = Master.ReplyLink link_idx
           (Master.Link.wander_sensitivity (Master.links st' !!! i))
           (Master.Link.jitter_sensitivity (Master.links st' !!! i)))
  /\ (forall (s : Slave.slave_t) (data : list byte) (trained : f32 * f32),
        (10 <= length data)%nat ->
        byte_val (data !!! 0%nat) = 19 ->
        byte_val (data !!! 1%nat) = Slave.g_node_id s ->
        Slave.detect (Slave.espnow_recv_cb s data trained)
        = Slave.set_sensitivity (float_at data 2) (float_at data 6) (Slave.detect s)).
Proof.
  split.
  - intros st link_idx wander_sens jitter_sens Hidx Hlen. cbv zeta.
    unfold Master.http_post_sensitivity.
    destruct (Z.ltb_spec link_idx 0); [lia|].
    destruct (Z.ltb_spec 2 link_idx); [lia|]. cbn [orb fst snd Master.links Master.set_links].
    rewrite list_lookup_total_insert_eq by exact Hlen.
    destruct (F32.ge wander_sens (F32.lit 1 1000) && F32.le wander_sens (F32.of_Z 5)),
             (F32.ge jitter_sens (F32.lit 1 1000) && F32.le jitter_sens (F32.of_Z 5));
      repeat split; reflexivity.
  - intros s data trained Hlen Hcmd Htarget. unfold Slave.espnow_recv_cb.
    destruct (Nat.ltb_spec (length data) 1); [lia|].
    rewrite Hcmd, Htarget. cbn [Z.ltb Z.compare Pos.compare Pos.compare_cont orb Z.eqb Pos.eqb].
    destruct (Nat.leb_spec 10 (length data)); [|lia].
    rewrite Z.eqb_refl. reflexivity.
Qed.

Lemma sensitivity_update_witness :
  Master.Link.wander_sensitivity
    (Master.links
       (fst (fst (Master.http_post_sensitivity scenario_a 1 (F32.of_Z 100) (F32.of_Z 1))))
     !!! 1%nat) = F32.lit 15 100
  /\ Slave.wander_sensitivity
       (Slave.detect (Slave.espnow_recv_cb slave_low_threshold set_sensitivity_100
                        (F32.zero, F32.zero)))
     = float_at set_sensitivity_100 2.
Proof.
  split.
  - destruct (proj1 sensitivity_update scenario_a 1 (F32.of_Z 100) (F32.of_Z 1))
      as (Hw & _ & _).
    + lia.
    + vm_compute. lia.
    + cbv zeta in Hw. change (Z.to_nat 1) with 1%nat in Hw.
      rewrite Hw. vm_compute. reflexivity.
  - rewrite (proj2 sensitivity_update slave_low_threshold set_sensitivity_100
               (F32.zero, F32.zero)).
    + reflexivity.
    + vm_compute. lia.
    + reflexivity.
    + reflexivity.
Defined.

(** C9 as stated fails on the slave: node 2, just booted, receives a
    SetSensitivity command for node 2 carrying 100.0 twice, and both
    stored sensitivities go from their defaults to 100, above 5.0. *)
Lemma slave_stores_out_of_range_sensitivity :
  exists s,
    Slave.run (Slave.boot None None)
      [Slave.EspNow set_sensitivity_100 (F32.zero, F32.zero)] = Some s
    /\ Slave.g_node_id (Slave.boot None None) = 2
    /\ Slave.wander_sensitivity (Slave.detect (Slave.boot None None)) = F32.lit 15 100
    /\ Slave.wander_sensitivity (Slave.detect s) = F32.of_Z 100
    /\ Slave.jitter_sensitivity (Slave.detect s) = F32.of_Z 100
    /\ F32.le (F32.of_Z 100) (F32.of_Z 5) = false.
Proof.
  eexists. split; [vm_compute; reflexivity|].
  vm_compute. repeat split; reflexivity.
Qed.

(** * Defaults of the slave *)

(** C10.  A slave that boots without persisted settings (no namespace,
    or a namespace without the keys) has the wander threshold 0.01 and
    the jitter threshold 0.001, both above 0.0001,
    and its calibration flag clear; fed seven samples of wander 10 and
    jitter 1, with no command ever received, it stores presence and
    motion and sends a report carrying both. *)
Theorem slave_default_thresholds_detect :
  let s0 := Slave.boot None None in
  Slave.boot (Some {| Slave.nvs_wander_th := None; Slave.nvs_jitter_th := None;
                      Slave.nvs_wander_sens := None; Slave.nvs_jitter_sens := None |})
             None = s0
  /\ Slave.wander_threshold (Slave.detect s0) = F32.lit 1 100
  /\ Slave.jitter_threshold (Slave.detect s0) = F32.lit 1 1000
  /\ F32.gt (F32.lit 1 100) (F32.lit 1 10000) = true
  /\ F32.gt (F32.lit 1 1000) (F32.lit 1 10000) = true
  /\ Slave.calibrating (Slave.detect s0) = false
  /\ exists s s' out r,
       Slave.run s0 (firstn 6 strong_samples) = Some s
       /\ Slave.step s (a_sample 10 1 1600) = Some (s', out)
       /\ Slave.room_status (Slave.detect s') = true
       /\ Slave.human_status (Slave.detect s') = true
       /\ Slave.sent out = Some r
       /\ Slave.Report.room_status r = 1
       /\ Slave.Report.human_status r = 1.
Proof.
  cbv zeta. repeat (split; [vm_compute; reflexivity|]).
  eexists _, _, _, _. split; [vm_compute; reflexivity|].
  split; [vm_compute; reflexivity|].
  vm_compute. repeat split; reflexivity.
Qed.

(** * The smoothing statistics *)

(** C8, as the code has it.  For every window of at least 5 and fewer than
    [2 ^ 24] samples none of which is a NaN, and with the scratch buffer
    allocated, [trimmean] at 50 percent is the closed form: sort
    ascending (the sorted list is an ascending permutation of the
    window), drop [floor (len * percent / 2)] samples from each end,
    average the rest; [median] is the middle element of the sorted
    window, or the average of the two middle elements for an even
    length.  On the window 1, 2, 3, 4, 5 both are 3. *)
Theorem smoother_closed_forms (w : list f32) :
  no_nan w -> (5 <= length w)%nat -> Z.of_nat (length w) < 2 ^ 24 ->
  trimmean true w (length w) (F32.lit 5 10) = Some (Spec.trimmed_mean w 5 10)
  /\ median true w (length w) = Spec.median w
  /\ StronglySorted fle (Spec.sort_asc w)
  /\ Permutation (Spec.sort_asc w) w
  /\ trimmean true fixture_window 5 (F32.lit 5 10) = Some (F32.of_Z 3)
  /\ median true fixture_window 5 = F32.of_Z 3.
Proof.
  intros Hnn H5 Hlt.
  split; [apply trimmean_closed; assumption|].
  split; [apply median_closed; assumption|].
  split; [apply sort_asc_sorted; assumption|].
  split; [apply sort_asc_perm|].
  split; vm_compute; reflexivity.
Qed.

Lemma smoother_closed_forms_witness :
  no_nan fixture_window
  /\ trimmean true fixture_window (length fixture_window) (F32.lit 5 10)
     = Some (Spec.trimmed_mean fixture_window 5 10)
  /\ median true fixture_window (length fixture_window) = Spec.median fixture_window.
Proof.
  assert (Hnn : no_nan fixture_window) by (repeat constructor).
  split; [exact Hnn|].
  destruct (smoother_closed_forms fixture_window Hnn) as (Ht & Hm & _).
  - vm_compute. lia.
  - vm_compute. reflexivity.
  - split; assumption.
Defined.

(** C8 as stated fails outside these bounds.  On a window of five
    samples with a NaN among them the sort moves nothing: 3 stays before
    0, the median returned is 0 and the trimmed mean is a NaN.  When the
    scratch buffer cannot be allocated the trimmed mean and the median of
    the fixture window are 0.  For [2 ^ 24 + 3] samples the trim count is
    computed as 4194305, one above [floor (len * 0.5 / 2)]. *)
Lemma smoother_outside_bounds :
  length nan_window = 5%nat
  /\ forallb F32.valid nan_window = true
  /\ bubble_sort nan_window 5 = nan_window
  /\ F32.gt (nan_window !!! 0%nat) (nan_window !!! 2%nat) = true
  /\ median true nan_window 5 = F32.zero
  /\ trimmean true nan_window 5 (F32.lit 5 10) = Some F32.nan
  /\ trimmean false fixture_window 5 (F32.lit 5 10) = Some F32.zero
  /\ median false fixture_window 5 = F32.zero
  /\ trim_count (2 ^ 24 + 3) (F32.lit 5 10) = Some 4194305
  /\ (2 ^ 24 + 3) * 5 / (2 * 10) = 4194304.
Proof. vm_compute. repeat split; reflexivity. Qed.

(** * Further properties of the fusion pass *)

Section FusionMore.
Import Master.

Lemma fuse_three (st : master_state_t) (now : Z) (l0 l1 l2 : link_status_t) :
  links st = [l0; l1; l2] ->
  let l0' := link_after now st 0 l0 in
  let l1' := link_after now st 1 l1 in
  let l2' := link_after now st 2 l2 in
  let active_count :=
    b2z (counted now l0) + b2z (counted now l1) + b2z (counted now l2) in
  let detection_count :=
    b2z (counted now l0 && (Link.room_status l0' || Link.human_status l0'))
    + b2z (counted now l1 && (Link.room_status l1' || Link.human_status l1'))
    + b2z (counted now l2 && (Link.room_status l2' || Link.human_status l2')) in
  let motion_count :=
    b2z (counted now l0 && Link.human_status l0')
    + b2z (counted now l1 && Link.human_status l1')
    + b2z (counted now l2 && Link.human_status l2') in
  fuse_detection_results st now =
    set_fused (quorum active_count <=? detection_count)
              ((quorum active_count <=? detection_count)
               && (quorum active_count <=? motion_count))
              (set_links [l0'; l1'; l2'] st).
Proof.
  intros H. cbv zeta. unfold fuse_detection_results.
  rewrite (fuse_loop_three now st l0 l1 l2 H). reflexivity.
Qed.

Lemma counted_link_after (now : Z) (st : master_state_t) (i : nat)
    (l : link_status_t) :
  counted now (link_after now st i l) = counted now l.
Proof.
  unfold link_after. destruct (counted now l) eqn:Hc.
  - destruct (i =? 0)%nat; [|exact Hc].
    unfold counted in *. exact Hc.
  - unfold counted. simpl. reflexivity.
Qed.

Lemma link_after_idem (now : Z) (st st1 : master_state_t) (i : nat)
    (l : link_status_t) :
  wander_threshold st1 = wander_threshold st ->
  jitter_threshold st1 = jitter_threshold st ->
  link_after now st1 i (link_after now st i l) = link_after now st i l.
Proof.
  intros Hw Hj.
  unfold link_after at 1. rewrite counted_link_after.
  unfold link_after. destruct (counted now l) eqn:Hc.
  - destruct (i =? 0)%nat; [|reflexivity].
    unfold recalculated. rewrite Hw, Hj. destruct l; reflexivity.
  - reflexivity.
Qed.

(** X1.  A fusion pass is idempotent: run again at the same clock
    reading on the state it produced, it changes nothing, neither the
    links nor the fused flags. *)
Theorem fuse_idempotent (st : master_state_t) (now : Z) :
  length (links st) = 3%nat ->
  fuse_detection_results (fuse_detection_results st now) now
  = fuse_detection_results st now.
Proof.
  intros Hlen. destruct (length_three _ Hlen) as (l0 & l1 & l2 & Hl).
  rewrite (fuse_three st now l0 l1 l2 Hl).
  cbv zeta.
  match goal with
  | |- fuse_detection_results ?s now = _ =>
      rewrite (fuse_three s now (link_after now st 0 l0) (link_after now st 1 l1)
                 (link_after now st 2 l2) eq_refl)
  end.
  cbv zeta.
  rewrite !counted_link_after.
  rewrite !link_after_idem by reflexivity.
  reflexivity.
Qed.

Lemma fuse_idempotent_witness :
  length (links scenario_a) = 3%nat
  /\ fuse_detection_results (fuse_detection_results scenario_a 1000) 1000
     = fuse_detection_results scenario_a 1000.
Proof.
  split; [reflexivity|]. exact (fuse_idempotent scenario_a 1000 eq_refl).
Defined.

Lemma link_after_fields (now : Z) (st : master_state_t) (i : nat)
    (l : link_status_t) :
  let l' := link_after now st i l in
  Link.wander l' = Link.wander l
  /\ Link.jitter l' = Link.jitter l
  /\ Link.rssi l' = Link.rssi l
  /\ Link.last_update l' = Link.last_update l
  /\ Link.wander_sensitivity l' = Link.wander_sensitivity l
  /\ Link.jitter_sensitivity l' = Link.jitter_sensitivity l
  /\ (Link.active l' = true -> Link.active l = true)
  /\ (i <> 0%nat ->
      Link.room_status l' = Link.room_status l
      /\ Link.human_status l' = Link.human_status l).
Proof.
  cbv zeta. unfold link_after.
  destruct (counted now l) eqn:Hc.
  - assert (Ha : Link.active l = true).
    { unfold counted in Hc. apply andb_true_iff in Hc. tauto. }
    destruct (i =? 0)%nat eqn:Hi.
    + apply Nat.eqb_eq in Hi. repeat split; try reflexivity; try congruence.
    + repeat split; try reflexivity; congruence.
  - repeat split; try reflexivity. simpl. discriminate.
Qed.

Lemma lookup_three {A : Type} (a b c x : A) (i : nat) :
  [a; b; c] !! i = Some x ->
  (i = 0%nat /\ x = a) \/ (i = 1%nat /\ x = b) \/ (i = 2%nat /\ x = c).
Proof.
  destruct i as [|[|[|i]]]; simpl; intros H;
    [left | right; left | right; right | discriminate]; split; congruence.
Qed.

Lemma fuse_link_at (st : master_state_t) (now : Z) (i : nat) (l : link_status_t) :
  length (links st) = 3%nat -> links st !! i = Some l ->
  links (fuse_detection_results st now) !!! i = link_after now st i l.
Proof.
  intros Hlen Hi. destruct (length_three _ Hlen) as (l0 & l1 & l2 & Hl).
  rewrite (fuse_links st now l0 l1 l2 Hl). rewrite Hl in Hi.
  destruct (lookup_three _ _ _ _ _ Hi) as [[-> ->]|[[-> ->]|[-> ->]]]; reflexivity.
Qed.

(** X2.  What a fusion pass leaves alone: the thresholds, the
    calibration state, the sample windows and their counter, and on every
    link the measurements, the RSSI, the time of the last update and the
    two sensitivities.  It never activates a link, and on the slave
    links (1 and 2) it leaves the room and motion flags as the slave
    reported them. *)
Theorem fusion_frame (st : master_state_t) (now : Z) (i : nat) (l : link_status_t) :
  length (links st) = 3%nat ->
  links st !! i = Some l ->
  let st' := fuse_detection_results st now in
  let l' := links st' !!! i in
  (wander_threshold st' = wander_threshold st
   /\ jitter_threshold st' = jitter_threshold st
   /\ calibrating st' = calibrating st
   /\ calibration_start_time st' = calibration_start_time st
   /\ wander_buff st' = wander_buff st
   /\ jitter_buff st' = jitter_buff st
   /\ buff_count st' = buff_count st
   /\ length (links st') = 3%nat)
  /\ Link.wander l' = Link.wander l
  /\ Link.jitter l' = Link.jitter l
  /\ Link.rssi l' = Link.rssi l
  /\ Link.last_update l' = Link.last_update l
  /\ Link.wander_sensitivity l' = Link.wander_sensitivity l
  /\ Link.jitter_sensitivity l' = Link.jitter_sensitivity l
  /\ (Link.active l' = true -> Link.active l = true)
  /\ (i <> 0%nat ->
      Link.room_status l' = Link.room_status l
      /\ Link.human_status l' = Link.human_status l).
Proof.
  intros Hlen Hi. cbv zeta.
  rewrite (fuse_link_at st now i l Hlen Hi).
  split; [|exact (link_after_fields now st i l)].
  destruct (length_three _ Hlen) as (l0 & l1 & l2 & Hl).
  rewrite (fuse_three st now l0 l1 l2 Hl). cbv zeta.
  repeat split; reflexivity.
Qed.

Lemma fusion_frame_witness :
  length (links scenario_stale) = 3%nat
  /\ links scenario_stale !! 2%nat
     = Some (a_link true true true F32.zero F32.zero 5000)
  /\ Link.last_update (links (fuse_detection_results scenario_stale 10000) !!! 2%nat)
     = 5000
  /\ Link.room_status (links (fuse_detection_results scenario_stale 10000) !!! 2%nat)
     = true.
Proof.
  split; [reflexivity|]. split; [reflexivity|].
  destruct (fusion_frame scenario_stale 10000 2
              (a_link true true true F32.zero F32.zero 5000) eq_refl eq_refl)
    as (_ & _ & _ & _ & Hu & _ & _ & _ & Hflags).
  split; [exact Hu|]. destruct (Hflags ltac:(discriminate)) as [Hr _]. exact Hr.
Defined.

(** X3.  When no link is both flagged active and fresh at the time of
    the pass, the pass clears the fused room and motion flags and leaves
    every link inactive. *)
Theorem fusion_without_live_link (st : master_state_t) (now : Z) :
  length (links st) = 3%nat ->
  (forall i l, links st !! i = Some l -> counted now l = false) ->
  let st' := fuse_detection_results st now in
  room_status st' = false /\ human_status st' = false
  /\ forall i, Link.active (links st' !!! i) = false.
Proof.
  intros Hlen Hall. cbv zeta.
  destruct (length_three _ Hlen) as (l0 & l1 & l2 & Hl).
  assert (H0 : counted now l0 = false) by (apply (Hall 0%nat); rewrite Hl; reflexivity).
  assert (H1 : counted now l1 = false) by (apply (Hall 1%nat); rewrite Hl; reflexivity).
  assert (H2 : counted now l2 = false) by (apply (Hall 2%nat); rewrite Hl; reflexivity).
  rewrite (fuse_three st now l0 l1 l2 Hl). cbv zeta.
  rewrite H0, H1, H2. split; [reflexivity|]. split; [reflexivity|].
  intros i. unfold set_fused, set_links. cbn [links].
  destruct i as [|[|[|i]]]; cbn [lookup_total list_lookup_total];
    try (rewrite link_after_active; assumption).
  reflexivity.
Qed.

Lemma fusion_without_live_link_witness :
  length (links scenario_stale) = 3%nat
  /\ (forall i l, links scenario_stale !! i = Some l -> counted 20000 l = false)
  /\ room_status (fuse_detection_results scenario_stale 20000) = false
  /\ human_status (fuse_detection_results scenario_stale 20000) = false.
Proof.
  assert (H : forall i l, links scenario_stale !! i = Some l -> counted 20000 l = false).
  { intros i l Hl. destruct i as [|[|[|i]]]; simpl in Hl; try discriminate;
      injection Hl as <-; vm_compute; reflexivity. }
  split; [reflexivity|]. split; [exact H|].
  destruct (fusion_without_live_link scenario_stale 20000 eq_refl H) as (Hr & Hh & _).
  split; assumption.
Defined.

(** X4.  Degraded operation: when exactly one link is live at the time
    of the pass, that link decides alone.  The fused room status is its
    room or motion flag, the fused motion status is its motion flag. *)
Theorem fusion_single_live_link (st : master_state_t) (now : Z) (k : nat)
    (l : link_status_t) :
  length (links st) = 3%nat ->
  links st !! k = Some l ->
  counted now l = true ->
  (forall j l', j <> k -> links st !! j = Some l' -> counted now l' = false) ->
  let st' := fuse_detection_results st now in
  let l' := links st' !!! k in
  Link.active l' = true
  /\ room_status st' = (Link.room_status l' || Link.human_status l')
  /\ human_status st' = Link.human_status l'.
Proof.
  intros Hlen Hk Hc Hothers. cbv zeta.
  rewrite (fuse_link_at st now k l Hlen Hk).
  split; [rewrite link_after_active; exact Hc|].
  destruct (length_three _ Hlen) as (l0 & l1 & l2 & Hl).
  rewrite (fuse_three st now l0 l1 l2 Hl). cbv zeta.
  unfold set_fused. cbn [room_status human_status].
  rewrite Hl in Hk.
  destruct (lookup_three _ _ _ _ _ Hk) as [[-> ->]|[[-> ->]|[-> ->]]].
  - rewrite (Hothers 1%nat l1), (Hothers 2%nat l2), Hc by (first [lia | rewrite Hl; reflexivity]).
    cbn [andb]. destruct (Link.room_status _), (Link.human_status _); split; reflexivity.
  - rewrite (Hothers 0%nat l0), (Hothers 2%nat l2), Hc by (first [lia | rewrite Hl; reflexivity]).
    cbn [andb]. destruct (Link.room_status _), (Link.human_status _); split; reflexivity.
  - rewrite (Hothers 0%nat l0), (Hothers 1%nat l1), Hc by (first [lia | rewrite Hl; reflexivity]).
    cbn [andb]. destruct (Link.room_status _), (Link.human_status _); split; reflexivity.
Qed.

Lemma fusion_single_live_link_witness :
  length (links scenario_a) = 3%nat
  /\ links scenario_a !! 1%nat = Some (a_link true true false F32.zero F32.zero 950)
  /\ counted 3900 (a_link true true false F32.zero F32.zero 950) = true
  /\ (forall j l', j <> 1%nat -> links scenario_a !! j = Some l' ->
        counted 3900 l' = false)
  /\ room_status (fuse_detection_results scenario_a 3900) = true
  /\ human_status (fuse_detection_results scenario_a 3900) = false.
Proof.
  assert (H : forall j l', j <> 1%nat -> links scenario_a !! j = Some l' ->
                           counted 3900 l' = false).
  { intros j l' Hj Hl. destruct j as [|[|[|j]]]; simpl in Hl; try discriminate;
      try congruence; injection Hl as <-; vm_compute; reflexivity. }
  split; [reflexivity|]. split; [reflexivity|]. split; [reflexivity|].
  split; [exact H|].
  destruct (fusion_single_live_link scenario_a 3900 1
              (a_link true true false F32.zero F32.zero 950)
              eq_refl eq_refl eq_refl H) as (_ & Hr & Hh).
  rewrite Hr, Hh. vm_compute. split; reflexivity.
Defined.

End FusionMore.

(** * The wire formats *)

Lemma byte_val_of_Z (z : Z) : byte_val (byte_of_Z z) = z mod 256.
Proof.
  unfold byte_of_Z, byte_val.
  pose proof (Z.mod_pos_bound z 256 ltac:(lia)) as Hr.
  pose proof (Byte.to_of_N_option_map (Z.to_N (z mod 256))) as H.
  destruct (Byte.of_N (Z.to_N (z mod 256))) as [b|] eqn:Hb.
  - simpl in H. destruct (N.leb_spec (Z.to_N (z mod 256)) 255) as [_|Hgt].
    + injection H as H. simpl. rewrite H. lia.
    + lia.
  - simpl in H. destruct (N.leb_spec (Z.to_N (z mod 256)) 255) as [_|Hgt].
    + discriminate.
    + lia.
Qed.

Lemma word_at_app (pre l post : list byte) :
  length l = 4%nat ->
  word_at (pre ++ l ++ post) (length pre) = word_at l 0.
Proof.
  intros Hl. unfold word_at.
  destruct l as [|a [|b [|c [|d [|]]]]]; try discriminate.
  rewrite (lookup_total_app_r pre _ (length pre)) by lia.
  rewrite (lookup_total_app_r pre _ (length pre + 1)) by lia.
  rewrite (lookup_total_app_r pre _ (length pre + 2)) by lia.
  rewrite (lookup_total_app_r pre _ (length pre + 3)) by lia.
  replace (length pre - length pre)%nat with 0%nat by lia.
  replace (length pre + 1 - length pre)%nat with 1%nat by lia.
  replace (length pre + 2 - length pre)%nat with 2%nat by lia.
  replace (length pre + 3 - length pre)%nat with 3%nat by lia.
  reflexivity.
Qed.

Lemma word_at_bytes_of_word (w : Z) :
  0 <= w < 2 ^ 32 -> word_at (bytes_of_word w) 0 = w.
Proof.
  intros Hw. unfold word_at, bytes_of_word.
  cbn [lookup_total list_lookup_total Nat.add].
  rewrite !byte_val_of_Z.
  rewrite !Z.shiftr_div_pow2, !Z.shiftl_mul_pow2 by lia.
  change (2 ^ 8) with 256. change (2 ^ 16) with (256 * 256).
  change (2 ^ 24) with (256 * 256 * 256).
  change (2 ^ 32) with (256 * 256 * 256 * 256) in Hw.
  rewrite <- !Z.div_div by lia.
  pose proof (Z.div_mod w 256 ltac:(lia)).
  pose proof (Z.div_mod (w / 256) 256 ltac:(lia)).
  pose proof (Z.div_mod (w / 256 / 256) 256 ltac:(lia)).
  assert (0 <= w / 256 / 256 / 256 < 256).
  { split.
    - repeat apply Z.div_pos; lia.
    - repeat (apply Z.div_lt_upper_bound; [lia|]). lia. }
  rewrite (Z.mod_small (w / 256 / 256 / 256) 256) by lia.
  lia.
Qed.

Lemma of_bits_fields (s : bool) (e f : Z) :
  0 <= e < 256 -> 0 <= f < 2 ^ 23 ->
  F32.of_bits ((if s then 2 ^ 31 else 0) + (e * 2 ^ 23 + f)) =
    if e =? 255 then (if f =? 0 then S754_infinity s else S754_nan)
    else if e =? 0 then
      match f with
      | Zpos m => S754_finite s m (-149)
      | _ => S754_zero s
      end
    else
      match f + 2 ^ 23 with
      | Zpos m => S754_finite s m (e - 150)
      | _ => S754_zero s
      end.
Proof.
  intros He Hf. unfold F32.of_bits.
  set (w := (if s then 2 ^ 31 else 0) + (e * 2 ^ 23 + f)).
  assert (Hs : Z.testbit w 31 = s).
  { apply Z.b2z_inj. rewrite Z.testbit_spec' by lia.
    replace w with (f + 2 ^ 23 * e + (if s then 1 else 0) * 2 ^ 31)
      by (unfold w; destruct s; lia).
    rewrite Z.div_add by lia.
    rewrite (Z.div_small (f + 2 ^ 23 * e)) by nia.
    destruct s; reflexivity. }
  assert (Hee : Z.land (Z.shiftr w 23) 255 = e).
  { change 255 with (Z.ones 8). rewrite Z.land_ones by lia.
    rewrite Z.shiftr_div_pow2 by lia.
    replace w with (f + (e + (if s then 1 else 0) * 2 ^ 8) * 2 ^ 23)
      by (unfold w; destruct s; lia).
    rewrite Z.div_add by lia. rewrite (Z.div_small f) by lia.
    rewrite Z.add_0_l, Z.mod_add by lia. apply Z.mod_small. lia. }
  assert (Hff : Z.land w (2 ^ 23 - 1) = f).
  { change (2 ^ 23 - 1) with (Z.ones 23). rewrite Z.land_ones by lia.
    replace w with (f + (e + (if s then 1 else 0) * 2 ^ 8) * 2 ^ 23)
      by (unfold w; destruct s; lia).
    rewrite Z.mod_add by lia. apply Z.mod_small. lia. }
  rewrite Hs, Hee, Hff. reflexivity.
Qed.

Lemma valid_finite (s : bool) (m : positive) (e : Z) :
  F32.valid (S754_finite s m e) = true ->
  (Zpos m < 2 ^ 23 /\ e = -149)
  \/ (2 ^ 23 <= Zpos m < 2 ^ 24 /\ -149 <= e <= 104).
Proof.
  unfold F32.valid, valid_binary, bounded, canonical_mantissa, fexp, emin,
    F32.prec, F32.emax.
  intros H. apply andb_true_iff in H as [Hc He].
  apply Z.leb_le in He.
  apply Z.eqb_eq in Hc.
  pose proof (digits2_pos_bound m) as Hd.
  destruct (Z_lt_le_dec (Zpos (digits2_pos m)) 24) as [Hlt|Hge].
  - left. split; [|lia].
    assert (2 ^ Zpos (digits2_pos m) <= 2 ^ 23) by (apply Z.pow_le_mono_r; lia).
    lia.
  - right.
    assert (Zpos (digits2_pos m) = 24) as H24 by lia.
    rewrite H24 in Hd. change (2 ^ (24 - 1)) with (2 ^ 23) in Hd. lia.
Qed.

Lemma to_bits_range (x : f32) :
  F32.valid x = true -> 0 <= F32.to_bits x < 2 ^ 32.
Proof.
  intros Hv. destruct x as [s|s| |s m e]; cbn [F32.to_bits].
  - destruct s; lia.
  - destruct s; lia.
  - lia.
  - destruct (valid_finite s m e Hv) as [[Hm He]|[Hm He]].
    + destruct (Z.ltb_spec (Zpos m) (2 ^ 23)); destruct s; lia.
    + destruct (Z.ltb_spec (Zpos m) (2 ^ 23)); destruct s; lia.
Qed.

Lemma of_bits_to_bits (x : f32) :
  F32.valid x = true -> F32.of_bits (F32.to_bits x) = x.
Proof.
  intros Hv. destruct x as [s|s| |s m e]; cbn [F32.to_bits].
  - destruct s; reflexivity.
  - destruct s; reflexivity.
  - reflexivity.
  - destruct (valid_finite s m e Hv) as [[Hm He]|[Hm He]].
    + destruct (Z.ltb_spec (Zpos m) (2 ^ 23)); [|lia].
      replace (Zpos m) with (0 * 2 ^ 23 + Zpos m) at 1 by lia.
      rewrite of_bits_fields by lia.
      cbn [Z.eqb]. subst e. reflexivity.
    + destruct (Z.ltb_spec (Zpos m) (2 ^ 23)); [lia|].
      rewrite of_bits_fields by lia.
      destruct (Z.eqb_spec (e + 150) 255); [lia|].
      destruct (Z.eqb_spec (e + 150) 0); [lia|].
      replace (Zpos m - 2 ^ 23 + 2 ^ 23) with (Zpos m) by lia.
      f_equal. lia.
Qed.

Lemma float_at_bytes (pre post : list byte) (x : f32) :
  F32.valid x = true ->
  float_at (pre ++ bytes_of_float x ++ post) (length pre) = x.
Proof.
  intros Hv. unfold float_at, bytes_of_float.
  rewrite word_at_app by reflexivity.
  rewrite word_at_bytes_of_word by (apply to_bits_range; exact Hv).
  apply of_bits_to_bits; exact Hv.
Qed.

(** X5.  The object representation of a [float] round-trips: for every
    binary32 value [x] (zero, subnormal, normal, infinite or NaN), the
    word written for [x] fits 32 bits and reads back as [x], and the four
    bytes copied out of [x] read back as [x] from any offset of any
    packet. *)
Theorem float_wire_roundtrip (x : f32) (pre post : list byte) :
  F32.valid x = true ->
  0 <= F32.to_bits x < 2 ^ 32
  /\ F32.of_bits (F32.to_bits x) = x
  /\ length (bytes_of_float x) = 4%nat
  /\ float_at (pre ++ bytes_of_float x ++ post) (length pre) = x.
Proof.
  intros Hv. split; [exact (to_bits_range x Hv)|].
  split; [exact (of_bits_to_bits x Hv)|].
  split; [reflexivity|exact (float_at_bytes pre post x Hv)].
Qed.

Lemma float_wire_roundtrip_witness :
  F32.valid (F32.lit 15 100) = true
  /\ float_at ([x13; x02] ++ bytes_of_float (F32.lit 15 100) ++ []) 2
     = F32.lit 15 100.
Proof.
  split; [reflexivity|].
  exact (proj2 (proj2 (proj2
           (float_wire_roundtrip (F32.lit 15 100) [x13; x02] [] eq_refl)))).
Defined.

Section Wire.
Import Slave.

Lemma report_bytes_length (r : slave_report_t) : length (report_bytes r) = 17%nat.
Proof. reflexivity. Qed.

Lemma report_bytes_head (r : slave_report_t) :
  byte_val (report_bytes r !!! 0%nat) = Report.msg_type r mod 256
  /\ byte_val (report_bytes r !!! 1%nat) = Report.node_id r mod 256
  /\ byte_val (report_bytes r !!! 2%nat) = Report.room_status r mod 256
  /\ byte_val (report_bytes r !!! 3%nat) = Report.human_status r mod 256
  /\ byte_val (report_bytes r !!! 12%nat) = Report.rssi r mod 256.
Proof.
  unfold report_bytes, bytes_of_float, bytes_of_word.
  cbn [app lookup_total list_lookup_total].
  rewrite !byte_val_of_Z. repeat split; reflexivity.
Qed.

Lemma report_bytes_floats (r : slave_report_t) :
  F32.valid (Report.wander r) = true -> F32.valid (Report.jitter r) = true ->
  float_at (report_bytes r) 4 = Report.wander r
  /\ float_at (report_bytes r) 8 = Report.jitter r.
Proof.
  intros Hw Hj. unfold report_bytes. split.
  - match goal with
    | |- float_at (?pre ++ _ ++ ?post) _ = _ =>
        exact (float_at_bytes pre post (Report.wander r) Hw)
    end.
  - rewrite (app_assoc _ (bytes_of_float (Report.wander r))).
    match goal with
    | |- float_at (?pre ++ _ ++ ?post) _ = _ =>
        exact (float_at_bytes pre post (Report.jitter r) Hj)
    end.
Qed.

(** X6.  Slave to master: the 17 bytes that [send_result_to_master]
    hands to [esp_now_send] are decoded by the master's [espnow_recv_cb]
    into exactly what the slave put in.  For a slave with node id 1 or 2
    the master's link of that index becomes active, carries the slave's
    stored room and motion flags, the two smoothed values and the RSSI,
    is stamped with the master's clock, keeps its sensitivities, and a
    fusion pass follows. *)
Theorem report_roundtrip (st : Master.master_state_t) (s : slave_t)
    (wander jitter : f32) (rssi timestamp t_update t_fuse : Z) :
  g_node_id s = 1 \/ g_node_id s = 2 ->
  F32.valid wander = true -> F32.valid jitter = true ->
  -128 <= rssi < 128 ->
  let r := send_result_to_master s wander jitter rssi timestamp in
  let n := Z.to_nat (g_node_id s) in
  let old := Master.links st !!! n in
  Master.espnow_recv_cb st (report_bytes r) t_update t_fuse =
    Master.fuse_detection_results
      (Master.set_links
         (<[n := {| Master.Link.active := true;
                    Master.Link.room_status := room_status (detect s);
                    Master.Link.human_status := human_status (detect s);
                    Master.Link.wander := wander;
                    Master.Link.jitter := jitter;
                    Master.Link.rssi := rssi;
                    Master.Link.last_update := t_update;
                    Master.Link.wander_sensitivity :=
                      Master.Link.wander_sensitivity old;
                    Master.Link.jitter_sensitivity :=
                      Master.Link.jitter_sensitivity old |}]> (Master.links st))
         st) t_fuse.
Proof.
  intros Hid Hw Hj Hr. cbv zeta.
  set (r := send_result_to_master s wander jitter rssi timestamp).
  unfold Master.espnow_recv_cb.
  rewrite report_bytes_length. cbn [Nat.ltb Nat.leb Master.sizeof_slave_report_t].
  destruct (report_bytes_head r) as (H0 & H1 & H2 & H3 & H12).
  destruct (report_bytes_floats r Hw Hj) as (H4 & H8).
  rewrite H0, H1, H2, H3, H4, H8, H12.
  unfold r, send_result_to_master.
  cbn [Report.msg_type Report.node_id Report.room_status Report.human_status
       Report.wander Report.jitter Report.rssi].
  assert (Hn : g_node_id s mod 256 = g_node_id s) by (apply Z.mod_small; lia).
  rewrite Hn.
  assert (Hc : (1 mod 256 =? 1) && (1 <=? g_node_id s)
               && (g_node_id s <=? Master.MAX_SLAVE_NODES) = true).
  { unfold Master.MAX_SLAVE_NODES. destruct Hid as [-> | ->]; reflexivity. }
  rewrite Hc.
  assert (Hrs : (if rssi mod 256 <? 128 then rssi mod 256 else rssi mod 256 - 256) = rssi).
  { destruct (Z_lt_le_dec rssi 0).
    - replace (rssi mod 256) with (rssi + 256).
      + destruct (Z.ltb_spec (rssi + 256) 128); lia.
      + symmetry. rewrite <- (Z.mod_add rssi 1 256) by lia. apply Z.mod_small. lia.
    - rewrite Z.mod_small by lia. destruct (Z.ltb_spec rssi 128); lia. }
  rewrite Hrs.
  destruct (room_status (detect s)), (human_status (detect s)); reflexivity.
Qed.

Lemma report_roundtrip_witness :
  (g_node_id slave_low_threshold = 1 \/ g_node_id slave_low_threshold = 2)
  /\ F32.valid (F32.of_Z 1) = true
  /\ F32.valid F32.zero = true
  /\ -128 <= -60 < 128
  /\ Master.Link.rssi
       (Master.links
          (Master.espnow_recv_cb Master.g_state
             (report_bytes
                (send_result_to_master slave_low_threshold (F32.of_Z 1) F32.zero
                   (-60) 1000)) 1000 1000) !!! 2%nat) = -60.
Proof.
  split; [right; reflexivity|]. split; [reflexivity|]. split; [reflexivity|].
  split; [lia|].
  rewrite (report_roundtrip Master.g_state slave_low_threshold (F32.of_Z 1) F32.zero
             (-60) 1000 1000 1000 (or_intror eq_refl) eq_refl eq_refl ltac:(lia)).
  vm_compute. reflexivity.
Defined.

Lemma cmd_buf_fields (c : Master.sensitivity_cmd) :
  F32.valid (Master.cmd_wander_sensitivity c) = true ->
  F32.valid (Master.cmd_jitter_sensitivity c) = true ->
  length (Master.cmd_buf c) = 10%nat
  /\ byte_val (Master.cmd_buf c !!! 0%nat) = 19
  /\ byte_val (Master.cmd_buf c !!! 1%nat) = Master.cmd_target c mod 256
  /\ float_at (Master.cmd_buf c) 2 = Master.cmd_wander_sensitivity c
  /\ float_at (Master.cmd_buf c) 6 = Master.cmd_jitter_sensitivity c.
Proof.
  intros Hw Hj. split; [reflexivity|]. split; [reflexivity|].
  split.
  { unfold Master.cmd_buf. cbn [app lookup_total list_lookup_total].
    apply byte_val_of_Z. }
  unfold Master.cmd_buf. split.
  - match goal with
    | |- float_at (?pre ++ _ ++ ?post) _ = _ =>
        rewrite <- (app_nil_r post);
        exact (float_at_bytes pre [] (Master.cmd_wander_sensitivity c) Hw)
    end.
  - rewrite (app_assoc _ (bytes_of_float (Master.cmd_wander_sensitivity c))).
    rewrite <- (app_nil_r (bytes_of_float (Master.cmd_jitter_sensitivity c))).
    match goal with
    | |- float_at (?pre ++ _ ++ ?post) _ = _ =>
        exact (float_at_bytes pre post (Master.cmd_jitter_sensitivity c) Hj)
    end.
Qed.

Lemma post_sensitivity_cmd (st : Master.master_state_t) (link_idx : Z)
    (ws js : f32) :
  length (Master.links st) = 3%nat ->
  link_idx = 1 \/ link_idx = 2 ->
  let res := Master.http_post_sensitivity st link_idx ws js in
  let l := Master.links (fst (fst res)) !!! Z.to_nat link_idx in
  snd (fst res) =
    Some {| Master.cmd_target := link_idx;
            Master.cmd_wander_sensitivity := Master.Link.wander_sensitivity l;
            Master.cmd_jitter_sensitivity := Master.Link.jitter_sensitivity l |}.
Proof.
  intros Hlen Hi. cbv zeta. unfold Master.http_post_sensitivity.
  assert (Hr : (link_idx <? 0) || (2 <? link_idx) = false)
    by (destruct Hi as [-> | ->]; reflexivity).
  rewrite Hr.
  assert (Hp : (0 <? link_idx) = true) by (destruct Hi as [-> | ->]; reflexivity).
  rewrite Hp.
  cbn [fst snd Master.links Master.set_links].
  rewrite list_lookup_total_insert_eq
    by (rewrite Hlen; destruct Hi as [-> | ->]; simpl; lia).
  reflexivity.
Qed.

(** X7.  Master to slave: the ten bytes of [cmd_buf] that
    [http_post_sensitivity] broadcasts for link 1 or 2 carry the pair the
    master has just stored for that link.  The slave whose node id is
    the link index ends with exactly this pair as its sensitivities; a
    slave with another node id is left as it was. *)
Theorem sensitivity_command_roundtrip (st : Master.master_state_t)
    (link_idx : Z) (ws js : f32) (s : slave_t) (trained : f32 * f32) :
  length (Master.links st) = 3%nat ->
  link_idx = 1 \/ link_idx = 2 ->
  let res := Master.http_post_sensitivity st link_idx ws js in
  let l := Master.links (fst (fst res)) !!! Z.to_nat link_idx in
  F32.valid (Master.Link.wander_sensitivity l) = true ->
  F32.valid (Master.Link.jitter_sensitivity l) = true ->
  exists cmd,
    snd (fst res) = Some cmd
    /\ espnow_recv_cb s (Master.cmd_buf cmd) trained =
         if g_node_id s =? link_idx then
           {| detect :=
                set_sensitivity (Master.Link.wander_sensitivity l)
                                (Master.Link.jitter_sensitivity l) (detect s);
              g_node_id := g_node_id s;
              s_last_send_time := s_last_send_time s |}
         else s.
Proof.
  intros Hlen Hi. cbv zeta. intros Hw Hj.
  eexists. split; [exact (post_sensitivity_cmd st link_idx ws js Hlen Hi)|].
  cbv zeta.
  set (l := Master.links (fst (fst (Master.http_post_sensitivity st link_idx ws js)))
              !!! Z.to_nat link_idx) in *.
  set (c := {| Master.cmd_target := link_idx;
               Master.cmd_wander_sensitivity := Master.Link.wander_sensitivity l;
               Master.cmd_jitter_sensitivity := Master.Link.jitter_sensitivity l |}).
  destruct (cmd_buf_fields c Hw Hj) as (Hlen' & H0 & H1 & H2 & H6).
  unfold espnow_recv_cb. rewrite Hlen', H0, H1, H2, H6.
  cbn [Nat.ltb Nat.leb Z.ltb Z.eqb Z.compare Pos.compare Pos.compare_cont orb
       Master.cmd_target Master.cmd_wander_sensitivity
       Master.cmd_jitter_sensitivity c].
  replace (link_idx mod 256) with link_idx
    by (destruct Hi as [-> | ->]; reflexivity).
  rewrite (Z.eqb_sym link_idx). reflexivity.
Qed.

Lemma sensitivity_command_roundtrip_witness :
  length (Master.links Master.g_state) = 3%nat
  /\ wander_sensitivity
       (detect
          (espnow_recv_cb (boot None None)
             (Master.cmd_buf
                {| Master.cmd_target := 2;
                   Master.cmd_wander_sensitivity := F32.of_Z 1;
                   Master.cmd_jitter_sensitivity := F32.of_Z 3 |})
             (F32.zero, F32.zero))) = F32.of_Z 1.
Proof.
  split; [reflexivity|].
  destruct (sensitivity_command_roundtrip Master.g_state 2 (F32.of_Z 1) (F32.of_Z 3)
              (boot None None) (F32.zero, F32.zero) eq_refl (or_intror eq_refl)
              eq_refl eq_refl) as (cmd & Hcmd & Hcb).
  change (Some {| Master.cmd_target := 2;
                  Master.cmd_wander_sensitivity := F32.of_Z 1;
                  Master.cmd_jitter_sensitivity := F32.of_Z 3 |} = Some cmd) in Hcmd.
  apply (f_equal (fun o => match o with Some c => c | None => cmd end)) in Hcmd.
  subst cmd. rewrite Hcb. reflexivity.
Defined.

End Wire.

(** * Invariants of the master *)

Section MasterRun.
Import Master.









End MasterRun.

(** * Requests and packets on the master *)

Section MasterEdges.
Import Master.



(** X10.  [http_post_sensitivity] touches the two sensitivities of the
    addressed link and nothing else.  An index outside 0..2 changes
    nothing, sends nothing and is answered with the error; link 0 sends
    no command; in every case the thresholds, the fused flags, the
    calibration flag, the other links, and the flags and measurements of
    every link stay as they were. *)
Theorem post_sensitivity_frame (st : master_state_t) (link_idx : Z)
    (wander_sens jitter_sens : f32) :
  let res := http_post_sensitivity st link_idx wander_sens jitter_sens in
  let st' := fst (fst res) in
  (link_idx < 0 \/ 2 < link_idx -> res = (st, None, ReplyInvalidLink))
  /\ (link_idx = 0 -> snd (fst res) = None)
  /\ wander_threshold st' = wander_threshold st
  /\ jitter_threshold st' = jitter_threshold st
  /\ room_status st' = room_status st
  /\ human_status st' = human_status st
  /\ calibrating st' = calibrating st
  /\ length (links st') = length (links st)
  /\ (forall k : nat, k <> Z.to_nat link_idx -> links st' !!! k = links st !!! k)
  /\ (forall k : nat,
        let l := links st !!! k in
        let l' := links st' !!! k in
        Link.active l' = Link.active l
        /\ Link.room_status l' = Link.room_status l
        /\ Link.human_status l' = Link.human_status l
        /\ Link.wander l' = Link.wander l
        /\ Link.jitter l' = Link.jitter l
        /\ Link.last_update l' = Link.last_update l).
Proof.
  cbv zeta. unfold http_post_sensitivity.
  destruct (Z.ltb_spec link_idx 0) as [Hneg|Hnn]; cbn [orb].
  { repeat split; try reflexivity; intros; lia. }
  destruct (Z.ltb_spec 2 link_idx) as [Hbig|Hle].
  { repeat split; try reflexivity; intros; lia. }
  cbn [fst snd links set_links wander_threshold jitter_threshold room_status
       human_status calibrating].
  split; [intros [?|?]; lia|].
  split; [intros ->; reflexivity|].
  do 5 (split; [reflexivity|]).
  split; [apply length_insert|].
  split.
  - intros k Hk. apply list_lookup_total_insert_ne. congruence.
  - intros k.
    destruct (decide (k = Z.to_nat link_idx)) as [->|Hne].
    + destruct (decide (Z.to_nat link_idx < length (links st))%nat) as [Hlt|Hge].
      * rewrite list_lookup_total_insert_eq by exact Hlt.
        destruct (F32.ge wander_sens (F32.lit 1 1000) && F32.le wander_sens (F32.of_Z 5)),
          (F32.ge jitter_sens (F32.lit 1 1000) && F32.le jitter_sens (F32.of_Z 5));
          repeat split; reflexivity.
      * rewrite list_insert_ge by lia. repeat split; reflexivity.
    + rewrite list_lookup_total_insert_ne by congruence. repeat split; reflexivity.
Qed.

(** X11.  No packet can change the master's settings or its own
    measurements.  Whatever bytes [espnow_recv_cb] receives, the
    thresholds, the calibration state, the sample windows, the
    sensitivities of all three links and the measurements of the local
    link stay as they were; a packet shorter than 17 bytes, with a type
    other than 1 or with a node id outside 1..2 changes nothing at
    all. *)
Theorem report_cannot_change_settings (st : master_state_t) (data : list byte)
    (t_update t_fuse : Z) :
  length (links st) = 3%nat ->
  let st' := espnow_recv_cb st data t_update t_fuse in
  ((length data < 17)%nat \/ byte_val (data !!! 0%nat) <> 1
   \/ byte_val (data !!! 1%nat) < 1 \/ 2 < byte_val (data !!! 1%nat) -> st' = st)
  /\ wander_threshold st' = wander_threshold st
  /\ jitter_threshold st' = jitter_threshold st
  /\ calibrating st' = calibrating st
  /\ calibration_start_time st' = calibration_start_time st
  /\ wander_buff st' = wander_buff st
  /\ jitter_buff st' = jitter_buff st
  /\ buff_count st' = buff_count st
  /\ length (links st') = 3%nat
  /\ (forall k : nat,
        Link.wander_sensitivity (links st' !!! k)
          = Link.wander_sensitivity (links st !!! k)
        /\ Link.jitter_sensitivity (links st' !!! k)
          = Link.jitter_sensitivity (links st !!! k))
  /\ Link.wander (links st' !!! 0%nat) = Link.wander (links st !!! 0%nat)
  /\ Link.jitter (links st' !!! 0%nat) = Link.jitter (links st !!! 0%nat)
  /\ Link.last_update (links st' !!! 0%nat) = Link.last_update (links st !!! 0%nat).
Proof.
  intros Hlen. cbv zeta. unfold espnow_recv_cb, sizeof_slave_report_t.
  destruct (Nat.ltb_spec (length data) 17) as [Hshort|Hlong].
  { repeat split; try reflexivity; assumption. }
  destruct (Z.eqb_spec (byte_val (data !!! 0%nat)) 1) as [H0|H0]; cbn [andb];
    [|repeat split; try reflexivity; assumption].
  destruct (Z.leb_spec 1 (byte_val (data !!! 1%nat))) as [H1|H1]; cbn [andb];
    [|repeat split; try reflexivity; assumption].
  unfold MAX_SLAVE_NODES.
  destruct (Z.leb_spec (byte_val (data !!! 1%nat)) 2) as [H2|H2];
    [|repeat split; try reflexivity; assumption].
  set (n := Z.to_nat (byte_val (data !!! 1%nat))).
  assert (Hn : (n = 1 \/ n = 2)%nat) by (unfold n; lia).
  set (l := {| Link.active := true |}).
  set (st1 := set_links (<[n := l]> (links st)) st).
  assert (Hlen1 : length (links st1) = 3%nat)
    by (unfold st1; cbn [links set_links]; rewrite length_insert; exact Hlen).
  destruct (length_three _ Hlen1) as (a & b & c & Hl1).
  rewrite (fuse_three st1 t_fuse a b c Hl1). cbv zeta.
  unfold set_fused, set_links.
  cbn [links wander_threshold jitter_threshold calibrating calibration_start_time
       wander_buff jitter_buff buff_count].
  split; [intros [?|[?|[?|?]]]; lia|].
  do 7 (split; [reflexivity|]).
  split; [reflexivity|].
  assert (Hsens : forall k : nat,
            Link.wander_sensitivity (links st1 !!! k)
              = Link.wander_sensitivity (links st !!! k)
            /\ Link.jitter_sensitivity (links st1 !!! k)
              = Link.jitter_sensitivity (links st !!! k)).
  { intros k. unfold st1. cbn [links set_links].
    destruct (decide (k = n)) as [->|Hne].
    - rewrite list_lookup_total_insert_eq by lia. split; reflexivity.
    - rewrite list_lookup_total_insert_ne by congruence. split; reflexivity. }
  assert (H0' : links st1 !!! 0%nat = links st !!! 0%nat).
  { unfold st1. cbn [links set_links].
    apply list_lookup_total_insert_ne. lia. }
  rewrite Hl1 in Hsens, H0'.
  split.
  - intros k. rewrite <- (proj1 (Hsens k)), <- (proj2 (Hsens k)).
    destruct k as [|[|[|k]]]; cbn [lookup_total list_lookup_total];
      try (destruct (link_after_fields t_fuse st1 0 a) as (_ & _ & _ & _ & Hw & Hj & _);
           split; assumption);
      try (destruct (link_after_fields t_fuse st1 1 b) as (_ & _ & _ & _ & Hw & Hj & _);
           split; assumption);
      try (destruct (link_after_fields t_fuse st1 2 c) as (_ & _ & _ & _ & Hw & Hj & _);
           split; assumption).
    split; reflexivity.
  - rewrite <- H0'. cbn [lookup_total list_lookup_total].
    destruct (link_after_fields t_fuse st1 0 a) as (Hw & Hj & _ & Hu & _).
    repeat split; assumption.
Qed.

Lemma report_cannot_change_settings_witness :
  length (links g_state) = 3%nat
  /\ jitter_threshold (espnow_recv_cb g_state a_report 1000 1000)
     = jitter_threshold g_state.
Proof.
  split; [reflexivity|].
  exact (proj1 (proj2 (proj2
           (report_cannot_change_settings g_state a_report 1000 1000 eq_refl)))).
Defined.

End MasterEdges.

(** * Calibration on the master *)

Lemma u32_elapsed (t d : Z) :
  0 <= t < U32.modulus -> 0 <= d < U32.modulus ->
  U32.sub (U32.wrap (t + d)) t = d.
Proof.
  intros Ht Hd. unfold U32.sub, U32.wrap, U32.modulus in *.
  rewrite Zminus_mod_idemp_l.
  replace (t + d - t) with d by lia. apply Z.mod_small. lia.
Qed.

Section Calibration.
Import Master.

(** X12.  The calibration timeout of [ws_broadcast_task] is exact, also
    across the wrap-around of the 32-bit millisecond clock: [d] ms after
    a calibration was started at [t0], the check stops it (the trained
    thresholds stored, the flag cleared) exactly when [d] has reached
    the duration, and leaves the state as it is before that.  On a
    master that is not calibrating the check changes nothing. *)
Theorem calibration_auto_stop (st : master_state_t) (t0 d : Z)
    (trained : f32 * f32) :
  0 <= t0 < U32.modulus -> 0 <= d < U32.modulus ->
  let now := U32.wrap (t0 + d) in
  calibration_timeout (calibration_start st t0) now trained =
    (if calibration_duration_ms st <=? d then
       set_calibration false t0 (set_thresholds (fst trained) (snd trained) st)
     else calibration_start st t0)
  /\ (calibrating st = false -> calibration_timeout st now trained = st).
Proof.
  intros Ht Hd. cbv zeta. split.
  - unfold calibration_timeout, calibration_start, set_calibration.
    cbn [calibrating calibration_start_time calibration_duration_ms].
    rewrite u32_elapsed by assumption.
    destruct (calibration_duration_ms st <=? d); [|reflexivity].
    unfold finish_calibration, set_calibration, set_thresholds. reflexivity.
  - intros Hc. unfold calibration_timeout. rewrite Hc. reflexivity.
Qed.

Lemma calibration_auto_stop_witness :
  0 <= 4294966296 < U32.modulus
  /\ 0 <= 30000 < U32.modulus
  /\ calibrating
       (calibration_timeout (calibration_start g_state 4294966296)
          (U32.wrap (4294966296 + 30000)) (F32.lit 1 100, F32.lit 1 1000))
     = false.
Proof.
  assert (H1 : 0 <= 4294966296 < U32.modulus) by (unfold U32.modulus; lia).
  assert (H2 : 0 <= 30000 < U32.modulus) by (unfold U32.modulus; lia).
  split; [exact H1|]. split; [exact H2|].
  rewrite (proj1 (calibration_auto_stop g_state 4294966296 30000
                    (F32.lit 1 100, F32.lit 1 1000) H1 H2)).
  reflexivity.
Defined.

(** X13.  The remaining calibration time that the master publishes:
    [d] ms after the start (for [d] below [2 ^ 31], the clock allowed to
    wrap) it is the whole seconds left, [(duration - d) / 1000], and 0
    once the duration has passed; it is never negative. *)
Theorem calib_remaining_seconds (st : master_state_t) (t0 d : Z) :
  0 <= t0 < U32.modulus ->
  0 <= calibration_duration_ms st < 2 ^ 31 ->
  0 <= d < 2 ^ 31 ->
  calib_remaining (calibration_start st t0) (U32.wrap (t0 + d))
  = (if d <=? calibration_duration_ms st
     then (calibration_duration_ms st - d) / 1000 else 0).
Proof.
  intros Ht HD Hd.
  unfold calib_remaining, calibration_start, set_calibration.
  cbn [calibrating calibration_start_time calibration_duration_ms].
  rewrite u32_elapsed by (unfold U32.modulus in *; lia).
  unfold U32.sub, U32.wrap, U32.modulus, int_of_u32.
  set (D := calibration_duration_ms st) in *.
  destruct (Z.leb_spec d D) as [Hle|Hgt].
  - rewrite (Z.mod_small (D - d)) by lia.
    destruct (Z.ltb_spec (D - d) (2 ^ 31)); [|lia].
    rewrite Z.quot_div_nonneg by lia.
    destruct (Z.ltb_spec ((D - d) / 1000) 0) as [Hneg|]; [|reflexivity].
    pose proof (Z.div_pos (D - d) 1000 ltac:(lia) ltac:(lia)). lia.
  - replace ((D - d) mod 2 ^ 32) with (D - d + 2 ^ 32).
    + destruct (Z.ltb_spec (D - d + 2 ^ 32) (2 ^ 31)); [lia|].
      replace (D - d + 2 ^ 32 - 2 ^ 32) with (- (d - D)) by lia.
      rewrite Z.quot_opp_l by lia.
      rewrite Z.quot_div_nonneg by lia.
      pose proof (Z.div_pos (d - D) 1000 ltac:(lia) ltac:(lia)).
      destruct (Z.ltb_spec (- ((d - D) / 1000)) 0); lia.
    + symmetry. rewrite <- (Z.mod_add (D - d) 1 (2 ^ 32)) by lia.
      apply Z.mod_small. lia.
Qed.

Lemma calib_remaining_seconds_witness :
  0 <= 4294966296 < U32.modulus
  /\ 0 <= calibration_duration_ms g_state < 2 ^ 31
  /\ 0 <= 12500 < 2 ^ 31
  /\ calib_remaining (calibration_start g_state 4294966296)
       (U32.wrap (4294966296 + 12500)) = 17.
Proof.
  assert (H1 : 0 <= 4294966296 < U32.modulus) by (unfold U32.modulus; lia).
  assert (H2 : 0 <= calibration_duration_ms g_state < 2 ^ 31) by (simpl; lia).
  assert (H3 : 0 <= 12500 < 2 ^ 31) by lia.
  split; [exact H1|]. split; [exact H2|]. split; [exact H3|].
  rewrite (calib_remaining_seconds g_state 4294966296 12500 H1 H2 H3).
  reflexivity.
Defined.

Lemma c_string_app (pre l : list byte) :
  Forall (fun b => b <> x00) pre -> c_string (pre ++ l) = pre ++ c_string l.
Proof.
  induction 1 as [|b pre Hb _ IH]; [reflexivity|].
  cbn [app c_string].
  destruct (Byte.eqb b x00) eqn:E.
  - apply Byte.byte_dec_bl in E. contradiction.
  - rewrite IH. reflexivity.
Qed.

Lemma starts_with_app (needle rest : list byte) :
  starts_with needle (needle ++ rest) = true.
Proof.
  induction needle as [|a needle IH]; [reflexivity|].
  cbn [app starts_with]. rewrite IH.
  rewrite (Byte.byte_dec_lb (eq_refl a)). reflexivity.
Qed.

Lemma strstr_app (pre needle rest : list byte) :
  strstr (pre ++ needle ++ rest) needle = true.
Proof.
  induction pre as [|b pre IH].
  - cbn [app]. destruct (needle ++ rest) eqn:E; cbn [strstr];
      rewrite <- E, starts_with_app; reflexivity.
  - cbn [app strstr]. rewrite IH. apply orb_true_r.
Qed.

(** X14.  [http_post_calibrate] matches by substring, and "start" is
    tried first: a body that holds the five bytes [start] before any NUL
    starts a calibration, whatever else it holds (a "stop" included).
    The calibration flag is set, the start time is the clock reading
    (also when a calibration was already running), the byte 0x10 is
    broadcast, and neither the thresholds nor the store are touched. *)
Theorem calibrate_start_request (st : master_state_t) (pre post : list byte)
    (now : Z) (trained : f32 * f32) (opened : bool) (nvs : option nvs_blobs) :
  Forall (fun b => b <> x00) pre ->
  http_post_calibrate st (pre ++ [x73; x74; x61; x72; x74] ++ post) now trained
    opened nvs
  = (set_calibration true now st, Some [x10], nvs, ReplyCalibrating).
Proof.
  intros Hpre. unfold http_post_calibrate.
  set (buf := pre ++ [x73; x74; x61; x72; x74] ++ post).
  assert (Hlen : (length buf <=? 0)%nat = false).
  { apply Nat.leb_gt. unfold buf. rewrite !length_app. cbn [length]. lia. }
  rewrite Hlen. unfold buf.
  rewrite (app_assoc pre), c_string_app, <- (app_assoc pre).
  - rewrite strstr_app. reflexivity.
  - apply Forall_app. split; [exact Hpre|].
    repeat constructor; discriminate.
Qed.

Lemma calibrate_start_request_witness :
  Forall (fun b => b <> x00) stop_restart_pre
  /\ http_post_calibrate g_state
       (stop_restart_pre ++ [x73; x74; x61; x72; x74] ++ stop_restart_post)
       500 (F32.lit 1 100, F32.lit 1 1000) true None
     = (set_calibration true 500 g_state, Some [x10], None, ReplyCalibrating).
Proof.
  assert (H : Forall (fun b => b <> x00) stop_restart_pre)
    by (repeat constructor; discriminate).
  split; [exact H|].
  exact (calibrate_start_request g_state stop_restart_pre stop_restart_post 500
           (F32.lit 1 100, F32.lit 1 1000) true None H).
Defined.

End Calibration.

(** * Commands and reports of the slave *)

Section SlaveMore.
Import Slave.

(** X15.  No packet can change a slave's node id, its rate-limit
    clock, its sample windows and counter, or its stored room and motion
    flags.  An empty packet, a first byte outside 0x10..0x13, a
    SetThresholds shorter than 9 bytes, and a SetSensitivity shorter
    than 10 bytes or addressed to another node change nothing at all. *)
Theorem slave_command_frame (s : slave_t) (data : list byte) (trained : f32 * f32) :
  let s' := espnow_recv_cb s data trained in
  let cmd := byte_val (data !!! 0%nat) in
  (data = [] \/ cmd < 16 \/ 19 < cmd
   \/ (cmd = 18 /\ (length data < 9)%nat)
   \/ (cmd = 19 /\ ((length data < 10)%nat
                    \/ byte_val (data !!! 1%nat) <> g_node_id s)) ->
   s' = s)
  /\ g_node_id s' = g_node_id s
  /\ s_last_send_time s' = s_last_send_time s
  /\ wander_buff (detect s') = wander_buff (detect s)
  /\ jitter_buff (detect s') = jitter_buff (detect s)
  /\ buff_count (detect s') = buff_count (detect s)
  /\ room_status (detect s') = room_status (detect s)
  /\ human_status (detect s') = human_status (detect s).
Proof.
  cbv zeta.
  assert (Hempty : data = [] -> espnow_recv_cb s data trained = s)
    by (intros ->; reflexivity).
  unfold espnow_recv_cb.
  destruct (Nat.ltb_spec (length data) 1) as [Hl0|Hl0].
  { repeat split; reflexivity. }
  set (cmd := byte_val (data !!! 0%nat)).
  destruct (Z.ltb_spec cmd 16) as [Hlo|Hlo]; cbn [orb];
    [repeat split; reflexivity|].
  destruct (Z.ltb_spec 31 cmd) as [Hhi|Hhi];
    [repeat split; reflexivity|].
  destruct (Z.eqb_spec cmd 16) as [H16|H16].
  { split; [|repeat split; reflexivity].
    intros [?|[?|[?|[[? ?]|[? ?]]]]]; try lia. subst data. simpl in Hl0. lia. }
  destruct (Z.eqb_spec cmd 17) as [H17|H17].
  { split; [|repeat split; reflexivity].
    intros [?|[?|[?|[[? ?]|[? ?]]]]]; try lia. subst data. simpl in Hl0. lia. }
  destruct (Z.eqb_spec cmd 18) as [H18|H18].
  { destruct (Nat.leb_spec 9 (length data)) as [Hl|Hl].
    - split; [|repeat split; reflexivity].
      intros [?|[?|[?|[[? ?]|[? ?]]]]]; try lia. subst data. simpl in Hl0. lia.
    - repeat split; reflexivity. }
  destruct (Z.eqb_spec cmd 19) as [H19|H19].
  { destruct (Nat.leb_spec 10 (length data)) as [Hl|Hl];
      [|repeat split; reflexivity].
    destruct (Z.eqb_spec (byte_val (data !!! 1%nat)) (g_node_id s)) as [Ht|Ht];
      [|repeat split; reflexivity].
    split; [|repeat split; reflexivity].
    intros [?|[?|[?|[[? ?]|[? [?|?]]]]]]; try lia; try contradiction.
    subst data. simpl in Hl0. lia. }
  repeat split; reflexivity.
Qed.

(** X16.  The slave's report rate limit.  A callback that sends no
    report leaves the time of the last report as it was.  A callback
    sends a report only when the slave is not calibrating, is warmed up,
    and at least 100 ms (in 32-bit arithmetic) have passed since the
    last report; it then records its clock reading, and any next callback
    less than 100 ms later sends nothing. *)
Theorem slave_report_rate_limit (s s1 : slave_t) (info : wifi_radar_info_t)
    (heap_w heap_j : bool) (now t_report : Z) (out1 : cb_effects) :
  wifi_radar_cb s info heap_w heap_j now t_report = Some (s1, out1) ->
  (sent out1 = None -> s_last_send_time s1 = s_last_send_time s)
  /\ (sent out1 <> None ->
      100 <= U32.sub now (s_last_send_time s)
      /\ calibrating (detect s) = false
      /\ 5 <= buff_count (detect s1)
      /\ s_last_send_time s1 = now
      /\ forall (info' : wifi_radar_info_t) (heap_w' heap_j' : bool)
                (now' t_report' : Z) (s2 : slave_t) (out2 : cb_effects),
           wifi_radar_cb s1 info' heap_w' heap_j' now' t_report' = Some (s2, out2) ->
           U32.sub now' now < 100 ->
           sent out2 = None /\ s_last_send_time s2 = now).
Proof.
  assert (Hgen : forall (s s1 : slave_t) info heap_w heap_j now t_report out1,
    wifi_radar_cb s info heap_w heap_j now t_report = Some (s1, out1) ->
    (sent out1 = None -> s_last_send_time s1 = s_last_send_time s)
    /\ (sent out1 <> None ->
        100 <= U32.sub now (s_last_send_time s)
        /\ calibrating (detect s) = false
        /\ 5 <= buff_count (detect s1)
        /\ s_last_send_time s1 = now)).
  { clear. intros s s1 info heap_w heap_j now t_report out1 Hcb.
    destruct (Z.lt_ge_cases (buff_count (slave_stored (detect s) info)) 5) as [Hc|Hw].
    - rewrite (slave_cb_cold s info heap_w heap_j now t_report Hc) in Hcb.
      injection Hcb as <- <-. cbn [sent s_last_send_time].
      split; [reflexivity|]. intros H; contradiction.
    - destruct (slave_cb_warm s info heap_w heap_j now t_report Hw) as (wa & _ & Hcb').
      cbv zeta in Hcb'. rewrite Hcb' in Hcb. clear Hcb'.
      destruct (calibrating (detect s)) eqn:Hcal.
      + injection Hcb as <- <-. cbn [sent s_last_send_time].
        split; [reflexivity|]. intros H; contradiction.
      + destruct (Z.leb_spec 100 (U32.sub now (s_last_send_time s))) as [Hr|Hr];
          injection Hcb as <- <-; cbn [sent s_last_send_time detect].
        * split; [discriminate|]. intros _.
          repeat split; try assumption; try reflexivity.
        * split; [reflexivity|]. intros H; contradiction. }
  intros Hcb. destruct (Hgen _ _ _ _ _ _ _ _ Hcb) as [Hnone Hsome].
  split; [exact Hnone|].
  intros Hs. destruct (Hsome Hs) as (H1 & H2 & H3 & H4).
  repeat split; try assumption.
  - destruct (Hgen _ _ _ _ _ _ _ _ H) as [Hn2 Hs2].
    destruct (sent out2) eqn:E; [|reflexivity].
    assert (Hne : Some s0 <> None) by discriminate.
    destruct (Hs2 Hne) as (Hge & _). rewrite H4 in Hge. lia.
  - destruct (Hgen _ _ _ _ _ _ _ _ H) as [Hn2 Hs2].
    destruct (sent out2) eqn:E.
    + assert (Hne : Some s0 <> None) by discriminate.
      destruct (Hs2 Hne) as (Hge & _). rewrite H4 in Hge. lia.
    + rewrite (Hn2 eq_refl). exact H4.
Qed.

Lemma slave_report_rate_limit_witness :
  exists s1 out1,
    wifi_radar_cb slave_low_threshold a_radar_info true true 1000 1000
      = Some (s1, out1)
    /\ sent out1 <> None
    /\ s_last_send_time s1 = 1000.
Proof.
  destruct (wifi_radar_cb slave_low_threshold a_radar_info true true 1000 1000)
    as [[s1 out1]|] eqn:Hcb; [|vm_compute in Hcb; discriminate].
  exists s1, out1. split; [reflexivity|].
  assert (Hs : sent out1 <> None).
  { vm_compute in Hcb. injection Hcb as _ <-. discriminate. }
  split; [exact Hs|].
  destruct (slave_report_rate_limit slave_low_threshold s1 a_radar_info true true
              1000 1000 out1 Hcb) as [_ H].
  destruct (H Hs) as (_ & _ & _ & Ht & _). exact Ht.
Defined.

Lemma slave_cb_sent (s s' : slave_t) (info : wifi_radar_info_t)
    (heap_w heap_j : bool) (now t_report : Z) (out : cb_effects)
    (r : slave_report_t) :
  wifi_radar_cb s info heap_w heap_j now t_report = Some (s', out) ->
  sent out = Some r ->
  let d1 := slave_stored (detect s) info in
  exists wander_average,
    trimmean heap_w (wander_buff d1) RADAR_BUFF_MAX_LEN (F32.lit 5 10)
      = Some wander_average
    /\ let jitter_median := median heap_j (jitter_buff d1) RADAR_BUFF_MAX_LEN in
       let room := slave_room d1 wander_average in
       let human := slave_motion d1 jitter_median in
       let d2 := set_status room human d1 in
       s' = {| detect := d2; g_node_id := g_node_id s; s_last_send_time := now |}
       /\ led out = Some (room, human, false)
       /\ r = send_result_to_master
                {| detect := d2; g_node_id := g_node_id s;
                   s_last_send_time := s_last_send_time s |}
                wander_average jitter_median 0 t_report.
Proof.
  intros Hcb Hsent. cbv zeta.
  destruct (Z.lt_ge_cases (buff_count (slave_stored (detect s) info)) 5) as [Hc|Hw].
  - rewrite (slave_cb_cold s info heap_w heap_j now t_report Hc) in Hcb.
    injection Hcb as <- <-. discriminate.
  - destruct (slave_cb_warm s info heap_w heap_j now t_report Hw) as (wa & Htm & Hcb').
    cbv zeta in Hcb'. rewrite Hcb' in Hcb. clear Hcb'.
    exists wa. split; [exact Htm|].
    destruct (calibrating (detect s)) eqn:Hcal.
    + injection Hcb as <- <-. discriminate.
    + destruct (Z.leb_spec 100 (U32.sub now (s_last_send_time s))) as [Hr|Hr];
        injection Hcb as <- <-; [|discriminate].
      cbn [sent led] in *. injection Hsent as <-.
      repeat split; reflexivity.
Qed.

(** X17.  A report that the slave sends says what the slave has just
    stored and shown: its type is 1, its node id the slave's, its room
    and motion bytes are the stored flags (0 or 1), the same flags drive
    the LED, its wander is the trimmed mean and its jitter the median of
    the windows as stored, its RSSI is 0 and its time stamp the clock
    reading. *)
Theorem slave_report_consistent (s s' : slave_t) (info : wifi_radar_info_t)
    (heap_w heap_j : bool) (now t_report : Z) (out : cb_effects)
    (r : slave_report_t) :
  wifi_radar_cb s info heap_w heap_j now t_report = Some (s', out) ->
  sent out = Some r ->
  Report.msg_type r = 1
  /\ Report.node_id r = g_node_id s
  /\ Report.room_status r = b2z (room_status (detect s'))
  /\ Report.human_status r = b2z (human_status (detect s'))
  /\ trimmean heap_w (wander_buff (detect s')) RADAR_BUFF_MAX_LEN (F32.lit 5 10)
     = Some (Report.wander r)
  /\ Report.jitter r = median heap_j (jitter_buff (detect s')) RADAR_BUFF_MAX_LEN
  /\ Report.rssi r = 0
  /\ Report.timestamp r = t_report
  /\ led out = Some (room_status (detect s'), human_status (detect s'), false).
Proof.
  intros Hcb Hsent.
  destruct (slave_cb_sent s s' info heap_w heap_j now t_report out r Hcb Hsent)
    as (wa & Htm & Hs & Hled & Hr).
  cbv zeta in Hs, Hled, Hr. subst s' r. rewrite Hled.
  unfold send_result_to_master, b2z.
  cbn [detect set_status room_status human_status wander_buff jitter_buff
       Report.msg_type Report.node_id Report.room_status Report.human_status
       Report.wander Report.jitter Report.rssi Report.timestamp g_node_id].
  repeat split; try reflexivity. exact Htm.
Qed.

Lemma slave_report_consistent_witness :
  exists s' out r,
    wifi_radar_cb slave_low_threshold a_radar_info true true 1000 1000
      = Some (s', out)
    /\ sent out = Some r
    /\ Report.node_id r = 2.
Proof.
  destruct (wifi_radar_cb slave_low_threshold a_radar_info true true 1000 1000)
    as [[s' out]|] eqn:Hcb; [|vm_compute in Hcb; discriminate].
  destruct (sent out) as [r|] eqn:Hr;
    [|vm_compute in Hcb; injection Hcb as _ <-; discriminate].
  exists s', out, r. split; [reflexivity|]. split; [exact Hr|].
  destruct (slave_report_consistent slave_low_threshold s' a_radar_info true true
              1000 1000 out r Hcb Hr) as (_ & Hid & _).
  exact Hid.
Defined.

Lemma step_defined (s : slave_t) (ev : event) :
  exists s' out, step s ev = Some (s', out).
Proof.
  destruct ev as [info hw hj now tr|data trained]; cbn [step].
  - apply slave_cb_defined.
  - eauto.
Qed.



Lemma step_keeps_calibrating (s s' : slave_t) (ev : event) (out : cb_effects) :
  calibrating (detect s) = true -> is_stop_command ev = false ->
  step s ev = Some (s', out) ->
  calibrating (detect s') = true /\ sent out = None
  /\ s_last_send_time s' = s_last_send_time s.
Proof.
  intros Hcal Hstop Hs.
  destruct ev as [info hw hj now tr|data trained]; cbn [step] in Hs.
  - destruct (slave_cb_frame _ _ _ _ _ _ _ _ Hs) as (_ & _ & _ & _ & _ & _ & _ & Hc & _).
    split; [congruence|].
    destruct (Z.lt_ge_cases (buff_count (slave_stored (detect s) info)) 5) as [Hc5|Hw].
    + rewrite (slave_cb_cold s info hw hj now tr Hc5) in Hs.
      injection Hs as <- <-. split; reflexivity.
    + destruct (slave_cb_warm s info hw hj now tr Hw) as (wa & _ & Hcb').
      cbv zeta in Hcb'. rewrite Hcb', Hcal in Hs.
      injection Hs as <- <-. split; reflexivity.
  - injection Hs as <- <-. cbn [sent].
    split; [|split; [reflexivity|]].
    + cbn [is_stop_command] in Hstop. unfold espnow_recv_cb.
      destruct (Nat.ltb_spec (length data) 1) as [Hl|Hl]; [exact Hcal|].
      destruct (Nat.leb_spec 1 (length data)) as [_|]; [|lia].
      cbn [andb] in Hstop. rewrite Hstop.
      repeat match goal with
             | |- context [if ?c then _ else _] => destruct c
             end; cbn [detect calibrating set_calibrating set_thresholds
                       set_sensitivity]; try exact Hcal; reflexivity.
    + unfold espnow_recv_cb.
      repeat match goal with
             | |- context [if ?c then _ else _] => destruct c
             end; reflexivity.
Qed.

(** X19.  The slave has no calibration timeout of its own: once
    calibrating, it stays so and sends no report through any run of
    samples and packets that holds no stop command (first byte 0x11),
    however long. *)
Theorem slave_calibration_never_times_out (evs : list event) :
  forall s : slave_t,
  calibrating (detect s) = true ->
  Forall (fun ev => is_stop_command ev = false) evs ->
  exists s',
    run s evs = Some s' /\ reports s evs = Some []
    /\ calibrating (detect s') = true
    /\ s_last_send_time s' = s_last_send_time s.
Proof.
  induction evs as [|ev evs IH]; intros s Hcal Hall.
  - exists s. repeat split; assumption.
  - apply Forall_cons in Hall as [Hev Hall].
    destruct (step_defined s ev) as (s1 & out & Hs).
    destruct (step_keeps_calibrating s s1 ev out Hcal Hev Hs) as (Hc1 & Hsent & Ht).
    destruct (IH s1 Hc1 Hall) as (s' & Hrun & Hrep & Hc' & Ht').
    exists s'. cbn [run reports]. rewrite Hs, Hrun, Hrep, Hsent.
    repeat split; try assumption; try reflexivity. congruence.
Qed.

Lemma slave_calibration_never_times_out_witness :
  calibrating (detect calibrating_slave) = true
  /\ Forall (fun ev => is_stop_command ev = false) strong_samples
  /\ exists s',
       run calibrating_slave strong_samples = Some s'
       /\ reports calibrating_slave strong_samples = Some []
       /\ calibrating (detect s') = true
       /\ s_last_send_time s' = s_last_send_time calibrating_slave.
Proof.
  assert (H : Forall (fun ev => is_stop_command ev = false) strong_samples)
    by (repeat constructor).
  split; [reflexivity|]. split; [exact H|].
  exact (slave_calibration_never_times_out strong_samples calibrating_slave eq_refl H).
Defined.

End SlaveMore.

(** * Persisted settings *)

Section Persistence.

(** X20.  What survives a power cycle of the slave.  After a stop
    command (0x11), or a SetSensitivity command addressed to the node,
    handled with the store open, a reboot restores the thresholds and
    sensitivities in force, with the calibration flag clear and empty
    windows.  The start command and SetThresholds (0x12) write nothing:
    thresholds set by 0x12 are lost at the next boot.  When the store
    cannot be opened nothing is written. *)
Theorem slave_persistence (s : Slave.slave_t) (data : list byte)
    (trained : f32 * f32) (opened : bool) (nvs : option Slave.nvs_blobs)
    (cfg : option Z) :
  let s' := fst (Slave.espnow_recv_nvs s data trained opened nvs) in
  let nvs' := snd (Slave.espnow_recv_nvs s data trained opened nvs) in
  let cmd := byte_val (data !!! 0%nat) in
  let d := Slave.detect (Slave.boot nvs' cfg) in
  (opened = true ->
   (1 <= length data)%nat ->
   cmd = 17 \/ (cmd = 19 /\ (10 <= length data)%nat
                /\ byte_val (data !!! 1%nat) = Slave.g_node_id s) ->
   Slave.wander_threshold d = Slave.wander_threshold (Slave.detect s')
   /\ Slave.jitter_threshold d = Slave.jitter_threshold (Slave.detect s')
   /\ Slave.wander_sensitivity d = Slave.wander_sensitivity (Slave.detect s')
   /\ Slave.jitter_sensitivity d = Slave.jitter_sensitivity (Slave.detect s')
   /\ Slave.calibrating d = false
   /\ Slave.buff_count d = 0)
  /\ (cmd = 16 \/ cmd = 18 -> nvs' = nvs)
  /\ (opened = false -> nvs' = nvs).
Proof.
  cbv zeta. unfold Slave.espnow_recv_nvs. cbn [fst snd].
  split; [|split].
  - intros -> Hlen Hcmd.
    assert (Hs : (1 <=? length data)%nat
                 && ((byte_val (data !!! 0%nat) =? 17)
                     || ((byte_val (data !!! 0%nat) =? 19)
                         && (10 <=? length data)%nat
                         && (byte_val (data !!! 1%nat) =? Slave.g_node_id s))) = true).
    { apply andb_true_iff. split; [apply Nat.leb_le; exact Hlen|].
      destruct Hcmd as [->|(-> & Hl & ->)]; [reflexivity|].
      rewrite !Z.eqb_refl. apply Nat.leb_le in Hl. rewrite Hl.
      reflexivity. }
    rewrite Hs. repeat split; reflexivity.
  - intros Hcmd.
    destruct Hcmd as [-> | ->]; cbn [Z.eqb orb andb]; rewrite andb_false_r;
      reflexivity.
  - intros ->. unfold Slave.nvs_save_settings. cbn [negb].
    destruct (_ && _); reflexivity.
Qed.

Lemma slave_persistence_witness :
  Slave.wander_threshold
    (Slave.detect
       (Slave.boot
          (snd (Slave.espnow_recv_nvs calibrating_slave [x11]
                  (F32.lit 2 100, F32.lit 2 1000) true None)) None))
  = F32.lit 2 100.
Proof.
  destruct (slave_persistence calibrating_slave [x11]
              (F32.lit 2 100, F32.lit 2 1000) true None None) as (H & _).
  destruct (H eq_refl ltac:(simpl; lia) (or_introl eq_refl)) as (Hw & _).
  rewrite Hw. reflexivity.
Defined.

(** X21.  What survives a power cycle of the master: booting from the
    store that [nvs_save_settings] wrote restores the two thresholds and
    the sensitivities of the three links; the links come up inactive,
    the fused flags and the calibration flag clear, the windows empty.
    When the store cannot be opened nothing is written, and without a
    store the master boots with its defaults. *)
Theorem master_settings_survive_reboot (st : Master.master_state_t)
    (nvs : option Master.nvs_blobs) :
  let st' := Master.boot (Master.nvs_save_settings true nvs st) in
  Master.wander_threshold st' = Master.wander_threshold st
  /\ Master.jitter_threshold st' = Master.jitter_threshold st
  /\ (forall k : nat, (k < 3)%nat ->
        Master.Link.wander_sensitivity (Master.links st' !!! k)
          = Master.Link.wander_sensitivity (Master.links st !!! k)
        /\ Master.Link.jitter_sensitivity (Master.links st' !!! k)
          = Master.Link.jitter_sensitivity (Master.links st !!! k)
        /\ Master.Link.active (Master.links st' !!! k) = false)
  /\ Master.calibrating st' = false
  /\ Master.room_status st' = false
  /\ Master.human_status st' = false
  /\ Master.buff_count st' = 0
  /\ Master.nvs_save_settings false nvs st = nvs
  /\ Master.boot None = Master.g_state.
Proof.
  cbv zeta. split; [reflexivity|]. split; [reflexivity|].
  split; [|repeat split; reflexivity].
  intros k Hk.
  destruct k as [|[|[|k]]]; [| | |lia]; repeat split; reflexivity.
Qed.

End Persistence.

(** * The WebSocket client table *)

Section Clients.
Import Master.

Lemma length_four {A : Type} (l : list A) :
  length l = 4%nat -> exists a b c d, l = [a; b; c; d].
Proof.
  destruct l as [|a [|b [|c [|d [|]]]]]; try discriminate. eauto.
Qed.

Lemma first_slot_first_hit (hit : Z -> bool) (v : Z) (clients : list Z) :
  length clients = MAX_WS_CLIENTS ->
  first_slot hit v clients = first_hit hit v clients.
Proof.
  intros Hlen. destruct (length_four _ Hlen) as (a & b & c & d & ->).
  unfold first_slot, for_range, MAX_WS_CLIENTS.
  cbn [Nat.sub seq fold_left lookup_total list_lookup_total first_hit].
  destruct (hit a); [reflexivity|].
  cbn [lookup_total list_lookup_total].
  destruct (hit b); [reflexivity|].
  cbn [lookup_total list_lookup_total].
  destruct (hit c); [reflexivity|].
  cbn [lookup_total list_lookup_total].
  destruct (hit d); reflexivity.
Qed.

Lemma first_hit_length (hit : Z -> bool) (v : Z) (l : list Z) :
  length (first_hit hit v l) = length l.
Proof.
  induction l as [|c l IH]; [reflexivity|].
  cbn [first_hit]. destruct (hit c); cbn [length]; congruence.
Qed.

Lemma first_hit_none (hit : Z -> bool) (v : Z) (l : list Z) :
  Forall (fun c => hit c = false) l -> first_hit hit v l = l.
Proof.
  induction 1 as [|c l Hc _ IH]; [reflexivity|].
  cbn [first_hit]. rewrite Hc, IH. reflexivity.
Qed.

Lemma first_hit_at (hit : Z -> bool) (v : Z) (l : list Z) : forall i : nat,
  (i < length l)%nat -> hit (l !!! i) = true ->
  (forall j : nat, (j < i)%nat -> hit (l !!! j) = false) ->
  first_hit hit v l = <[i := v]> l.
Proof.
  induction l as [|c l IH]; intros i Hi Hhit Hbefore; [simpl in Hi; lia|].
  destruct i as [|i].
  - cbn [lookup_total list_lookup_total] in Hhit.
    cbn [first_hit]. rewrite Hhit. reflexivity.
  - pose proof (Hbefore 0%nat ltac:(lia)) as Hc.
    cbn [lookup_total list_lookup_total] in Hc, Hhit.
    cbn [first_hit]. rewrite Hc.
    cbn [insert list_insert]. f_equal.
    apply IH.
    + simpl in Hi. lia.
    + exact Hhit.
    + intros j Hj. apply (Hbefore (S j)). lia.
Qed.

Lemma first_hit_undo (v : Z) (l : list Z) :
  Forall (fun c => c = -1 \/ 0 <= c) l -> 0 <= v -> ~ In v l ->
  first_hit (fun c => c =? v) (-1) (first_hit (fun c => c <? 0) v l) = l.
Proof.
  intros Hall Hv. induction Hall as [|c l Hc _ IH]; intros Hnew; [reflexivity|].
  cbn [In] in Hnew.
  cbn [first_hit].
  destruct (Z.ltb_spec c 0) as [Hneg|Hpos].
  - cbn [first_hit]. rewrite Z.eqb_refl. f_equal. lia.
  - cbn [first_hit].
    destruct (Z.eqb_spec c v) as [->|_]; [tauto|].
    f_equal. apply IH. tauto.
Qed.

Lemma ws_broadcast_all (clients : list Z) :
  length clients = MAX_WS_CLIENTS ->
  ws_broadcast clients (fun _ => true) = List.filter (fun c => 0 <=? c) clients.
Proof.
  intros Hlen. destruct (length_four _ Hlen) as (a & b & c & d & ->).
  unfold ws_broadcast, for_range, MAX_WS_CLIENTS.
  cbn [Nat.sub seq fold_left lookup_total list_lookup_total List.filter].
  rewrite !andb_true_r.
  destruct (0 <=? a), (0 <=? b), (0 <=? c), (0 <=? d); reflexivity.
Qed.

(** X22.  The WebSocket client table has four slots.  [ws_add_client]
    writes the descriptor into the first free slot and into no other;
    the client is then among those a broadcast is queued for.  When all
    four slots are taken the table is left as it is: a fifth client is
    not recorded. *)
Theorem ws_add_client_slots (clients : list Z) (fd : Z) :
  length clients = MAX_WS_CLIENTS ->
  length (ws_add_client clients fd) = MAX_WS_CLIENTS
  /\ (Forall (fun c => 0 <= c) clients -> ws_add_client clients fd = clients)
  /\ (forall i : nat,
        (i < MAX_WS_CLIENTS)%nat -> clients !!! i < 0 ->
        (forall j : nat, (j < i)%nat -> 0 <= clients !!! j) ->
        ws_add_client clients fd = <[i := fd]> clients
        /\ (0 <= fd ->
            In fd (ws_broadcast (ws_add_client clients fd) (fun _ => true)))).
Proof.
  intros Hlen. unfold ws_add_client.
  rewrite (first_slot_first_hit _ _ _ Hlen).
  split; [rewrite first_hit_length; exact Hlen|].
  split.
  - intros Hfull. apply first_hit_none.
    eapply Forall_impl; [exact Hfull|].
    intros c Hc. cbv beta in *. apply Z.ltb_ge. exact Hc.
  - intros i Hi Hneg Hbefore.
    assert (Hadd : first_hit (fun c => c <? 0) fd clients = <[i := fd]> clients).
    { apply first_hit_at.
      - rewrite Hlen. exact Hi.
      - apply Z.ltb_lt. exact Hneg.
      - intros j Hj. apply Z.ltb_ge. apply Hbefore. exact Hj. }
    split; [exact Hadd|].
    intros Hfd. rewrite Hadd.
    rewrite ws_broadcast_all by (rewrite length_insert; exact Hlen).
    apply filter_In. split; [|apply Z.leb_le; exact Hfd].
    apply list_elem_of_In. apply list_elem_of_lookup. exists i.
    apply list_lookup_insert_eq. rewrite Hlen. exact Hi.
Qed.

Lemma ws_add_client_slots_witness :
  length a_client_table = MAX_WS_CLIENTS
  /\ ws_add_client a_client_table 9 = [5; 9; 7; -1].
Proof.
  split; [reflexivity|].
  destruct (ws_add_client_slots a_client_table 9 eq_refl) as (_ & _ & H).
  destruct (H 1%nat) as [Hadd _].
  - unfold MAX_WS_CLIENTS. lia.
  - simpl. lia.
  - intros j Hj. destruct j as [|j]; [simpl; lia|lia].
  - exact Hadd.
Defined.

(** X23.  Adding a client and removing it again restores the client
    table, for a table whose slots are free (-1) or hold descriptors and
    a descriptor not yet in it; this holds for a full table too, where
    neither call changes anything. *)
Theorem ws_add_remove_roundtrip (clients : list Z) (fd : Z) :
  length clients = MAX_WS_CLIENTS ->
  Forall (fun c => c = -1 \/ 0 <= c) clients ->
  0 <= fd -> ~ In fd clients ->
  ws_remove_client (ws_add_client clients fd) fd = clients.
Proof.
  intros Hlen Hall Hfd Hnew.
  unfold ws_remove_client, ws_add_client.
  rewrite (first_slot_first_hit _ _ clients Hlen).
  rewrite first_slot_first_hit by (rewrite first_hit_length; exact Hlen).
  apply first_hit_undo; assumption.
Qed.

Lemma ws_add_remove_roundtrip_witness :
  length a_client_table = MAX_WS_CLIENTS
  /\ Forall (fun c => c = -1 \/ 0 <= c) a_client_table
  /\ 0 <= 9
  /\ ~ In 9 a_client_table
  /\ ws_remove_client (ws_add_client a_client_table 9) 9 = a_client_table.
Proof.
  assert (H1 : Forall (fun c => c = -1 \/ 0 <= c) a_client_table)
    by (repeat constructor; lia).
  assert (H2 : 0 <= 9) by lia.
  assert (H3 : ~ In 9 a_client_table) by (simpl; lia).
  split; [reflexivity|]. split; [exact H1|]. split; [exact H2|]. split; [exact H3|].
  exact (ws_add_remove_roundtrip a_client_table 9 eq_refl H1 H2 H3).
Defined.

End Clients.

(** * The smoother on any window *)

Lemma bubble_passes_perm (l : list f32) (i : nat) :
  (i <= length l - 1)%nat ->
  Permutation
    (fold_left (fun a i => for_range 0 (length l - i - 1) bubble_step a) (seq 0 i) l)
    l.
Proof.
  induction i as [|i IH]; intros Hi; [reflexivity|].
  rewrite seq_S, fold_left_app. cbn [Nat.add fold_left].
  specialize (IH ltac:(lia)).
  rewrite for_range_bubble_pass
    by (rewrite (Permutation_length IH); lia).
  eapply Permutation_trans; [apply bubble_pass_perm|exact IH].
Qed.

Lemma bubble_sort_perm (l : list f32) :
  Permutation (bubble_sort l (length l)) l.
Proof.
  unfold bubble_sort, for_range at 1. rewrite Nat.sub_0_r.
  apply bubble_passes_perm. lia.
Qed.

(** X24.  The sort of the smoother never loses or invents a sample:
    for every window, NaNs included, its result is a permutation of the
    window. *)
Theorem bubble_sort_permutation (l : list f32) :
  Permutation (bubble_sort l (length l)) l
  /\ length (bubble_sort l (length l)) = length l.
Proof.
  split; [apply bubble_sort_perm|apply Permutation_length, bubble_sort_perm].
Qed.

(** X25.  For a window of odd length (the callbacks use 25) the median
    is one of the samples of the window, whatever they are; when the
    allocation fails it is 0. *)
Theorem median_is_a_sample (array : list f32) (len : nat) :
  (len <= length array)%nat -> Nat.odd len = true ->
  In (median true array len) (take len array)
  /\ median false array len = F32.zero.
Proof.
  intros Hlen Hodd. unfold median.
  assert (Hpos : (0 < len)%nat) by (destruct len; [discriminate|lia]).
  destruct (Nat.eqb_spec len 0) as [H0|_]; [lia|]. cbn [negb].
  split; [|reflexivity].
  assert (Hm : (len mod 2 =? 0)%nat = false).
  { apply Nat.eqb_neq. apply Nat.odd_spec in Hodd. destruct Hodd as [h ->].
    rewrite Nat.add_comm, Nat.mul_comm, Nat.Div0.mod_add. discriminate. }
  rewrite Hm.
  assert (Htl : length (take len array) = len) by (rewrite length_take; lia).
  assert (Hp : Permutation (bubble_sort (take len array) len) (take len array)).
  { pose proof (bubble_sort_perm (take len array)) as H.
    rewrite Htl in H. exact H. }
  apply (Permutation_in _ Hp).
  apply list_elem_of_In. apply list_elem_of_lookup_total_2.
  rewrite (Permutation_length Hp), Htl.
  apply Nat.Div0.div_lt_upper_bound. lia.
Qed.

Lemma median_is_a_sample_witness :
  (5 <= length fixture_window)%nat
  /\ Nat.odd 5 = true
  /\ In (median true fixture_window 5) (take 5 fixture_window).
Proof.
  assert (H : (5 <= length fixture_window)%nat) by (simpl; lia).
  split; [exact H|]. split; [reflexivity|].
  exact (proj1 (median_is_a_sample fixture_window 5 H eq_refl)).
Defined.

(** * The LED and the link timeout *)

Section Indicators.
Import Master.

Lemma fuse_keeps_calibrating (st : master_state_t) (now : Z) :
  calibrating (fuse_detection_results st now) = calibrating st.
Proof.
  replace st with (set_calibration (calibrating st) (calibration_start_time st) st)
    at 1 by (destruct st; reflexivity).
  rewrite fuse_calibration. reflexivity.
Qed.

Lemma fuse_motion_room (st : master_state_t) (now : Z) :
  human_status (fuse_detection_results st now) = true ->
  room_status (fuse_detection_results st now) = true.
Proof.
  unfold fuse_detection_results. destruct (fuse_loop st now) as [st1 c].
  unfold set_fused. cbn [human_status room_status].
  intros H. apply andb_true_iff in H. tauto.
Qed.

(** X26.  The LED after a fusion pass on the master: blinking yellow
    while calibrating (the blink state toggles at each call); otherwise
    green exactly when the fused motion flag is set, white when only the
    fused room flag is set, off when neither is.  The slave's
    [led_update_status] maps its three arguments to the same colours. *)
Theorem led_colours (st : master_state_t) (now : Z) (blink : bool) :
  let st' := fuse_detection_results st now in
  led_update st' blink =
    (if calibrating st then
       ({| red := if blink then 255 else 0; green := if blink then 255 else 0;
           blue := 0 |}, negb blink)
     else if human_status st' then ({| red := 0; green := 255; blue := 0 |}, blink)
     else if room_status st' then ({| red := 255; green := 255; blue := 255 |}, blink)
     else ({| red := 0; green := 0; blue := 0 |}, blink))
  /\ forall room human cal : bool,
       Slave.led_update_status room human cal blink
       = led_update (set_calibration cal 0 (set_fused room human st)) blink.
Proof.
  cbv zeta. split.
  - unfold led_update. rewrite fuse_keeps_calibrating.
    destruct (calibrating st); [reflexivity|].
    pose proof (fuse_motion_room st now) as H.
    destruct (human_status (fuse_detection_results st now)).
    + rewrite H by reflexivity. reflexivity.
    + reflexivity.
  - intros room human cal. unfold Slave.led_update_status, led_update.
    cbn [calibrating room_status human_status set_calibration set_fused].
    destruct cal, room, human, blink; reflexivity.
Qed.

(** X27.  The link timeout is exact across the wrap-around of the
    32-bit millisecond clock: a pass run [d] ms after a link's last
    update leaves the link active exactly when it was active and
    [d < 3000]. *)
Theorem link_timeout_across_wrap (st : master_state_t) (i : nat)
    (l : link_status_t) (d : Z) :
  length (links st) = 3%nat ->
  links st !! i = Some l ->
  0 <= Link.last_update l < U32.modulus ->
  0 <= d < U32.modulus ->
  let now := U32.wrap (Link.last_update l + d) in
  Link.active (links (fuse_detection_results st now) !!! i)
  = Link.active l && (d <? LINK_TIMEOUT_MS).
Proof.
  intros Hlen Hi Ht Hd. cbv zeta.
  rewrite (fuse_link_at st _ i l Hlen Hi), link_after_active.
  unfold counted. rewrite u32_elapsed by assumption. reflexivity.
Qed.

Lemma link_timeout_across_wrap_witness :
  length (links scenario_wrap) = 3%nat
  /\ links scenario_wrap !! 0%nat
     = Some (a_link true false false (F32.of_Z 1) F32.zero 4294967000)
  /\ 0 <= 4294967000 < U32.modulus
  /\ 0 <= 2999 < U32.modulus
  /\ Link.active
       (links (fuse_detection_results scenario_wrap (U32.wrap (4294967000 + 2999)))
          !!! 0%nat) = true.
Proof.
  assert (H1 : 0 <= 4294967000 < U32.modulus) by (unfold U32.modulus; lia).
  assert (H2 : 0 <= 2999 < U32.modulus) by (unfold U32.modulus; lia).
  split; [reflexivity|]. split; [reflexivity|]. split; [exact H1|]. split; [exact H2|].
  exact (link_timeout_across_wrap scenario_wrap 0
           (a_link true false false (F32.of_Z 1) F32.zero 4294967000) 2999
           eq_refl eq_refl H1 H2).
Defined.

End Indicators.

(** * The master's radar callback *)

Section MasterLocal.
Import Master.



End MasterLocal.
